(** * Cheshire: wallet authentication and session lifecycle

    A shallow embedding of the authentication core of the Cheshire voting
    application and the properties of its specification.

    Server side (Node/Express):
    - [utils/supabaseAuth.js]: [createAuthSession], [verifyAuthToken],
      [invalidateSession], [cleanupExpiredSessions];
    - [middleware/jwtAuth.js]: [requireJwtAuth], [optionalJwtAuth];
    - [routes/authRoutes.js]: the [/check-user], [/signin], [/me] and
      [/signout] handlers;
    - [routes/userRoutes.js]: the [/exists] handler;
    - [database/supabase.js]: the check of the environment at import and
      [userDb.exists].

    Client side (React/zustand):
    - the store [useAuthStore] with its cache (second part of the store
      source, imported by no other module): [getCachedAuth],
      [setCachedAuth], [clearCachedAuth];
    - [store/supabaseAuthStore.ts]: [logout], [initializeAuth],
      [setAuthenticated], [getAuthHeaders], [checkUserStatus], [signIn];
    - [hooks/useWalletAuthSync.ts]: [clearWalletData] and the two effects;
    - the adapter of the wallet library: [createMessage], [verify].

    Asynchronous JavaScript is embedded in a state-and-exception monad over an
    explicit world.  The libraries the code calls (jsonwebtoken, JSON, the
    Postgres table behind supabase-js) are interfaces: the JWT and JSON codecs
    are type classes, the tables are finite maps with the constraints of the
    schema in the README. *)

From Stdlib Require Import ZArith Lia String Ascii List Bool DecimalString.
From stdpp Require Import gmap strings list fin_maps.

(* ===================================================================== *)
(** * Part I: definitions                                                 *)
(* ===================================================================== *)

(** ** JavaScript values and strings *)

Module Js.

(** [String.prototype.toLowerCase], on the ASCII range.  The strings it is
    applied to are wallet addresses ([0x] and forty hexadecimal digits). *)
Definition lower_ascii (c : ascii) : ascii :=
  let n := N_of_ascii c in
  if ((65 <=? n) && (n <=? 90))%N then ascii_of_N (n + 32) else c.

Fixpoint toLowerCase (s : string) : string :=
  match s with
  | EmptyString => EmptyString
  | String c s' => String (lower_ascii c) (toLowerCase s')
  end.

(** [s.startsWith(p)] *)
Definition startsWith (s p : string) : bool := String.prefix p s.

(** [s.substring(n)]: the string without its first [n] characters. *)
Fixpoint substring_from (n : nat) (s : string) : string :=
  match n, s with
  | O, _ => s
  | S n', String _ s' => substring_from n' s'
  | S _, EmptyString => EmptyString
  end.

(** [s.includes(needle)] *)
Fixpoint includes (s needle : string) : bool :=
  String.prefix needle s ||
  match s with
  | EmptyString => false
  | String _ s' => includes s' needle
  end.

(** A string is truthy when it is not empty. *)
Definition nonempty (s : string) : bool :=
  match s with EmptyString => false | String _ _ => true end.

(** JSON data, as [express.json()] leaves it in [req.body] and as
    [res.json] sends it; [JUndefined] is an absent property.  Numbers are
    integers here: the only numbers the modelled code produces or reads are
    HTTP-independent flags and millisecond timestamps. *)
#[local] Set Warnings "-register-all".
Inductive Json : Type :=
| JUndefined
| JNull
| JBool (b : bool)
| JNum (n : Z)
| JStr (s : string)
| JArr (items : list Json)
| JObj (fields : list (string * Json)).

(** JavaScript truthiness ([!v] is its negation). *)
Definition truthy (v : Json) : bool :=
  match v with
  | JUndefined | JNull => false
  | JBool b => b
  | JNum n => negb (n =? 0)%Z
  | JStr s => nonempty s
  | JArr _ | JObj _ => true
  end.

(** Property access [o.k] on an object literal. *)
Fixpoint assoc (k : string) (fields : list (string * Json)) : Json :=
  match fields with
  | [] => JUndefined
  | (k', v) :: rest => if String.eqb k k' then v else assoc k rest
  end.

Definition prop (o : Json) (k : string) : Json :=
  match o with
  | JObj fields => assoc k fields
  | _ => JUndefined
  end.

(** Exceptions that the modelled code can throw or catch.  A
    [PostgrestError] is the [error] object of a supabase-js reply; its
    [code] is what the sign-in handler inspects. *)
Inductive Exn : Type :=
| PostgrestError (code : string)
| JsonWebTokenError
| TokenExpiredError
| TypeError
| SyntaxError.

(** [error.code], [undefined] on errors that carry none. *)
Definition error_code (e : Exn) : option string :=
  match e with
  | PostgrestError c => Some c
  | _ => None
  end.

(** *** The monad: a world threaded through, and exceptions *)

Inductive Res (A : Type) : Type :=
| Ret (a : A)
| Throw (e : Exn).
Arguments Ret {A} a.
Arguments Throw {A} e.

Definition M (W A : Type) : Type := W -> Res A * W.

Definition ret {W A} (a : A) : M W A := fun w => (Ret a, w).

Definition throw {W A} (e : Exn) : M W A := fun w => (Throw e, w).

Definition bind {W A B} (m : M W A) (k : A -> M W B) : M W B :=
  fun w =>
    match m w with
    | (Ret a, w') => k a w'
    | (Throw e, w') => (Throw e, w')
    end.

(** [try { m } catch (error) { h error }] *)
Definition try_catch {W A} (m : M W A) (h : Exn -> M W A) : M W A :=
  fun w =>
    match m w with
    | (Ret a, w') => (Ret a, w')
    | (Throw e, w') => h e w'
    end.

Definition get {W} : M W W := fun w => (Ret w, w).

Definition modify {W} (f : W -> W) : M W unit := fun w => (Ret tt, f w).

End Js.

Import Js.

Declare Scope js_scope.
Delimit Scope js_scope with js.
Notation "x <- c1 ;; c2" := (bind c1 (fun x => c2))
  (at level 100, c1 at next level, right associativity) : js_scope.
Notation "c1 ;; c2" := (bind c1 (fun _ => c2))
  (at level 100, right associativity) : js_scope.

(** ** The server *)

Module Server.

Local Open Scope Z_scope.
Local Open Scope js_scope.

(** *** jsonwebtoken *)

(** The claims [createAuthSession] puts in a token. *)
Record Payload : Type := {
  wallet_address : string;
  iat : Z;
  exp : Z;
  iss : string;
  sub : string
}.

(** The codec of the jsonwebtoken library.  [jwt_sign p k] is the text of
    [jwt.sign(p, k)]; [jwt_decode t k] is the payload of [t] when [t] carries
    a valid signature under [k], and [None] when [jwt.verify(t, k)] rejects
    the text or its signature. *)
Class JwtLib : Type := {
  jwt_sign : Payload -> string -> string;
  jwt_decode : string -> string -> option Payload
}.

(** *** The world of the server process *)

(** [process.env] (after [dotenv.config()]): the two variables the session
    functions read for the secret, and the two others the database module
    reads at import.  [None] is an unset variable. *)
Record Env : Type := {
  JWT_SECRET : option string;
  SUPABASE_SERVICE_KEY : option string;
  SUPABASE_URL : option string;
  SUPABASE_ANON_KEY : option string
}.




(** A row of [user_sessions] without its primary key [jwt_token], which is
    the key of the map that holds the table. *)
Record SessionRow : Type := {
  row_wallet_address : string;
  expires_at : Z;
  created_at : Z
}.

(** Requests sent to the database, in the order they were sent. *)
Inductive DbCall : Type :=
| SelectUser (wallet : string)
| InsertSession (token : string) (row : SessionRow)
| SelectSession (token wallet : string)
| DeleteSessionByToken (token : string)
| DeleteSession (token wallet : string)
| DeleteExpired (cutoff : Z).

(** - [clock] is the last value [Date.now()] returned (milliseconds);
      [delays] gives the time that passes before each of the next reads;
    - [faults] gives, for each of the next database requests, the error code
      of an infrastructure failure ([None]: the request reaches the table);
    - [users] is the [wallet_address] column of the [users] table,
      [user_sessions] the sessions table keyed by [jwt_token];
    - [db_calls] records the requests sent. *)
Record World : Type := {
  process_env : Env;
  clock : Z;
  delays : list N;
  faults : list (option string);
  users : gset string;
  user_sessions : gmap string SessionRow;
  db_calls : list DbCall
}.

Definition tick (w : World) : World :=
  {| process_env := process_env w;
     clock := clock w + Z.of_N (hd 0%N (delays w));
     delays := tl (delays w);
     faults := faults w;
     users := users w;
     user_sessions := user_sessions w;
     db_calls := db_calls w |}.

Definition sent (c : DbCall) (w : World) : World :=
  {| process_env := process_env w;
     clock := clock w;
     delays := delays w;
     faults := tl (faults w);
     users := users w;
     user_sessions := user_sessions w;
     db_calls := db_calls w ++ [c] |}.

Definition with_sessions (t : gmap string SessionRow) (w : World) : World :=
  {| process_env := process_env w;
     clock := clock w;
     delays := delays w;
     faults := faults w;
     users := users w;
     user_sessions := t;
     db_calls := db_calls w |}.

(** [Date.now()] *)
Definition Date_now : M World Z :=
  fun w => let w' := tick w in (Ret (clock w'), w').

(** Sending a request: it is recorded, and the next entry of [faults] says
    whether it fails before reaching the table. *)
Definition db_send (c : DbCall) : M World (option string) :=
  fun w => (Ret (hd None (faults w)), sent c w).

(** *** supabase-js queries *)

(** The [{ data, error }] object a query resolves to. *)
Record Reply (A : Type) : Type := {
  data : option A;
  error : option Exn
}.
Arguments data {A} r.
Arguments error {A} r.

Definition reply_error {A} (code : string) : Reply A :=
  {| data := None; error := Some (PostgrestError code) |}.

Definition reply_data {A} (a : A) : Reply A :=
  {| data := Some a; error := None |}.

(** [supabase.from('users').select('wallet_address')
       .eq('wallet_address', a).single()]; [PGRST116] is the error of
    [single()] on an empty result. *)
Definition users_select_single (a : string) : M World (Reply string) :=
  fault <- db_send (SelectUser a) ;;
  match fault with
  | Some code => ret (reply_error code)
  | None =>
      w <- get ;;
      if decide (a ∈ users w) then ret (reply_data a)
      else ret (reply_error "PGRST116")
  end.

(** [supabase.from('user_sessions').insert([row])].  The table has
    [jwt_token] as primary key (unique violation 23505) and
    [wallet_address] referencing [users] (foreign key violation 23503). *)
Definition user_sessions_insert (token : string) (row : SessionRow)
  : M World (option Exn) :=
  fault <- db_send (InsertSession token row) ;;
  match fault with
  | Some code => ret (Some (PostgrestError code))
  | None =>
      w <- get ;;
      match user_sessions w !! token with
      | Some _ => ret (Some (PostgrestError "23505"))
      | None =>
          if decide (row_wallet_address row ∈ users w) then
            modify (with_sessions (<[token := row]> (user_sessions w))) ;;
            ret None
          else ret (Some (PostgrestError "23503"))
      end
  end.

(** [supabase.from('user_sessions').select('*').eq('jwt_token', token)
       .eq('wallet_address', wallet).single()] *)
Definition user_sessions_select_single (token wallet : string)
  : M World (Reply SessionRow) :=
  fault <- db_send (SelectSession token wallet) ;;
  match fault with
  | Some code => ret (reply_error code)
  | None =>
      w <- get ;;
      match user_sessions w !! token with
      | Some row =>
          if String.eqb (row_wallet_address row) wallet then ret (reply_data row)
          else ret (reply_error "PGRST116")
      | None => ret (reply_error "PGRST116")
      end
  end.

(** [supabase.from('user_sessions').delete().eq('jwt_token', token)] *)
Definition user_sessions_delete_token (token : string) : M World (option Exn) :=
  fault <- db_send (DeleteSessionByToken token) ;;
  match fault with
  | Some code => ret (Some (PostgrestError code))
  | None =>
      w <- get ;;
      modify (with_sessions (delete token (user_sessions w))) ;;
      ret None
  end.

(** [... .delete().eq('jwt_token', token).eq('wallet_address', wallet)] *)
Definition user_sessions_delete (token wallet : string) : M World (option Exn) :=
  fault <- db_send (DeleteSession token wallet) ;;
  match fault with
  | Some code => ret (Some (PostgrestError code))
  | None =>
      w <- get ;;
      match user_sessions w !! token with
      | Some row =>
          if String.eqb (row_wallet_address row) wallet then
            modify (with_sessions (delete token (user_sessions w))) ;;
            ret None
          else ret None
      | None => ret None
      end
  end.

(** [... .delete().lt('expires_at', cutoff)] *)
Definition user_sessions_delete_lt (cutoff : Z) : M World (option Exn) :=
  fault <- db_send (DeleteExpired cutoff) ;;
  match fault with
  | Some code => ret (Some (PostgrestError code))
  | None =>
      w <- get ;;
      modify (with_sessions
                (filter (fun kv => ~ (expires_at (snd kv) < cutoff))
                        (user_sessions w))) ;;
      ret None
  end.

(** *** utils/supabaseAuth.js *)

(** Session duration in seconds (36 hours). *)
Definition SESSION_DURATION : Z := 129600.

(** [a || b] on environment variables: an unset or empty variable is
    falsy. *)
Definition js_or (a b : option string) : option string :=
  match a with
  | Some s => if nonempty s then a else b
  | None => b
  end.

(** [a || 'literal'] *)
Definition js_or_lit (a : option string) (b : string) : string :=
  match a with
  | Some s => if nonempty s then s else b
  | None => b
  end.

(** What [verifyAuthToken] resolves to when it is not [null]. *)
Record AuthResult : Type := {
  walletAddress : string;
  isValid : bool
}.

Section WithJwt.

Context {J : JwtLib}.

(** [jwt.verify(token, secret)] without options: the library reads the
    clock first ([clockTimestamp = Math.floor(Date.now() / 1000)]), rejects a
    bad text or signature with [JsonWebTokenError], and rejects with
    [TokenExpiredError] when [clockTimestamp >= payload.exp]. *)
Definition jwt_verify (token secret : string) : M World Payload :=
  now <- Date_now ;;
  let clockTimestamp := now / 1000 in
  match jwt_decode token secret with
  | None => throw JsonWebTokenError
  | Some payload =>
      if clockTimestamp >=? exp payload then throw TokenExpiredError
      else ret payload
  end.

(** [createAuthSession(walletAddress)]; the result is the [token] field of
    the object the function resolves to. *)
Definition createAuthSession (walletAddress : string) : M World string :=
  try_catch
    (t_iat <- Date_now ;;
     t_exp <- Date_now ;;
     let userPayload :=
       {| wallet_address := toLowerCase walletAddress;
          iat := t_iat / 1000;
          exp := t_exp / 1000 + SESSION_DURATION;
          iss := "cheshire-auth";
          sub := toLowerCase walletAddress |} in
     w <- get ;;
     let jwtSecret :=
       js_or_lit (js_or (JWT_SECRET (process_env w))
                        (SUPABASE_SERVICE_KEY (process_env w)))
                 "fallback-secret" in
     let token := jwt_sign userPayload jwtSecret in
     t_expires <- Date_now ;;
     t_created <- Date_now ;;
     error <- user_sessions_insert token
                {| row_wallet_address := toLowerCase walletAddress;
                   expires_at := t_expires + SESSION_DURATION * 1000;
                   created_at := t_created |} ;;
     match error with
     | Some e => throw e
     | None => ret token
     end)
    (fun error => throw error).

(** [verifyAuthToken(token)]: [None] is [null]. *)
Definition verifyAuthToken (token : string) : M World (option AuthResult) :=
  try_catch
    (w <- get ;;
     let jwtSecret :=
       js_or_lit (js_or (JWT_SECRET (process_env w))
                        (SUPABASE_SERVICE_KEY (process_env w)))
                 "fallback-secret" in
     decoded <- jwt_verify token jwtSecret ;;
     r <- user_sessions_select_single token (wallet_address decoded) ;;
     match error r, data r with
     | None, Some session =>
         now <- Date_now ;;
         if expires_at session <? now then
           user_sessions_delete_token token ;;
           ret None
         else
           ret (Some {| walletAddress := wallet_address decoded;
                        isValid := true |})
     | _, _ => ret None
     end)
    (fun _ => ret None).

(** [invalidateSession(token)] *)
Definition invalidateSession (token : string) : M World bool :=
  try_catch
    (w <- get ;;
     let jwtSecret :=
       js_or_lit (js_or (JWT_SECRET (process_env w))
                        (SUPABASE_SERVICE_KEY (process_env w)))
                 "fallback-secret" in
     decoded <- jwt_verify token jwtSecret ;;
     error <- user_sessions_delete token (wallet_address decoded) ;;
     match error with
     | Some _ => ret false
     | None => ret true
     end)
    (fun _ => ret false).

End WithJwt.

(** [cleanupExpiredSessions()]: the function has no [return] statement, so
    its promise resolves to [undefined] on every path. *)
Definition cleanupExpiredSessions : M World Json :=
  try_catch
    (now <- Date_now ;;
     error <- user_sessions_delete_lt now ;;
     match error with
     | Some _ => ret JUndefined
     | None => ret JUndefined
     end)
    (fun _ => ret JUndefined).

(** *** database/supabase.js *)

(** [userDb.exists(walletAddress)] *)
Definition userDb_exists (walletAddress : string) : M World bool :=
  try_catch
    (r <- users_select_single (toLowerCase walletAddress) ;;
     match error r with
     | Some e =>
         if negb (bool_decide (error_code e = Some "PGRST116")) then throw e
         else ret (bool_decide (is_Some (data r)))
     | None => ret (bool_decide (is_Some (data r)))
     end)
    (fun e => throw e).

(** *** HTTP *)

Record Response : Type := {
  status : Z;
  body : Json
}.

(** What a middleware does with a request: it answers, or it calls
    [next()] after setting [req.user.walletAddress]. *)
Inductive Handled : Type :=
| Responded (r : Response)
| Next (user : string).

(** [!authHeader || !authHeader.startsWith('Bearer ')] *)
Definition no_bearer (authorization : option string) : bool :=
  match authorization with
  | None => true
  | Some authHeader =>
      negb (nonempty authHeader) || negb (startsWith authHeader "Bearer ")
  end.

(** [authHeader.substring(7)] *)
Definition bearer_token (authorization : option string) : string :=
  match authorization with
  | None => ""
  | Some authHeader => substring_from 7 authHeader
  end.

(** *** routes/authRoutes.js: the regular expression of the sign-in route *)

Definition in_range (lo hi : N) (c : ascii) : bool :=
  ((lo <=? N_of_ascii c) && (N_of_ascii c <=? hi))%N.

(** [[a-fA-F0-9]] *)
Definition is_hex (c : ascii) : bool :=
  in_range 97 102 c || in_range 65 70 c || in_range 48 57 c.

(** [[a-fA-F0-9]{n}] at the start of [s]: the [n] characters matched. *)
Fixpoint hex_run (n : nat) (s : string) : option string :=
  match n with
  | O => Some EmptyString
  | S n' =>
      match s with
      | String c s' =>
          if is_hex c then
            match hex_run n' s' with
            | Some r => Some (String c r)
            | None => None
            end
          else None
      | EmptyString => None
      end
  end.

(** The expression anchored at the start of [s]; the result is capture
    group 1. *)
Definition address_here (s : string) : option string :=
  if String.prefix "Address: 0x" s then
    match hex_run 40 (substring_from 11 s) with
    | Some digits => Some ("0x" +:+ digits)
    | None => None
    end
  else None.

(** [s.match(/Address: (0x[a-fA-F0-9]{40})/)]: capture group 1 of the
    leftmost match, [None] when the result is [null]. *)
Fixpoint match_address (s : string) : option string :=
  match address_here s with
  | Some a => Some a
  | None =>
      match s with
      | EmptyString => None
      | String _ s' => match_address s'
      end
  end.

(** [message.match(...)] on a body field: a truthy value that is not a
    string has no callable [match], and the call throws a [TypeError]. *)
Definition message_match (message : Json) : M World (option string) :=
  match message with
  | JStr s => ret (match_address s)
  | _ => throw TypeError
  end.

Definition respond (code : Z) (fields : list (string * Json)) : Response :=
  {| status := code; body := JObj fields |}.

Section Routes.

Context {J : JwtLib}.

(** [requireJwtAuth(req, res, next)], on [req.headers.authorization]. *)
Definition requireJwtAuth (authorization : option string) : M World Handled :=
  try_catch
    (if no_bearer authorization then
       ret (Responded (respond 401
              [("error", JStr "Authentication required - Bearer token missing");
               ("authenticated", JBool false)]))
     else
       let token := bearer_token authorization in
       authResult <- verifyAuthToken token ;;
       match authResult with
       | Some r =>
           if negb (isValid r) then
             ret (Responded (respond 401
                    [("error", JStr "Invalid or expired token");
                     ("authenticated", JBool false)]))
           else ret (Next (walletAddress r))
       | None =>
           ret (Responded (respond 401
                  [("error", JStr "Invalid or expired token");
                   ("authenticated", JBool false)]))
       end)
    (fun _ =>
       ret (Responded (respond 500
              [("error", JStr "Authentication check failed")]))).

(** [POST /api/auth/signin], on the [message] and [signature] properties
    of [req.body]. *)
Definition signin (message signature : Json) : M World Response :=
  if negb (truthy message) || negb (truthy signature) then
    ret (respond 400
           [("success", JBool false);
            ("error", JStr "Missing message or signature")])
  else
    try_catch
      (addressMatch <- message_match message ;;
       match addressMatch with
       | None =>
           ret (respond 400
                  [("success", JBool false);
                   ("error",
                    JStr "Invalid message format - could not extract address")])
       | Some address =>
           userExists <- userDb_exists address ;;
           if negb userExists then
             ret (respond 403
                    [("success", JBool false);
                     ("error", JStr "Profile setup required");
                     ("needsSetup", JBool true);
                     ("address", JStr (toLowerCase address))])
           else
             token <- createAuthSession address ;;
             ret (respond 200
                    [("success", JBool true);
                     ("token", JStr token);
                     ("user", JObj [("walletAddress", JStr address)])])
       end)
      (fun error =>
         if bool_decide (error_code error = Some "23503") then
           ret (respond 403
                  [("success", JBool false);
                   ("error", JStr "Profile setup required");
                   ("needsSetup", JBool true)])
         else
           ret (respond 500
                  [("success", JBool false);
                   ("error", JStr "Authentication failed")])).

(** [POST /api/auth/signout] *)
Definition signout (authorization : option string) : M World Response :=
  try_catch
    (if no_bearer authorization then
       ret (respond 400
              [("success", JBool false);
               ("error", JStr "No token provided")])
     else
       let token := bearer_token authorization in
       invalidateSession token ;;
       ret (respond 200
              [("success", JBool true);
               ("message", JStr "Signed out successfully")]))
    (fun _ =>
       ret (respond 500
              [("success", JBool false);
               ("error", JStr "Signout failed")])).

End Routes.

(** *** middleware/jwtAuth.js and the routes that only read *)

(** [authHeader && authHeader.startsWith('Bearer ')] *)
Definition has_bearer (authorization : option string) : bool :=
  match authorization with
  | None => false
  | Some authHeader => nonempty authHeader && startsWith authHeader "Bearer "
  end.

(** A value of [req.query]: absent, a string, or an array or object that
    the query parser built.  An array or object is truthy, has no
    [toLowerCase], and [text] is what [String(value)] gives, which is what
    [RegExp.prototype.test] looks at. *)
Inductive QueryValue : Type :=
| QAbsent
| QText (s : string)
| QOther (text : string).

(** [/^0x[a-fA-F0-9]{40}$/.test(s)] *)
Definition is_wallet_address (s : string) : bool :=
  String.prefix "0x" s &&
  match hex_run 40 (substring_from 2 s) with
  | Some digits => String.eqb (substring_from 2 s) digits
  | None => false
  end.

Section Guards.

Context {J : JwtLib}.

(** [optionalJwtAuth(req, res, next)]: the middleware always calls
    [next()]; the result is [req.user.walletAddress] when it was set. *)
Definition optionalJwtAuth (authorization : option string)
  : M World (option string) :=
  try_catch
    (if has_bearer authorization then
       let token := bearer_token authorization in
       authResult <- verifyAuthToken token ;;
       match authResult with
       | Some r => if isValid r then ret (Some (walletAddress r)) else ret None
       | None => ret None
       end
     else ret None)
    (fun _ => ret None).

(** [GET /api/auth/me] (and [GET /api/me], which has the same guard and the
    same body). *)
Definition me (authorization : option string) : M World Response :=
  handled <- requireJwtAuth authorization ;;
  match handled with
  | Responded r => ret r
  | Next user =>
      try_catch
        (ret (respond 200
                [("authenticated", JBool true);
                 ("user", JObj [("walletAddress", JStr user)])]))
        (fun _ => ret (respond 500 [("error", JStr "Internal server error")]))
  end.

End Guards.

(** [GET /api/auth/check-user?address=...].  For an array or object that
    passes the test of the regular expression, [userDb.exists] throws at
    [walletAddress.toLowerCase()], before the query is built and sent. *)
Definition check_user (address : QueryValue) : M World Response :=
  try_catch
    (match address with
     | QAbsent =>
         ret (respond 400 [("error", JStr "Wallet address is required")])
     | QText s =>
         if negb (nonempty s) then
           ret (respond 400 [("error", JStr "Wallet address is required")])
         else if negb (is_wallet_address s) then
           ret (respond 400 [("error", JStr "Invalid wallet address format")])
         else
           exists_ <- userDb_exists s ;;
           ret (respond 200
                  [("exists", JBool exists_);
                   ("canSignIn", JBool exists_);
                   ("needsSetup", JBool (negb exists_));
                   ("address", JStr (toLowerCase s))])
     | QOther text =>
         if negb (is_wallet_address text) then
           ret (respond 400 [("error", JStr "Invalid wallet address format")])
         else throw TypeError
     end)
    (fun _ => ret (respond 500 [("error", JStr "Failed to check user status")])).

(** [GET /api/user/exists?address=...] *)
Definition user_exists (address : QueryValue) : M World Response :=
  try_catch
    (match address with
     | QAbsent =>
         ret (respond 400 [("error", JStr "Wallet address is required")])
     | QText s =>
         if negb (nonempty s) then
           ret (respond 400 [("error", JStr "Wallet address is required")])
         else if negb (is_wallet_address s) then
           ret (respond 400 [("error", JStr "Invalid wallet address format")])
         else
           exists_ <- userDb_exists s ;;
           ret (respond 200
                  [("exists", JBool exists_);
                   ("address", JStr (toLowerCase s))])
     | QOther text =>
         if negb (is_wallet_address text) then
           ret (respond 400 [("error", JStr "Invalid wallet address format")])
         else throw TypeError
     end)
    (fun _ => ret (respond 500 [("error", JStr "Failed to check user existence")])).

End Server.

(** ** The client *)

Module Client.

Local Open Scope Z_scope.
Local Open Scope js_scope.

(** The state of the zustand store of [supabaseAuthStore.ts]. *)
Record AuthState : Type := {
  isAuthenticated : bool;
  isAuthenticating : bool;
  userAddress : option string;
  userExists : bool;
  isCheckingUser : bool;
  serverError : bool;
  jwtToken : option string
}.

(** The store as [create] builds it. *)
Definition initial_state : AuthState :=
  {| isAuthenticated := false;
     isAuthenticating := false;
     userAddress := None;
     userExists := false;
     isCheckingUser := false;
     serverError := false;
     jwtToken := None |}.

(** An [async] function stopped at an [await]. *)
Inductive Task : Type :=
| LogoutAfterFetch.

(** What a [setTimeout] callback of the hook does. *)
Inductive Timer : Type :=
| Reload
| GoHome.

(** A [fetch] sent to the server. *)
Inductive Request : Type :=
| SignoutRequest (bearer : string).

(** The browser tab: the clock, the two Web Storage areas, the store, the
    two refs of [useWalletAuthSync], what is waiting to run, and the
    requests sent so far. *)
Record World : Type := {
  clock : Z;
  delays : list N;
  localStorage : gmap string string;
  sessionStorage : gmap string string;
  store : AuthState;
  prevAddressRef : option string;
  initializedRef : bool;
  pending : list Task;
  timers : list Timer;
  requests : list Request
}.

Definition tick (w : World) : World :=
  {| clock := clock w + Z.of_N (hd 0%N (delays w));
     delays := tl (delays w);
     localStorage := localStorage w;
     sessionStorage := sessionStorage w;
     store := store w;
     prevAddressRef := prevAddressRef w;
     initializedRef := initializedRef w;
     pending := pending w;
     timers := timers w;
     requests := requests w |}.

Definition with_localStorage (m : gmap string string) (w : World) : World :=
  {| clock := clock w;
     delays := delays w;
     localStorage := m;
     sessionStorage := sessionStorage w;
     store := store w;
     prevAddressRef := prevAddressRef w;
     initializedRef := initializedRef w;
     pending := pending w;
     timers := timers w;
     requests := requests w |}.

Definition with_sessionStorage (m : gmap string string) (w : World) : World :=
  {| clock := clock w;
     delays := delays w;
     localStorage := localStorage w;
     sessionStorage := m;
     store := store w;
     prevAddressRef := prevAddressRef w;
     initializedRef := initializedRef w;
     pending := pending w;
     timers := timers w;
     requests := requests w |}.

Definition with_store (st : AuthState) (w : World) : World :=
  {| clock := clock w;
     delays := delays w;
     localStorage := localStorage w;
     sessionStorage := sessionStorage w;
     store := st;
     prevAddressRef := prevAddressRef w;
     initializedRef := initializedRef w;
     pending := pending w;
     timers := timers w;
     requests := requests w |}.

Definition with_refs (prev : option string) (init : bool) (w : World) : World :=
  {| clock := clock w;
     delays := delays w;
     localStorage := localStorage w;
     sessionStorage := sessionStorage w;
     store := store w;
     prevAddressRef := prev;
     initializedRef := init;
     pending := pending w;
     timers := timers w;
     requests := requests w |}.

Definition with_queue (ts : list Task) (tm : list Timer) (rq : list Request)
    (w : World) : World :=
  {| clock := clock w;
     delays := delays w;
     localStorage := localStorage w;
     sessionStorage := sessionStorage w;
     store := store w;
     prevAddressRef := prevAddressRef w;
     initializedRef := initializedRef w;
     pending := ts;
     timers := tm;
     requests := rq |}.

(** [Date.now()] *)
Definition Date_now : M World Z :=
  fun w => let w' := tick w in (Ret (clock w'), w').

(** Web Storage *)
Definition localStorage_getItem (key : string) : M World (option string) :=
  w <- get ;; ret (localStorage w !! key).

Definition localStorage_setItem (key value : string) : M World unit :=
  w <- get ;; modify (with_localStorage (<[key := value]> (localStorage w))).

Definition localStorage_removeItem (key : string) : M World unit :=
  w <- get ;; modify (with_localStorage (delete key (localStorage w))).

Definition sessionStorage_removeItem (key : string) : M World unit :=
  w <- get ;; modify (with_sessionStorage (delete key (sessionStorage w))).

(** [Object.keys(storage)] *)
Definition Object_keys (m : gmap string string) : list string :=
  (map_to_list m).*1.

(** [keys.forEach(f)] *)
Fixpoint forEach {A} (l : list A) (f : A -> M World unit) : M World unit :=
  match l with
  | [] => ret tt
  | x :: rest => f x ;; forEach rest f
  end.

(** A value that may be [null] or [undefined] is truthy when it is a
    non-empty string. *)
Definition truthy_str (v : option string) : bool :=
  match v with
  | Some s => nonempty s
  | None => false
  end.

(** *** The store [useAuthStore]: the cache with a time to live *)

Module AuthStore.

(** 6 minutes in milliseconds. *)
Definition CACHE_DURATION : Z := 6 * 60 * 1000.
Definition CACHE_KEY : string := "cheshire_auth_cache".

(** [interface AuthCache] *)
Record AuthCache : Type := {
  isAuthenticated : bool;
  userAddress : option string;
  userExists : bool;
  timestamp : Z
}.

(** What [JSON.parse] does with a stored text: it throws a [SyntaxError],
    or yields [null] (reading [parsed.timestamp] then throws a [TypeError],
    after the clock has been read), or yields a value that the code types
    as [AuthCache].  Values of other shapes (no numeric [timestamp]) are not
    represented. *)
Inductive Parsed : Type :=
| ParseError
| ParsedNull
| ParsedCache (c : AuthCache).

Class JsonLib : Type := {
  JSON_parse : string -> Parsed;
  JSON_stringify : AuthCache -> string
}.

Section WithJson.

Context {L : JsonLib}.

(** [getCachedAuth()]: [None] is [null]. *)
Definition getCachedAuth : M World (option AuthCache) :=
  try_catch
    (cached <- localStorage_getItem CACHE_KEY ;;
     if negb (truthy_str cached) then ret None
     else
       parsed <- match JSON_parse (default "" cached) with
                 | ParseError => throw SyntaxError
                 | ParsedNull => ret None
                 | ParsedCache c => ret (Some c)
                 end ;;
       now <- Date_now ;;
       match parsed with
       | None => throw TypeError
       | Some c =>
           if now - timestamp c >? CACHE_DURATION then
             localStorage_removeItem CACHE_KEY ;;
             ret None
           else ret (Some c)
       end)
    (fun _ =>
       localStorage_removeItem CACHE_KEY ;;
       ret None).

(** [setCachedAuth(isAuthenticated, userAddress, userExists)] *)
Definition setCachedAuth (isAuthenticated : bool) (userAddress : option string)
    (userExists : bool) : M World unit :=
  try_catch
    (now <- Date_now ;;
     let cacheData :=
       {| isAuthenticated := isAuthenticated;
          userAddress := userAddress;
          userExists := userExists;
          timestamp := now |} in
     localStorage_setItem CACHE_KEY (JSON_stringify cacheData))
    (fun _ => ret tt).

(** [clearCachedAuth()] *)
Definition clearCachedAuth : M World unit :=
  try_catch (localStorage_removeItem CACHE_KEY) (fun _ => ret tt).

End WithJson.

End AuthStore.

(** *** store/supabaseAuthStore.ts: the store wired into the application *)

Definition JWT_TOKEN_KEY : string := "cheshire_jwt_token".

(** The two claims the client reads from a decoded token; [None] is a
    missing property. *)
Record Claims : Type := {
  exp : option Z;
  wallet_address : option string
}.

(** [JSON.parse(atob(token.split('.')[1]))]: [None] when one of the three
    calls throws or the result is [null]. *)
Class TokenReader : Type := {
  read_claims : string -> option Claims
}.

(** [getStoredToken()] *)
Definition getStoredToken : M World (option string) :=
  try_catch (localStorage_getItem JWT_TOKEN_KEY) (fun _ => ret None).

(** [removeToken()] *)
Definition removeToken : M World unit :=
  try_catch (localStorage_removeItem JWT_TOKEN_KEY) (fun _ => ret tt).

(** [set({ isAuthenticated: false, userAddress: null, userExists: false,
          jwtToken: null })] *)
Definition set_signed_out (st : AuthState) : AuthState :=
  {| isAuthenticated := false;
     isAuthenticating := isAuthenticating st;
     userAddress := None;
     userExists := false;
     isCheckingUser := isCheckingUser st;
     serverError := serverError st;
     jwtToken := None |}.

(** The [set] at the end of [logout], which also clears [serverError]. *)
Definition set_logged_out (st : AuthState) : AuthState :=
  {| isAuthenticated := false;
     isAuthenticating := isAuthenticating st;
     userAddress := None;
     userExists := false;
     isCheckingUser := isCheckingUser st;
     serverError := false;
     jwtToken := None |}.

(** [set({ isAuthenticated: true, userAddress, userExists: true,
          jwtToken })] *)
Definition set_restored (address token : string) (st : AuthState) : AuthState :=
  {| isAuthenticated := true;
     isAuthenticating := isAuthenticating st;
     userAddress := Some address;
     userExists := true;
     isCheckingUser := isCheckingUser st;
     serverError := serverError st;
     jwtToken := Some token |}.

Definition set_state (f : AuthState -> AuthState) : M World unit :=
  w <- get ;; modify (with_store (f (store w))).

(** [logout], after the [try] block: [removeToken()] and the [set]. *)
Definition logout_finish : M World unit :=
  removeToken ;;
  set_state set_logged_out.

(** A call [logout()] that is not awaited.  With a token in the store the
    function sends the sign-out request and stops at its [await]; the rest
    runs when the request settles.  Without one nothing is awaited and
    the function runs to its end at once. *)
Definition logout : M World unit :=
  w <- get ;;
  if truthy_str (jwtToken (store w)) then
    modify (with_queue (pending w ++ [LogoutAfterFetch]) (timers w)
              (requests w ++ [SignoutRequest (default "" (jwtToken (store w)))]))
  else logout_finish.

Section WithReader.

Context {R : TokenReader}.

(** [decodeJWT(token)] *)
Definition decodeJWT (token : string) : option Claims := read_claims token.

(** [isTokenExpired(token)] *)
Definition isTokenExpired (token : string) : M World bool :=
  match decodeJWT token with
  | None => ret true
  | Some decoded =>
      match exp decoded with
      | None => ret true
      | Some e =>
          if e =? 0 then ret true
          else
            now <- Date_now ;;
            let currentTime := now / 1000 in
            ret (e <? currentTime)
      end
  end.

(** [initializeAuth()] *)
Definition initializeAuth : M World unit :=
  storedToken <- getStoredToken ;;
  if negb (truthy_str storedToken) then set_state set_signed_out
  else
    let token := default "" storedToken in
    expired <- isTokenExpired token ;;
    if expired then
      removeToken ;;
      set_state set_signed_out
    else
      match decodeJWT token with
      | Some decoded =>
          if truthy_str (wallet_address decoded) then
            set_state (set_restored (default "" (wallet_address decoded)) token)
          else
            removeToken ;;
            set_state set_signed_out
      | None =>
          removeToken ;;
          set_state set_signed_out
      end.

End WithReader.

(** *** hooks/useWalletAuthSync.ts *)

(** The four substrings that mark wallet data in a storage key. *)
Definition wallet_key (key : string) : bool :=
  includes key "rainbow" ||
  includes key "wallet" ||
  includes key "wagmi" ||
  includes key "walletconnect".

(** The filter of [keysToRemove]. *)
Definition local_key_to_remove (key : string) : bool :=
  includes key "rainbow" ||
  includes key "wallet" ||
  includes key "wagmi" ||
  includes key "walletconnect" ||
  includes key "cheshire_jwt_token".

(** [clearWalletData()] *)
Definition clearWalletData : M World unit :=
  try_catch
    (w <- get ;;
     let keysToRemove :=
       List.filter local_key_to_remove (Object_keys (localStorage w)) in
     forEach keysToRemove localStorage_removeItem ;;
     w' <- get ;;
     let sessionKeysToRemove :=
       List.filter wallet_key (Object_keys (sessionStorage w')) in
     forEach sessionKeysToRemove sessionStorage_removeItem)
    (fun _ => ret tt).

(** [setTimeout(callback, 100)] *)
Definition setTimeout (t : Timer) : M World unit :=
  w <- get ;; modify (with_queue (pending w) (timers w ++ [t]) (requests w)).

(** [a !== b] on values of type [string | undefined]. *)
Definition strict_ne (a b : option string) : bool :=
  negb (bool_decide (a = b)).

(** The first effect: the wallet disconnected. *)
Definition disconnectEffect (isConnected : bool) : M World unit :=
  w <- get ;;
  if negb isConnected && isAuthenticated (store w) then
    logout ;;
    clearWalletData ;;
    setTimeout GoHome
  else ret tt.

(** The second effect: the address changed; [address] is the value
    [useAccount()] reports, [None] for [undefined]. *)
Definition addressEffect (address : option string) : M World unit :=
  w <- get ;;
  if negb (initializedRef w) then
    modify (with_refs address true)
  else
    (if truthy_str (prevAddressRef w) && strict_ne (prevAddressRef w) address
     then
       logout ;;
       clearWalletData ;;
       setTimeout Reload
     else ret tt) ;;
    modify (with_refs address true).

(** *** What runs later *)

(** The sign-out request settles (either way): the stopped [logout]
    resumes. *)
Definition fetch_settles : M World unit :=
  w <- get ;;
  match pending w with
  | LogoutAfterFetch :: rest =>
      modify (with_queue rest (timers w) (requests w)) ;;
      logout_finish
  | [] => ret tt
  end.

(** *** store/supabaseAuthStore.ts: the remaining actions *)

(** [storeToken(token)] *)
Definition storeToken (token : string) : M World unit :=
  try_catch (localStorage_setItem JWT_TOKEN_KEY token) (fun _ => ret tt).

(** [setAuthenticated(isAuthenticated, address = null, token = null)] *)
Definition setAuthenticated (isAuth : bool) (address token : option string)
  : M World unit :=
  (if truthy_str token then storeToken (default "" token) else ret tt) ;;
  set_state (fun st =>
    {| isAuthenticated := isAuth;
       isAuthenticating := false;
       userAddress := address;
       userExists := isAuth;
       isCheckingUser := isCheckingUser st;
       serverError := serverError st;
       jwtToken := token |}).

Section Headers.

Context {R : TokenReader}.

(** [getAuthHeaders()]: [None] is the empty object, [Some v] the object
    whose [Authorization] property is [v].  The [logout()] of the expired
    case is not awaited. *)
Definition getAuthHeaders : M World (option string) :=
  w <- get ;;
  if negb (truthy_str (jwtToken (store w))) then ret None
  else
    let token := default "" (jwtToken (store w)) in
    expired <- isTokenExpired token ;;
    if expired then
      logout ;;
      ret None
    else ret (Some ("Bearer " +:+ token)).

End Headers.

(** *** The adapter of the wallet library: the message to sign *)

(** The line feed of the template literal. *)
Definition LF : string := String "010"%char EmptyString.

(** [prepareMessage()] of [createMessage({ nonce, address, chainId })];
    [chainId] is the text the template literal renders the chain number
    to. *)
Definition prepareMessage (nonce address chainId : string) : string :=
  "Sign this message to authenticate with Cheshire." +:+ LF +:+ LF +:+
  "Address: " +:+ address +:+ LF +:+
  "Chain ID: " +:+ chainId +:+ LF +:+
  "Nonce: " +:+ nonce.

(** *** The requests of the sign-in flow *)

(** What a function of the store gets from a [fetch] it awaits: the
    promise of [fetch] or of [response.json()] rejects (or the body is
    [null], and reading a property of it throws), or there is an answer
    with its [response.ok] and the properties the function reads. *)
Inductive FetchResult (A : Type) : Type :=
| Rejected
| Answered (ok : bool) (data : A).
Arguments Rejected {A}.
Arguments Answered {A} ok data.

(** The body of the answer to [check-user], as [checkUserStatus] reads
    it: the truthiness of [data.exists] and of [data.needsSetup]. *)
Record CheckUserData : Type := {
  data_exists : bool;
  data_needsSetup : bool
}.

(** The body of the answer to [signin], as [signIn] reads it: the
    truthiness of [data.success], and [data.token], [None] when the property
    is missing (a token that is not a string is not represented). *)
Record SigninData : Type := {
  data_success : bool;
  data_token : option string
}.

Definition with_isAuthenticating (b : bool) (st : AuthState) : AuthState :=
  {| isAuthenticated := isAuthenticated st;
     isAuthenticating := b;
     userAddress := userAddress st;
     userExists := userExists st;
     isCheckingUser := isCheckingUser st;
     serverError := serverError st;
     jwtToken := jwtToken st |}.

Definition with_userExists (b : bool) (st : AuthState) : AuthState :=
  {| isAuthenticated := isAuthenticated st;
     isAuthenticating := isAuthenticating st;
     userAddress := userAddress st;
     userExists := b;
     isCheckingUser := isCheckingUser st;
     serverError := serverError st;
     jwtToken := jwtToken st |}.

Definition with_isCheckingUser (b : bool) (st : AuthState) : AuthState :=
  {| isAuthenticated := isAuthenticated st;
     isAuthenticating := isAuthenticating st;
     userAddress := userAddress st;
     userExists := userExists st;
     isCheckingUser := b;
     serverError := serverError st;
     jwtToken := jwtToken st |}.

Definition with_serverError (b : bool) (st : AuthState) : AuthState :=
  {| isAuthenticated := isAuthenticated st;
     isAuthenticating := isAuthenticating st;
     userAddress := userAddress st;
     userExists := userExists st;
     isCheckingUser := isCheckingUser st;
     serverError := b;
     jwtToken := jwtToken st |}.

(** [setUserExists(exists)] *)
Definition setUserExists (exists_ : bool) : M World unit :=
  set_state (with_userExists exists_).

(** [setServerError(hasError)] *)
Definition setServerError (hasError : bool) : M World unit :=
  set_state (with_serverError hasError).

(** [checkUserStatus(walletAddress)], run from its first statement to its
    [return] with the answer [fetch_check walletAddress] of its request;
    the result is the pair [(exists, needsSetup)]. *)
Definition checkUserStatus
    (fetch_check : string -> FetchResult CheckUserData) (walletAddress : string)
  : M World (bool * bool) :=
  set_state (with_isCheckingUser true) ;;
  try_catch
    (match fetch_check walletAddress with
     | Rejected => throw TypeError
     | Answered ok data =>
         if ok then
           let exists_ := data_exists data || false in
           set_state (fun st =>
             with_serverError false
               (with_isCheckingUser false (with_userExists exists_ st))) ;;
           ret (exists_, data_needsSetup data || false)
         else
           set_state (fun st =>
             with_serverError true (with_isCheckingUser false st)) ;;
           ret (false, true)
     end)
    (fun _ =>
       set_state (fun st => with_serverError true (with_isCheckingUser false st)) ;;
       ret (false, true)).

(** [signIn(walletAddress, message, signature)], run with the answer
    [fetch_signin message signature] of its request; the result is the pair
    [(success, token)]. *)
Definition signIn
    (fetch_signin : string -> string -> FetchResult SigninData)
    (walletAddress message signature : string)
  : M World (bool * option string) :=
  set_state (with_isAuthenticating true) ;;
  try_catch
    (match fetch_signin message signature with
     | Rejected => throw TypeError
     | Answered _ data =>
         if data_success data && truthy_str (data_token data) then
           setAuthenticated true (Some walletAddress) (data_token data) ;;
           ret (true, data_token data)
         else
           set_state (with_isAuthenticating false) ;;
           ret (false, None)
     end)
    (fun _ =>
       set_state (fun st =>
         with_serverError true (with_isAuthenticating false st)) ;;
       ret (false, None)).

(** [verify({ message, signature })] of the adapter, on the text
    [message.prepareMessage()] returns. *)
Definition verify
    (fetch_check : string -> FetchResult CheckUserData)
    (fetch_signin : string -> string -> FetchResult SigninData)
    (messageString signature : string) : M World bool :=
  try_catch
    (match Server.match_address messageString with
     | None => ret false
     | Some walletAddress =>
         userStatus <- checkUserStatus fetch_check walletAddress ;;
         if negb (fst userStatus) then
           setUserExists false ;;
           setServerError false ;;
           ret false
         else
           signInResult <- signIn fetch_signin walletAddress messageString
                             signature ;;
           if fst signInResult then
             setServerError false ;;
             ret true
           else
             setServerError false ;;
             ret false
     end)
    (fun _ =>
       setServerError true ;;
       ret false).

(** [authenticationStatus] of [useJWTAuthAdapter] *)
Inductive AuthenticationStatus : Type :=
| loading
| authenticated
| unauthenticated.

Definition authenticationStatus (st : AuthState) : AuthenticationStatus :=
  if isAuthenticating st then loading
  else if isAuthenticated st then authenticated
  else unauthenticated.

(** *** utils/api.ts *)

Section Api.

Context {R : TokenReader}.

(** [apiFetch(url, options)] up to its [fetch]: the result is the
    [headers] object of the request; [headers] is [options.headers], a
    plain object (empty when absent).  In an object literal a later spread
    overrides an earlier property. *)
Definition apiFetch (headers : gmap string string)
  : M World (gmap string string) :=
  authHeaders <- getAuthHeaders ;;
  let auth : gmap string string :=
    match authHeaders with
    | Some v => {[ "Authorization" := v ]}
    | None => ∅
    end in
  ret (headers ∪ (auth ∪ {[ "Content-Type" := "application/json" ]})).

End Api.

End Client.

(* ===================================================================== *)
(** * Part II: terms of the statements                                    *)
(* ===================================================================== *)

(** ** A codec to run the server model on

    The token text is [key.wallet.iat.exp.iss.sub] in clear: enough of
    jsonwebtoken to evaluate the model on concrete worlds. *)

Module PlainJwt.

Import Server.

Fixpoint split_on (sep : ascii) (s : string) : list string :=
  match s with
  | EmptyString => [EmptyString]
  | String c s' =>
      if Ascii.eqb c sep then EmptyString :: split_on sep s'
      else
        match split_on sep s' with
        | x :: rest => String c x :: rest
        | [] => [String c EmptyString]
        end
  end.

Definition show (z : Z) : string := NilEmpty.string_of_int (Z.to_int z).

Definition read (s : string) : option Z :=
  option_map Z.of_int (NilEmpty.int_of_string s).

Definition sign (p : Payload) (key : string) : string :=
  key +:+ "." +:+ wallet_address p +:+ "." +:+ show (iat p) +:+ "." +:+
  show (exp p) +:+ "." +:+ iss p +:+ "." +:+ sub p.

Definition decode (text key : string) : option Payload :=
  match split_on "." text with
  | [k; w; i; e; s; b] =>
      if String.eqb k key then
        match read i, read e with
        | Some i', Some e' =>
            Some {| wallet_address := w; iat := i'; exp := e'; iss := s; sub := b |}
        | _, _ => None
        end
      else None
  | _ => None
  end.

Definition lib : JwtLib := {| jwt_sign := sign; jwt_decode := decode |}.

End PlainJwt.

(** ** What issuance computes *)

Section ServerTerms.

Import Server.
Local Open Scope Z_scope.

Context {J : JwtLib}.

(** The secret all three functions of [supabaseAuth.js] compute. *)
Definition signing_secret (env : Env) : string :=
  js_or_lit (js_or (JWT_SECRET env) (SUPABASE_SERVICE_KEY env)) "fallback-secret".

(** The claims and the row [createAuthSession] builds from its four clock
    reads. *)
Definition issued_payload (a : string) (w : World) : Payload :=
  {| wallet_address := toLowerCase a;
     iat := clock (tick w) / 1000;
     exp := clock (tick (tick w)) / 1000 + SESSION_DURATION;
     iss := "cheshire-auth";
     sub := toLowerCase a |}.

Definition issued_row (a : string) (w : World) : SessionRow :=
  {| row_wallet_address := toLowerCase a;
     expires_at := clock (tick (tick (tick w))) + SESSION_DURATION * 1000;
     created_at := clock (tick (tick (tick (tick w)))) |}.

Definition issued_token (a : string) (w : World) : string :=
  jwt_sign (issued_payload a w) (signing_secret (process_env w)).

(** The world a successful issuance leaves. *)
Definition issued_world (a : string) (w : World) : World :=
  with_sessions (<[issued_token a w := issued_row a w]> (user_sessions w))
    (sent (InsertSession (issued_token a w) (issued_row a w))
          (tick (tick (tick (tick w))))).

End ServerTerms.

(** ** The sign-in route *)

Section SigninTerms.

Import Server.
Local Open Scope Z_scope.

(** The check the specification asks the sign-in flow to make (its
    Signature Verifier): recover the signer from the signature over the
    message and compare it, ignoring case, with the claimed address; a
    signature from which nothing is recovered does not verify.  [recover]
    stands for the cryptographic recovery.  Nothing in the server calls
    such a check; the definition is here to state what the handler does
    not do. *)
Definition spec_verify (recover : string -> string -> option string)
    (message signature claimedAddress : string) : bool :=
  match recover message signature with
  | Some signer => String.eqb (toLowerCase signer) (toLowerCase claimedAddress)
  | None => false
  end.

(** The answer of the [catch] block of the sign-in handler. *)
Definition signin_failure (e : Exn) : Response :=
  if bool_decide (error_code e = Some "23503") then
    respond 403
      [("success", JBool false);
       ("error", JStr "Profile setup required");
       ("needsSetup", JBool true)]
  else
    respond 500
      [("success", JBool false); ("error", JStr "Authentication failed")].

End SigninTerms.

(** ** Worlds to run the server on *)

Module Sample.

Import Server.
Local Open Scope Z_scope.

(** A wallet address as a wallet reports it (mixed case), and the form the
    tables store. *)
Definition alice : string := "0xAbCdEf0123456789aBcDeF0123456789abcdef01".
Definition alice_lc : string := "0xabcdef0123456789abcdef0123456789abcdef01".
Definition bob : string := "0x00000000000000000000000000000000000000b0".

Definition challenge (address : string) : string :=
  "Sign in to Cheshire. Address: " +:+ address +:+ " Nonce: 8f3a".


(** An environment in which the server starts: the service key is the
    secret. *)
Definition env_service : Env :=
  {| JWT_SECRET := None;
     SUPABASE_SERVICE_KEY := Some "service-key";
     SUPABASE_URL := Some "https://cheshire.supabase.co";
     SUPABASE_ANON_KEY := Some "anon-key" |}.

(** Alice has a profile, nobody has a session, the database answers. *)
Definition fresh (env : Env) (now : Z) (ds : list Z) (fs : list (option string))
  : World :=
  {| process_env := env;
     clock := now;
     delays := List.map Z.to_N ds;
     faults := fs;
     users := {[ alice_lc ]};
     user_sessions := ∅;
     db_calls := [] |}.

(** The first instant of the runs below, a whole number of seconds. *)
Definition t0 : Z := 1700000000000.

(** The sign-in request Alice's client sends, with a signature that is no
    signature at all. *)
Definition unsigned : Json := JStr "not-a-signature".

(** The database is down at the first request. *)
Definition w_down : World := fresh env_service t0 [] [Some "08006"].

(** Nothing goes wrong and no time passes. *)
Definition w_calm : World := fresh env_service t0 [] [].

(** 36 hours pass after an issuance. *)
Definition w_late : World := fresh env_service t0 [0; 0; 0; 0; 129600000] [].

(** One second short of 36 hours passes after an issuance, and two
    seconds more before the next clock read. *)
Definition w_edge : World := fresh env_service t0 [0; 0; 0; 0; 129599000; 2000] [].

(** One minute passes after an issuance. *)
Definition w_minute : World := fresh env_service t0 [0; 0; 0; 0; 60000] [].

(** A millisecond more than 36 hours passes after an issuance, and a
    second more before the next clock read. *)
Definition w_stale : World := fresh env_service t0 [0; 0; 0; 0; 129600001; 1000] [].

End Sample.

(** ** The client: storage and the shared invalidation *)

Section ClientTerms.

Import Client.

(** What is left of a storage area when the keys that [doomed] selects are
    removed. *)
Definition purge (doomed : string -> bool) (m : gmap string string)
  : gmap string string :=
  filter (fun kv => doomed (fst kv) = false) m.

(** The world after the three steps the two effects share: [logout()],
    [clearWalletData()] and a [setTimeout] of [t]. *)
Definition invalidated (t : Timer) (w : World) : World :=
  let w1 := snd (logout w) in
  let w2 := snd (clearWalletData w1) in
  snd (setTimeout t w2).

End ClientTerms.

(** ** Codecs to run the client model on

    The cache record is written in clear as
    [cache|isAuthenticated|userAddress|userExists|timestamp]; the claims of a
    token are read from the clear-text tokens of [PlainJwt]. *)

Module PlainJson.

Import Client Client.AuthStore.

Definition show_bool (b : bool) : string := if b then "true" else "false".

Definition read_bool (s : string) : option bool :=
  if String.eqb s "true" then Some true
  else if String.eqb s "false" then Some false
  else None.

Definition stringify (c : AuthCache) : string :=
  "cache|" +:+ show_bool (isAuthenticated c) +:+ "|" +:+
  default "" (userAddress c) +:+ "|" +:+ show_bool (userExists c) +:+ "|" +:+
  PlainJwt.show (timestamp c).

Definition parse (text : string) : Parsed :=
  if String.eqb text "null" then ParsedNull
  else
    match PlainJwt.split_on "|" text with
    | [tag; a; u; e; t] =>
        match String.eqb tag "cache", read_bool a, read_bool e, PlainJwt.read t with
        | true, Some a', Some e', Some t' =>
            ParsedCache {| isAuthenticated := a';
                           userAddress := if nonempty u then Some u else None;
                           userExists := e';
                           timestamp := t' |}
        | _, _, _, _ => ParseError
        end
    | _ => ParseError
    end.

Definition lib : JsonLib := {| JSON_parse := parse; JSON_stringify := stringify |}.

(** The claims of a clear-text token of [PlainJwt]. *)
Definition claims (text : string) : option Claims :=
  match PlainJwt.split_on "." text with
  | [_; w; _; e; _; _] =>
      Some {| exp := PlainJwt.read e; wallet_address := Some w |}
  | _ => None
  end.

Definition reader : TokenReader := {| read_claims := claims |}.

End PlainJson.

(** ** Browser tabs to run the client on *)

Module Tab.

Import Client Client.AuthStore.
Local Open Scope Z_scope.

(** What the superseded store cached for Alice at [Sample.t0]. *)
Definition entry : AuthCache :=
  {| isAuthenticated := true;
     userAddress := Some Sample.alice_lc;
     userExists := true;
     timestamp := Sample.t0 |}.

(** Alice is signed in. *)
Definition signed_in : AuthState :=
  {| Client.isAuthenticated := true;
     isAuthenticating := false;
     Client.userAddress := Some Sample.alice;
     Client.userExists := true;
     isCheckingUser := false;
     serverError := false;
     jwtToken := Some "key.0xabc.1.2.cheshire-auth.0xabc" |}.

(** A tab in which Alice is signed in and connected; Web Storage holds her
    token and wallet-library data. *)
Definition alice_tab (now : Z) (ds : list Z) : World :=
  {| clock := now;
     delays := List.map Z.to_N ds;
     localStorage :=
       {[ JWT_TOKEN_KEY := "key.0xabc.1.2.cheshire-auth.0xabc";
          "wagmi.store" := "connected" ]};
     sessionStorage := {[ "walletconnect" := "session" ]};
     store := signed_in;
     prevAddressRef := Some Sample.alice;
     initializedRef := true;
     pending := [];
     timers := [];
     requests := [] |}.

(** A tab with nothing stored. *)
Definition empty_tab (now : Z) (ds : list Z) : World :=
  {| clock := now;
     delays := List.map Z.to_N ds;
     localStorage := ∅;
     sessionStorage := ∅;
     store := initial_state;
     prevAddressRef := None;
     initializedRef := false;
     pending := [];
     timers := [];
     requests := [] |}.

End Tab.

(** ** The wire between the client and the server *)

Module Wire.

Import Client.
Local Open Scope Z_scope.

(** [response.ok] *)
Definition response_ok (r : Server.Response) : bool :=
  (200 <=? Server.status r) && (Server.status r <=? 299).

(** What [checkUserStatus] reads of a body. *)
Definition check_user_data (body : Json) : CheckUserData :=
  {| data_exists := truthy (prop body "exists");
     data_needsSetup := truthy (prop body "needsSetup") |}.

(** What [signIn] reads of a body; the handler sends a string as
    [token], or no [token]. *)
Definition signin_data (body : Json) : SigninData :=
  {| data_success := truthy (prop body "success");
     data_token := match prop body "token" with
                   | JStr t => Some t
                   | _ => None
                   end |}.

(** The answer the client gets when the handler has run. *)
Definition answered {A} (read : Json -> A) (run : Res Server.Response)
  : FetchResult A :=
  match run with
  | Ret r => Answered (response_ok r) (read (Server.body r))
  | Throw _ => Rejected
  end.

Section Served.

Context {J : Server.JwtLib}.

(** The two requests of the sign-in flow, answered by the handlers in a
    given state of the server: [GET /api/auth/check-user?address=...] and
    [POST /api/auth/signin] with the body [{ message, signature }]. *)
Definition served_check (sw : Server.World) (address : string)
  : FetchResult CheckUserData :=
  answered check_user_data (fst (Server.check_user (Server.QText address) sw)).

Definition served_signin (sw : Server.World) (message signature : string)
  : FetchResult SigninData :=
  answered signin_data (fst (Server.signin (JStr message) (JStr signature) sw)).

(** The token the server issues when the flow runs from the state [sw]:
    the profile is looked up twice before the issuance. *)
Definition flow_token (a : string) (sw : Server.World) : string :=
  issued_token a
    (Server.sent (Server.SelectUser (toLowerCase a))
       (Server.sent (Server.SelectUser (toLowerCase a)) sw)).

End Served.

End Wire.

(* ===================================================================== *)
(** * Part III: properties                                                *)
(* ===================================================================== *)

(** ** The server: symbolic execution of the session functions *)

(** Normalising a run: the monad operations are unfolded and the
    projections of the worlds a step builds are computed. *)
Ltac run_goal :=
  cbv beta iota delta [try_catch bind get Server.Date_now Server.db_send ret
                       throw modify];
  cbn [fst snd Server.process_env Server.faults Server.user_sessions
       Server.users Server.db_calls Server.clock Server.delays Server.tick
       Server.sent Server.with_sessions Server.data Server.error
       Server.reply_error Server.reply_data].

Ltac run_hyp H :=
  cbv beta iota delta [try_catch bind get Server.Date_now Server.db_send ret
                       throw modify] in H;
  cbn [fst snd Server.process_env Server.faults Server.user_sessions
       Server.users Server.db_calls Server.clock Server.delays Server.tick
       Server.sent Server.with_sessions Server.data Server.error
       Server.reply_error Server.reply_data] in H.

(** Case analysis on the comparison a run is stuck on. *)
Ltac case_geb H :=
  match goal with
  | |- context [(?x >=? ?y)%Z] => destruct (Z.geb_spec x y) as [H|H]
  end.

Ltac case_ltb H :=
  match goal with
  | |- context [(?x <? ?y)%Z] => destruct (Z.ltb_spec x y) as [H|H]
  end.

Tactic Notation "run" := run_goal.
Tactic Notation "run" "in" hyp(H) := run_hyp H.

Section ServerFacts.

Import Server.
Local Open Scope Z_scope.

Context {J : JwtLib}.

Lemma createAuthSession_eq (a : string) (w : World) :
  createAuthSession a w =
  let w4 := sent (InsertSession (issued_token a w) (issued_row a w))
                 (tick (tick (tick (tick w)))) in
  match hd None (faults w) with
  | Some code => (Throw (PostgrestError code), w4)
  | None =>
      match user_sessions w !! issued_token a w with
      | Some _ => (Throw (PostgrestError "23505"), w4)
      | None =>
          if decide (toLowerCase a ∈ users w) then
            (Ret (issued_token a w),
             with_sessions (<[issued_token a w := issued_row a w]> (user_sessions w)) w4)
          else (Throw (PostgrestError "23503"), w4)
      end
  end.
Proof.
  unfold createAuthSession, user_sessions_insert, issued_token, issued_payload,
    issued_row, signing_secret.
  run.
  destruct (hd None (faults w)) as [code|]; run; [reflexivity|].
  destruct (user_sessions w !! _); run; [reflexivity|].
  cbn [row_wallet_address].
  destruct (decide (toLowerCase a ∈ users w)); reflexivity.
Qed.

(** Issuance succeeds when the database answers, the token is new and the
    address has a profile. *)
Lemma createAuthSession_ok (a : string) (w : World) :
  hd None (faults w) = None ->
  user_sessions w !! issued_token a w = None ->
  toLowerCase a ∈ users w ->
  createAuthSession a w = (Ret (issued_token a w), issued_world a w).
Proof.
  intros Hdb Hfree Hin. rewrite createAuthSession_eq, Hdb, Hfree.
  cbv zeta. destruct (decide (toLowerCase a ∈ users w)); [reflexivity | contradiction].
Qed.

Lemma issued_lookup (a : string) (w : World) :
  user_sessions (issued_world a w) !! issued_token a w = Some (issued_row a w).
Proof. apply lookup_insert_eq. Qed.

Lemma verifyAuthToken_eq (token : string) (w : World) :
  verifyAuthToken token w =
  let w1 := tick w in
  match jwt_decode token (signing_secret (process_env w)) with
  | None => (Ret None, w1)
  | Some p =>
      if clock w1 / 1000 >=? exp p then (Ret None, w1)
      else
        let w2 := sent (SelectSession token (wallet_address p)) w1 in
        match hd None (faults w) with
        | Some _ => (Ret None, w2)
        | None =>
            match user_sessions w !! token with
            | Some row =>
                if String.eqb (row_wallet_address row) (wallet_address p) then
                  let w3 := tick w2 in
                  if expires_at row <? clock w3 then
                    let w4 := sent (DeleteSessionByToken token) w3 in
                    match hd None (tl (faults w)) with
                    | Some _ => (Ret None, w4)
                    | None =>
                        (Ret None,
                         with_sessions (delete token (user_sessions w)) w4)
                    end
                  else
                    (Ret (Some {| walletAddress := wallet_address p;
                                  isValid := true |}), w3)
                else (Ret None, w2)
            | None => (Ret None, w2)
            end
        end
  end.
Proof.
  unfold verifyAuthToken, jwt_verify, user_sessions_select_single,
    user_sessions_delete_token, signing_secret.
  run.
  destruct (jwt_decode token _) as [p|]; run; [|reflexivity].
  destruct (_ >=? exp p); run; [reflexivity|].
  destruct (hd None (faults w)) as [code|]; run; [reflexivity|].
  destruct (user_sessions w !! token) as [row|]; run; [|reflexivity].
  destruct (String.eqb _ _); run; [|reflexivity].
  destruct (expires_at row <? _); run; [|reflexivity].
  destruct (hd None (tl (faults w))); run; reflexivity.
Qed.

Lemma invalidateSession_eq (token : string) (w : World) :
  invalidateSession token w =
  let w1 := tick w in
  match jwt_decode token (signing_secret (process_env w)) with
  | None => (Ret false, w1)
  | Some p =>
      if clock w1 / 1000 >=? exp p then (Ret false, w1)
      else
        let w2 := sent (DeleteSession token (wallet_address p)) w1 in
        match hd None (faults w) with
        | Some _ => (Ret false, w2)
        | None =>
            match user_sessions w !! token with
            | Some row =>
                if String.eqb (row_wallet_address row) (wallet_address p) then
                  (Ret true, with_sessions (delete token (user_sessions w)) w2)
                else (Ret true, w2)
            | None => (Ret true, w2)
            end
        end
  end.
Proof.
  unfold invalidateSession, jwt_verify, user_sessions_delete, signing_secret.
  run.
  destruct (jwt_decode token _) as [p|]; run; [|reflexivity].
  destruct (_ >=? exp p); run; [reflexivity|].
  destruct (hd None (faults w)) as [code|]; run; [reflexivity|].
  destruct (user_sessions w !! token) as [row|]; run; [|reflexivity].
  destruct (String.eqb _ _); run; reflexivity.
Qed.

Lemma cleanupExpiredSessions_eq (w : World) :
  cleanupExpiredSessions w =
  let w1 := sent (DeleteExpired (clock (tick w))) (tick w) in
  match hd None (faults w) with
  | Some _ => (Ret JUndefined, w1)
  | None =>
      (Ret JUndefined,
       with_sessions
         (filter (fun kv => ~ (expires_at (snd kv) < clock (tick w)))
                 (user_sessions w)) w1)
  end.
Proof.
  unfold cleanupExpiredSessions, user_sessions_delete_lt.
  run.
  destruct (hd None (faults w)); run; reflexivity.
Qed.

Lemma userDb_exists_eq (a : string) (w : World) :
  userDb_exists a w =
  let w1 := sent (SelectUser (toLowerCase a)) w in
  match hd None (faults w) with
  | Some code =>
      if String.eqb code "PGRST116" then (Ret false, w1)
      else (Throw (PostgrestError code), w1)
  | None =>
      if decide (toLowerCase a ∈ users w) then (Ret true, w1) else (Ret false, w1)
  end.
Proof.
  unfold userDb_exists, users_select_single.
  run.
  destruct (hd None (faults w)) as [code|]; run.
  - cbn [error_code].
    destruct (String.eqb_spec code "PGRST116") as [->|Hne].
    + reflexivity.
    + rewrite bool_decide_eq_false_2 by congruence. reflexivity.
  - destruct (decide (toLowerCase a ∈ users w)); run; reflexivity.
Qed.

End ServerFacts.

(** ** Properties of the session functions *)

Section SessionProperties.

Import Server.
Local Open Scope Z_scope.

Context {J : JwtLib}.

Lemma user_sessions_insert_eq (token : string) (row : SessionRow) (w : World) :
  user_sessions_insert token row w =
  let w1 := sent (InsertSession token row) w in
  match hd None (faults w) with
  | Some code => (Ret (Some (PostgrestError code)), w1)
  | None =>
      match user_sessions w !! token with
      | Some _ => (Ret (Some (PostgrestError "23505")), w1)
      | None =>
          if decide (row_wallet_address row ∈ users w) then
            (Ret None, with_sessions (<[token := row]> (user_sessions w)) w1)
          else (Ret (Some (PostgrestError "23503")), w1)
      end
  end.
Proof.
  unfold user_sessions_insert. run.
  destruct (hd None (faults w)); run; [reflexivity|].
  destruct (user_sessions w !! token); run; [reflexivity|].
  destruct (decide (row_wallet_address row ∈ users w)); reflexivity.
Qed.

(** What a successful issuance leaves behind. *)
Lemma createAuthSession_recorded (a : string) (w w' : World) (token : string) :
  createAuthSession a w = (Ret token, w') ->
  user_sessions w' !! token = Some (issued_row a w) /\
  process_env w' = process_env w.
Proof.
  rewrite createAuthSession_eq. run.
  destruct (hd None (faults w)); [discriminate|].
  destruct (user_sessions w !! _); [discriminate|].
  destruct (decide _); [|discriminate].
  intros [= <- <-]. run. split; [apply lookup_insert_eq | reflexivity].
Qed.

(** C4. Issuance is all-or-nothing.  When the insert that
    [createAuthSession] performs reports an error, the call throws that
    error, returns no token and leaves the table as it was; and a token
    that is returned is the key of the row the insert has just recorded. *)
Theorem issue_all_or_nothing (a : string) (w : World) :
  (forall e w',
      user_sessions_insert (issued_token a w) (issued_row a w)
        (tick (tick (tick (tick w)))) = (Ret (Some e), w') ->
      createAuthSession a w = (Throw e, w') /\
      user_sessions w' = user_sessions w) /\
  (forall token w',
      createAuthSession a w = (Ret token, w') ->
      user_sessions_insert token (issued_row a w)
        (tick (tick (tick (tick w)))) = (Ret None, w') /\
      user_sessions w' !! token = Some (issued_row a w)).
Proof.
  split.
  - intros e w'. rewrite user_sessions_insert_eq, createAuthSession_eq. run.
    destruct (hd None (faults w)) as [code|].
    { intros [= <- <-]. split; reflexivity. }
    destruct (user_sessions w !! issued_token a w).
    { intros [= <- <-]. split; reflexivity. }
    cbn [row_wallet_address issued_row].
    destruct (decide (toLowerCase a ∈ users w)); [discriminate|].
    intros [= <- <-]. split; reflexivity.
  - intros token w'. rewrite user_sessions_insert_eq, createAuthSession_eq. run.
    destruct (hd None (faults w)) as [code|]; [discriminate|].
    destruct (user_sessions w !! issued_token a w) eqn:Hfree; [discriminate|].
    cbn [row_wallet_address issued_row].
    destruct (decide (toLowerCase a ∈ users w)); [|discriminate].
    intros [= <- <-]. rewrite Hfree. split; [reflexivity|].
    cbn [user_sessions with_sessions]. apply lookup_insert_eq.
Qed.

Lemma requireJwtAuth_eq (authorization : option string) (w : World) :
  requireJwtAuth authorization w =
  if no_bearer authorization then
    (Ret (Responded (respond 401
            [("error", JStr "Authentication required - Bearer token missing");
             ("authenticated", JBool false)])), w)
  else
    match verifyAuthToken (bearer_token authorization) w with
    | (Ret (Some r), w') =>
        if negb (isValid r) then
          (Ret (Responded (respond 401
                  [("error", JStr "Invalid or expired token");
                   ("authenticated", JBool false)])), w')
        else (Ret (Next (walletAddress r)), w')
    | (Ret None, w') =>
        (Ret (Responded (respond 401
                [("error", JStr "Invalid or expired token");
                 ("authenticated", JBool false)])), w')
    | (Throw _, w') =>
        (Ret (Responded (respond 500
                [("error", JStr "Authentication check failed")])), w')
    end.
Proof.
  unfold requireJwtAuth. run.
  destruct (no_bearer authorization); [reflexivity|].
  destruct (verifyAuthToken (bearer_token authorization) w) as [[[r|]|e] w'];
    [destruct (negb (isValid r))|..]; reflexivity.
Qed.

Lemma signout_eq (authorization : option string) (w : World) :
  signout authorization w =
  if no_bearer authorization then
    (Ret (respond 400
            [("success", JBool false); ("error", JStr "No token provided")]), w)
  else
    match invalidateSession (bearer_token authorization) w with
    | (Ret _, w') =>
        (Ret (respond 200
                [("success", JBool true);
                 ("message", JStr "Signed out successfully")]), w')
    | (Throw _, w') =>
        (Ret (respond 500
                [("success", JBool false); ("error", JStr "Signout failed")]), w')
    end.
Proof.
  unfold signout. run.
  destruct (no_bearer authorization); [reflexivity|].
  destruct (invalidateSession (bearer_token authorization) w) as [[b|e] w'];
    reflexivity.
Qed.

(** A bearer header carries its token. *)
Lemma bearer_header (token : string) :
  no_bearer (Some ("Bearer " +:+ token)) = false /\
  bearer_token (Some ("Bearer " +:+ token)) = token.
Proof. split; [destruct token; reflexivity | reflexivity]. Qed.

(** [verifyAuthToken] catches everything: it resolves, to [null] or to a
    result, in every world. *)
Lemma verifyAuthToken_total (token : string) (w : World) :
  exists r w', verifyAuthToken token w = (Ret r, w').
Proof.
  rewrite verifyAuthToken_eq. run.
  repeat match goal with
         | |- context [match ?x with _ => _ end] => destruct x
         end; eauto.
Qed.

(** A token without a row is rejected. *)
Lemma verifyAuthToken_no_row (token : string) (w : World) :
  user_sessions w !! token = None ->
  exists w', verifyAuthToken token w = (Ret None, w') /\
             user_sessions w' = user_sessions w.
Proof.
  intros Hnone. rewrite verifyAuthToken_eq, Hnone. run.
  repeat match goal with
         | |- context [match ?x with _ => _ end] => destruct x
         end; eauto.
Qed.





(** C2. A request that carries a bearer credential which is structurally
    invalid -- not valid under the signing secret, or with [exp] not later
    than the current second -- is answered 401, and the database is not
    contacted: no request is sent, so the outcome is the same whether or not
    a row for the credential is still in the table. *)
Theorem expired_credential_rejected (authorization : option string) (w : World) :
  no_bearer authorization = false ->
  (jwt_decode (bearer_token authorization) (signing_secret (process_env w)) = None \/
   exists p,
     jwt_decode (bearer_token authorization) (signing_secret (process_env w)) = Some p /\
     exp p <= clock (tick w) / 1000) ->
  exists w',
    requireJwtAuth authorization w =
    (Ret (Responded (respond 401
            [("error", JStr "Invalid or expired token");
             ("authenticated", JBool false)])), w') /\
    db_calls w' = db_calls w /\
    faults w' = faults w /\
    user_sessions w' = user_sessions w.
Proof.
  intros Hbearer Hinvalid. exists (tick w).
  rewrite requireJwtAuth_eq, Hbearer, verifyAuthToken_eq.
  destruct Hinvalid as [Hbad | (p & Hp & Hexp)].
  - rewrite Hbad. repeat split.
  - rewrite Hp. run.
    run in Hexp.
    case_geb Hlt; [|lia].
    repeat split.
Qed.

Lemma clock_tick_le (w : World) : clock w <= clock (tick w).
Proof. cbn [clock tick]. lia. Qed.

(** The row of an issued session does not expire before its token does. *)
Lemma issued_expiry_order (a : string) (w : World) :
  exp (issued_payload a w) * 1000 <= expires_at (issued_row a w).
Proof.
  pose proof (clock_tick_le (tick (tick w))) as H3.
  cbn [issued_payload issued_row exp expires_at].
  set (c2 := clock (tick (tick w))) in *.
  set (c3 := clock (tick (tick (tick w)))) in *.
  unfold SESSION_DURATION.
  pose proof (Z.mul_div_le c2 1000 ltac:(lia)).
  lia.
Qed.

(** C10 (as amended). Verification writes to the table in one outcome
    only, and that outcome is not the one of a row that has already
    expired.  When the token is structurally valid at the first reading of
    the clock, the lookup finds its row and the row's [expires_at] is
    before the clock at the second reading, [verifyAuthToken] sends a
    delete keyed by the token alone and resolves to [null]; the row is gone
    when the database carries the delete out.  Every run that changes the
    table is of that kind.  A token whose row expired before the first
    reading of the clock, its [exp] (in milliseconds) being no later than
    the row's [expires_at] as it is for every issued session, is rejected
    structurally: no request is sent and the row stays.  In every other
    outcome the table is as before, and a request without a bearer header
    is answered 401 without any step at all. *)
Theorem verification_store_effect (token : string) (w : World) :
  (forall p row,
      jwt_decode token (signing_secret (process_env w)) = Some p ->
      clock (tick w) / 1000 < exp p ->
      hd None (faults w) = None ->
      user_sessions w !! token = Some row ->
      row_wallet_address row = wallet_address p ->
      expires_at row < clock (tick (tick w)) ->
      exists w',
        verifyAuthToken token w = (Ret None, w') /\
        db_calls w' =
        db_calls w ++ [SelectSession token (wallet_address p);
                       DeleteSessionByToken token] /\
        (hd None (tl (faults w)) = None ->
         user_sessions w' = delete token (user_sessions w))) /\
  (forall r w',
      verifyAuthToken token w = (r, w') ->
      user_sessions w' = user_sessions w \/
      (r = Ret None /\
       user_sessions w' = delete token (user_sessions w) /\
       exists p row,
         jwt_decode token (signing_secret (process_env w)) = Some p /\
         clock (tick w) / 1000 < exp p /\
         user_sessions w !! token = Some row /\
         row_wallet_address row = wallet_address p /\
         expires_at row < clock (tick (tick w)) /\
         clock w' = clock (tick (tick w)) /\
         db_calls w' =
         db_calls w ++ [SelectSession token (wallet_address p);
                        DeleteSessionByToken token])) /\
  (forall row,
      user_sessions w !! token = Some row ->
      expires_at row < clock (tick w) ->
      (forall p,
          jwt_decode token (signing_secret (process_env w)) = Some p ->
          exp p * 1000 <= expires_at row) ->
      verifyAuthToken token w = (Ret None, tick w) /\
      user_sessions (tick w) !! token = Some row /\
      db_calls (tick w) = db_calls w) /\
  (forall a w0,
      exp (issued_payload a w0) * 1000 <= expires_at (issued_row a w0)) /\
  (forall authorization,
      no_bearer authorization = true ->
      exists r,
        requireJwtAuth authorization w = (Ret (Responded r), w) /\
        status r = 401).
Proof.
  split; [|split; [|split; [|split]]].
  - intros p row Hp Hlive Hdb Hrow Hwallet Hexpired.
    rewrite verifyAuthToken_eq, Hp, Hdb, Hrow, Hwallet, String.eqb_refl. run.
    case_geb Hge; [run in Hlive; lia|].
    run in Hexpired.
    case_ltb Hnot; [|lia].
    destruct (hd None (tl (faults w))) as [code|]; run.
    + eexists. split; [reflexivity|]. run. rewrite <- app_assoc.
      split; [reflexivity | discriminate].
    + eexists. split; [reflexivity|]. run. rewrite <- app_assoc.
      split; reflexivity.
  - intros r w'. rewrite verifyAuthToken_eq. run.
    destruct (jwt_decode token _) as [p|]; [|intros [= <- <-]; left; reflexivity].
    case_geb Hge; [intros [= <- <-]; left; reflexivity|].
    destruct (hd None (faults w)); [intros [= <- <-]; left; reflexivity|].
    destruct (user_sessions w !! token) as [row|] eqn:Hrow;
      [|intros [= <- <-]; left; reflexivity].
    destruct (String.eqb _ _) eqn:Hwallet; [|intros [= <- <-]; left; reflexivity].
    case_ltb Hlt;
      [|intros [= <- <-]; left; reflexivity].
    destruct (hd None (tl (faults w))); intros [= <- <-];
      [left; reflexivity|].
    right. split; [reflexivity|]. split; [reflexivity|].
    exists p, row. apply String.eqb_eq in Hwallet. run.
    rewrite <- app_assoc.
    repeat split; try reflexivity; try assumption; lia.
  - intros row Hrow Hexpired Horder.
    split; [|split; [exact Hrow | reflexivity]].
    rewrite verifyAuthToken_eq.
    destruct (jwt_decode token _) as [p|] eqn:Hp; [|reflexivity].
    specialize (Horder p eq_refl). run. run in Hexpired.
    case_geb Hge; [reflexivity|].
    exfalso.
    pose proof (Z.mul_div_le (clock w + Z.of_N (hd 0%N (delays w))) 1000
                  ltac:(lia)).
    pose proof (Z.mod_pos_bound (clock w + Z.of_N (hd 0%N (delays w))) 1000
                  ltac:(lia)).
    pose proof (Z.div_mod (clock w + Z.of_N (hd 0%N (delays w))) 1000
                  ltac:(lia)).
    lia.
  - intros a w0. apply issued_expiry_order.
  - intros authorization Hmissing. rewrite requireJwtAuth_eq, Hmissing.
    eexists. split; reflexivity.
Qed.

Lemma user_sessions_select_single_eq (token wallet : string) (w : World) :
  user_sessions_select_single token wallet w =
  let w1 := sent (SelectSession token wallet) w in
  match hd None (faults w) with
  | Some code => (Ret (reply_error code), w1)
  | None =>
      match user_sessions w !! token with
      | Some row =>
          if String.eqb (row_wallet_address row) wallet then (Ret (reply_data row), w1)
          else (Ret (reply_error "PGRST116"), w1)
      | None => (Ret (reply_error "PGRST116"), w1)
      end
  end.
Proof.
  unfold user_sessions_select_single. run.
  destruct (hd None (faults w)); run; [reflexivity|].
  destruct (user_sessions w !! token) as [row|]; run; [|reflexivity].
  destruct (String.eqb _ _); reflexivity.
Qed.

(** The lookup finds nothing for a token that has no row. *)
Lemma select_no_row (token wallet : string) (w : World) :
  user_sessions w !! token = None ->
  exists r w',
    user_sessions_select_single token wallet w = (Ret r, w') /\ data r = None.
Proof.
  intros Hnone. rewrite user_sessions_select_single_eq, Hnone. run.
  destruct (hd None (faults w)); eauto.
Qed.

(** [invalidateSession] resolves in every world, and the table it leaves
    is the one it found, with or without the row of the token. *)
Lemma invalidateSession_frame (token : string) (w : World) :
  exists b w',
    invalidateSession token w = (Ret b, w') /\
    (user_sessions w' = user_sessions w \/
     user_sessions w' = delete token (user_sessions w)).
Proof.
  rewrite invalidateSession_eq. cbv zeta.
  repeat match goal with
         | |- context [match ?x with _ => _ end] => destruct x
         end;
    eexists _, _; (split; [reflexivity|]);
    first [left; reflexivity | right; reflexivity].
Qed.

(** A token whose [exp] is not later than the current second is rejected
    without a database request. *)
Lemma verifyAuthToken_expired (token : string) (p : Payload) (w : World) :
  jwt_decode token (signing_secret (process_env w)) = Some p ->
  exp p <= clock (tick w) / 1000 ->
  verifyAuthToken token w = (Ret None, tick w).
Proof.
  intros Hp Hexp. rewrite verifyAuthToken_eq, Hp. run. run in Hexp.
  case_geb Hlt; [reflexivity|lia].
Qed.

(** What the guard answers when verification resolves to [null]. *)
Lemma requireJwtAuth_rejects (token : string) (w w' : World) :
  verifyAuthToken token w = (Ret None, w') ->
  fst (requireJwtAuth (Some ("Bearer " +:+ token)) w) =
  Ret (Responded (respond 401
         [("error", JStr "Invalid or expired token");
          ("authenticated", JBool false)])).
Proof.
  intros Hv. destruct (bearer_header token) as [Hb Ht].
  rewrite requireJwtAuth_eq, Hb, Ht, Hv. reflexivity.
Qed.

(** C5 (as amended). A credential that [createAuthSession] has returned,
    and that the JWT library decodes back to its claims:
    - has its row in the table right after issuance, and the lookup on
      [(token, address)] returns that row when the database answers it;
    - the sign-out route answers 200 to every request that carries a bearer
      token, whatever became of the row;
    - a sign-out of the credential while its row is in the table deletes the
      row when the credential is still structurally valid and the database
      carries the delete out, and leaves the row where it is when the
      credential has expired or the database fails; after a sign-out that
      was carried out or came after expiry, in any later world with the same
      entry for the token, [verifyAuthToken] resolves to [null] and the
      guard answers 401;
    - in any world where the row is absent the lookup finds nothing,
      [verifyAuthToken] resolves to [null] and the guard answers 401;
    - and [verifyAuthToken] never throws, whatever the token and the world. *)
Theorem issue_signout_verify (a : string) (w w1 : World) (token : string)
    (p : Payload) :
  createAuthSession a w = (Ret token, w1) ->
  jwt_decode token (signing_secret (process_env w)) = Some p ->
  wallet_address p = toLowerCase a ->
  (user_sessions w1 !! token = Some (issued_row a w) /\
   process_env w1 = process_env w /\
   (hd None (faults w1) = None ->
    fst (user_sessions_select_single token (toLowerCase a) w1) =
    Ret (reply_data (issued_row a w)))) /\
  (forall authorization w0,
      no_bearer authorization = false ->
      exists w0',
        signout authorization w0 =
        (Ret (respond 200
                [("success", JBool true);
                 ("message", JStr "Signed out successfully")]), w0')) /\
  (forall w2,
      process_env w2 = process_env w ->
      user_sessions w2 !! token = Some (issued_row a w) ->
      exists w3,
        signout (Some ("Bearer " +:+ token)) w2 =
        (Ret (respond 200
                [("success", JBool true);
                 ("message", JStr "Signed out successfully")]), w3) /\
        process_env w3 = process_env w2 /\
        (clock (tick w2) / 1000 < exp p ->
         hd None (faults w2) = None ->
         user_sessions w3 !! token = None) /\
        (exp p <= clock (tick w2) / 1000 \/ hd None (faults w2) <> None ->
         user_sessions w3 !! token = Some (issued_row a w)) /\
        (clock (tick w2) / 1000 < exp p /\ hd None (faults w2) = None \/
         exp p <= clock (tick w2) / 1000 ->
         forall w4,
           process_env w4 = process_env w ->
           clock w3 <= clock w4 ->
           user_sessions w4 !! token = user_sessions w3 !! token ->
           fst (verifyAuthToken token w4) = Ret None /\
           fst (requireJwtAuth (Some ("Bearer " +:+ token)) w4) =
           Ret (Responded (respond 401
                  [("error", JStr "Invalid or expired token");
                   ("authenticated", JBool false)])))) /\
  (forall w3,
      user_sessions w3 !! token = None ->
      (exists r w', user_sessions_select_single token (toLowerCase a) w3 = (Ret r, w') /\
                    data r = None) /\
      fst (verifyAuthToken token w3) = Ret None /\
      fst (requireJwtAuth (Some ("Bearer " +:+ token)) w3) =
      Ret (Responded (respond 401
             [("error", JStr "Invalid or expired token");
              ("authenticated", JBool false)]))) /\
  (forall t w0, exists r w', verifyAuthToken t w0 = (Ret r, w')).
Proof.
  intros Hissue Hdecode Hwallet.
  destruct (createAuthSession_recorded a w w1 token Hissue) as [Hrow Henv].
  assert (Habsent : forall w3,
             user_sessions w3 !! token = None ->
             fst (verifyAuthToken token w3) = Ret None /\
             fst (requireJwtAuth (Some ("Bearer " +:+ token)) w3) =
             Ret (Responded (respond 401
                    [("error", JStr "Invalid or expired token");
                     ("authenticated", JBool false)]))).
  { intros w3 Hnone.
    destruct (verifyAuthToken_no_row token w3 Hnone) as (w' & Hv & _).
    rewrite (requireJwtAuth_rejects token w3 w' Hv), Hv. split; reflexivity. }
  split; [|split; [|split; [|split]]].
  - split; [exact Hrow|]. split; [exact Henv|].
    intros Hdb. rewrite user_sessions_select_single_eq, Hdb, Hrow.
    cbn [row_wallet_address issued_row]. rewrite String.eqb_refl. reflexivity.
  - intros authorization w0 Hbearer. rewrite signout_eq, Hbearer.
    destruct (invalidateSession_frame (bearer_token authorization) w0)
      as (b & w0' & -> & _).
    exists w0'. reflexivity.
  - intros w2 Henv2 Hrow2.
    destruct (bearer_header token) as [Hb Ht].
    assert (Hdecode2 : jwt_decode token (signing_secret (process_env w2)) =
                       Some p) by (rewrite Henv2; exact Hdecode).
    rewrite signout_eq, Hb, Ht, invalidateSession_eq, Hdecode2, Hrow2.
    cbv zeta. cbn [row_wallet_address issued_row].
    rewrite Hwallet, String.eqb_refl.
    case_geb Hge.
    + exists (tick w2). split; [reflexivity|]. split; [reflexivity|].
      split; [intros Hlive; lia|]. split; [intros _; exact Hrow2|].
      intros _ w4 Henv4 Hclock _.
      assert (Hexp : exp p <= clock (tick w4) / 1000).
      { pose proof (clock_tick_le w4) as Hle.
        pose proof (Z.div_le_mono (clock (tick w2)) (clock (tick w4)) 1000
                      ltac:(lia) ltac:(lia)).
        lia. }
      rewrite <- Henv4 in Hdecode.
      pose proof (verifyAuthToken_expired token p w4 Hdecode Hexp) as Hv.
      rewrite (requireJwtAuth_rejects token w4 _ Hv), Hv. split; reflexivity.
    + run in Hge. destruct (hd None (faults w2)) as [code|] eqn:Hdb.
      * eexists. split; [reflexivity|]. run. split; [reflexivity|].
        split; [discriminate|]. split; [intros _; exact Hrow2|].
        intros [[_ [=]] | Hexp]; lia.
      * eexists. split; [reflexivity|]. run. split; [reflexivity|].
        split; [intros _ _; apply lookup_delete_eq|].
        split; [intros [Hexp | Hfault]; [lia | congruence]|].
        intros _ w4 _ _ Hsame. apply Habsent.
        rewrite Hsame. apply lookup_delete_eq.
  - intros w3 Hnone. split; [apply select_no_row; exact Hnone|].
    apply Habsent. exact Hnone.
  - apply verifyAuthToken_total.
Qed.

(** C8 (as amended). [cleanupExpiredSessions] never throws and resolves
    to [undefined], not to a count.  When the first of two calls in a row
    was carried out by the database and no row expires between the two
    clock reads, the second call deletes nothing. *)
Theorem cleanup_twice (w : World) :
  exists w1 w2,
    cleanupExpiredSessions w = (Ret JUndefined, w1) /\
    cleanupExpiredSessions w1 = (Ret JUndefined, w2) /\
    (hd None (faults w) = None ->
     (forall token row,
         user_sessions w1 !! token = Some row ->
         expires_at row < clock w2 -> expires_at row < clock w1) ->
     user_sessions w2 = user_sessions w1).
Proof.
  rewrite cleanupExpiredSessions_eq. run.
  destruct (hd None (faults w)) as [code|] eqn:Hdb;
    destruct (hd None (tl (faults w))) as [code'|] eqn:Hdb';
    eexists _, _; (split; [reflexivity|]);
    rewrite cleanupExpiredSessions_eq; run; rewrite Hdb';
    (split; [reflexivity|]); try discriminate; run; intros _ Hquiet;
    [reflexivity|].
  apply map_filter_id. intros token row Hrow. cbn [snd].
  intros Hexpired. pose proof (Hquiet token row Hrow Hexpired) as Hbefore.
  apply map_lookup_filter_Some in Hrow. destruct Hrow as [_ Hkept].
  cbn [snd] in Hkept. apply Hkept. exact Hbefore.
Qed.

End SessionProperties.

(** ** Properties of the sign-in route *)

Section SigninProperties.

Import Server.
Local Open Scope Z_scope.

Context {J : JwtLib}.

Lemma signin_failure_status (e : Exn) :
  status (signin_failure e) = 403 \/ status (signin_failure e) = 500.
Proof. unfold signin_failure. destruct (bool_decide _); [left|right]; reflexivity. Qed.

Lemma signin_eq (message signature : Json) (w : World) :
  signin message signature w =
  if negb (truthy message) || negb (truthy signature) then
    (Ret (respond 400
            [("success", JBool false);
             ("error", JStr "Missing message or signature")]), w)
  else
    match message with
    | JStr s =>
        match match_address s with
        | None =>
            (Ret (respond 400
                    [("success", JBool false);
                     ("error",
                      JStr "Invalid message format - could not extract address")]),
             w)
        | Some address =>
            match userDb_exists address w with
            | (Ret false, w1) =>
                (Ret (respond 403
                        [("success", JBool false);
                         ("error", JStr "Profile setup required");
                         ("needsSetup", JBool true);
                         ("address", JStr (toLowerCase address))]), w1)
            | (Ret true, w1) =>
                match createAuthSession address w1 with
                | (Ret token, w2) =>
                    (Ret (respond 200
                            [("success", JBool true);
                             ("token", JStr token);
                             ("user", JObj [("walletAddress", JStr address)])]),
                     w2)
                | (Throw e, w2) => (Ret (signin_failure e), w2)
                end
            | (Throw e, w1) => (Ret (signin_failure e), w1)
            end
        end
    | _ => (Ret (signin_failure TypeError), w)
    end.
Proof.
  unfold signin, signin_failure.
  destruct (negb (truthy message) || negb (truthy signature)); [reflexivity|].
  unfold message_match. run.
  destruct message; try reflexivity.
  destruct (match_address s) as [address|]; run; [|reflexivity].
  destruct (userDb_exists address w) as [[[|]|e] w1]; cbn [negb]; run;
    try reflexivity.
  - destruct (createAuthSession address w1) as [[token|e] w2];
      [reflexivity | destruct (bool_decide _); reflexivity].
  - destruct (bool_decide _); reflexivity.
Qed.

Lemma match_address_nonempty (s address : string) :
  match_address s = Some address -> nonempty s = true.
Proof. destruct s; [discriminate | reflexivity]. Qed.

(** The sign-in handler on a well-formed message: the profile lookup,
    then the issuance. *)
Lemma signin_wellformed (s address : string) (signature : Json) (w : World) :
  match_address s = Some address ->
  truthy signature = true ->
  signin (JStr s) signature w =
  let w1 := sent (SelectUser (toLowerCase address)) w in
  let no_profile :=
    respond 403
      [("success", JBool false);
       ("error", JStr "Profile setup required");
       ("needsSetup", JBool true);
       ("address", JStr (toLowerCase address))] in
  match hd None (faults w) with
  | Some code =>
      if String.eqb code "PGRST116" then (Ret no_profile, w1)
      else (Ret (signin_failure (PostgrestError code)), w1)
  | None =>
      if decide (toLowerCase address ∈ users w) then
        match createAuthSession address w1 with
        | (Ret token, w2) =>
            (Ret (respond 200
                    [("success", JBool true);
                     ("token", JStr token);
                     ("user", JObj [("walletAddress", JStr address)])]), w2)
        | (Throw e, w2) => (Ret (signin_failure e), w2)
        end
      else (Ret no_profile, w1)
  end.
Proof.
  intros Hm Hsig. rewrite signin_eq. cbn [truthy].
  rewrite (match_address_nonempty _ _ Hm), Hsig, Hm. cbn [negb orb].
  rewrite userDb_exists_eq. run.
  destruct (hd None (faults w)) as [code|].
  - destruct (String.eqb code "PGRST116"); reflexivity.
  - destruct (decide (toLowerCase address ∈ users w)); reflexivity.
Qed.

(** The handler on anything else answers 400 or 500 and touches nothing. *)
Lemma signin_malformed (message signature : Json) (w : World) :
  (forall s address,
      message = JStr s -> match_address s = Some address ->
      truthy signature = false) ->
  exists r,
    signin message signature w = (Ret r, w) /\
    (status r = 400 \/ status r = 500).
Proof.
  intros Hbad. rewrite signin_eq.
  destruct (negb (truthy message) || negb (truthy signature)) eqn:Hargs.
  { eexists. split; [reflexivity|]. left. reflexivity. }
  destruct message as [| | | |s| |];
    try (eexists; split; [reflexivity|]; right; reflexivity).
  destruct (match_address s) as [address|] eqn:Hm.
  - rewrite (Hbad s address eq_refl Hm) in Hargs.
    rewrite orb_true_r in Hargs. discriminate.
  - eexists. split; [reflexivity|]. left. reflexivity.
Qed.

(** Whether a request is well formed is decided by its message and the
    truthiness of its signature. *)
Lemma signin_shape (message signature : Json) :
  (exists s address,
      message = JStr s /\ match_address s = Some address /\
      truthy signature = true) \/
  (forall s address,
      message = JStr s -> match_address s = Some address ->
      truthy signature = false).
Proof.
  destruct (truthy signature) eqn:Hsig; [|right; reflexivity].
  destruct message as [| | | |s| |]; try (right; intros ? ? [=]; fail).
  destruct (match_address s) as [address|] eqn:Hm.
  - left. eauto.
  - right. intros ? ? [= <-]. rewrite Hm. discriminate.
Qed.

(** A successful sign-in: the answer and what it leaves in the table. *)
Lemma signin_success (message signature : Json) (w w' : World) (r : Response) :
  signin message signature w = (Ret r, w') ->
  status r = 200 ->
  exists s address token,
    message = JStr s /\
    match_address s = Some address /\
    truthy signature = true /\
    toLowerCase address ∈ users w /\
    r = respond 200
          [("success", JBool true);
           ("token", JStr token);
           ("user", JObj [("walletAddress", JStr address)])] /\
    user_sessions w !! token = None /\
    exists row,
      row_wallet_address row = toLowerCase address /\
      user_sessions w' = <[token := row]> (user_sessions w).
Proof.
  intros Hrun Hok.
  destruct (signin_shape message signature)
    as [(s & address & -> & Hm & Hsig) | Hbad].
  2:{ destruct (signin_malformed message signature w Hbad) as (r' & Hr & Hs).
      rewrite Hr in Hrun. injection Hrun as <- _. lia. }
  rewrite (signin_wellformed s address signature w Hm Hsig) in Hrun.
  run in Hrun.
  destruct (hd None (faults w)) as [code|] eqn:Hdb.
  { destruct (String.eqb code "PGRST116"); injection Hrun as <- _;
      [discriminate|].
    destruct (signin_failure_status (PostgrestError code)); lia. }
  destruct (decide (toLowerCase address ∈ users w)) as [Hin|Hout];
    [|injection Hrun as <- _; discriminate].
  rewrite createAuthSession_eq in Hrun. run in Hrun.
  destruct (hd None (tl (faults w))) as [code|].
  { injection Hrun as <- _.
    destruct (signin_failure_status (PostgrestError code)); lia. }
  destruct (user_sessions w !! _) eqn:Hfree.
  { injection Hrun as <- _.
    destruct (signin_failure_status (PostgrestError "23505")); lia. }
  destruct (decide (toLowerCase address ∈ users w)); [|contradiction].
  injection Hrun as <- <-.
  exists s, address. eexists.
  split; [reflexivity|]. split; [exact Hm|]. split; [exact Hsig|].
  split; [exact Hin|]. split; [reflexivity|]. split; [exact Hfree|].
  eexists. split; [|reflexivity]. reflexivity.
Qed.

(** An answer other than 200 leaves the table as it was. *)
Lemma signin_no_issue (message signature : Json) (w w' : World) (r : Response) :
  signin message signature w = (Ret r, w') ->
  status r <> 200 ->
  user_sessions w' = user_sessions w.
Proof.
  intros Hrun Hnot.
  destruct (signin_shape message signature)
    as [(s & address & -> & Hm & Hsig) | Hbad].
  2:{ destruct (signin_malformed message signature w Hbad) as (r' & Hr & Hs).
      rewrite Hr in Hrun. injection Hrun as _ <-. reflexivity. }
  rewrite (signin_wellformed s address signature w Hm Hsig) in Hrun.
  run in Hrun.
  destruct (hd None (faults w)) as [code|] eqn:Hdb.
  { destruct (String.eqb code "PGRST116"); injection Hrun as _ <-; reflexivity. }
  destruct (decide (toLowerCase address ∈ users w)) as [Hin|Hout];
    [|injection Hrun as _ <-; reflexivity].
  rewrite createAuthSession_eq in Hrun. run in Hrun.
  destruct (hd None (tl (faults w))) as [code|];
    [injection Hrun as _ <-; reflexivity|].
  destruct (user_sessions w !! _); [injection Hrun as _ <-; reflexivity|].
  destruct (decide (toLowerCase address ∈ users w)); [|contradiction].
  injection Hrun as <- _. exfalso. apply Hnot. reflexivity.
Qed.

(** The handler always answers, with one of four status codes. *)
Lemma signin_answers (message signature : Json) (w : World) :
  exists r w',
    signin message signature w = (Ret r, w') /\
    (status r = 200 \/ status r = 400 \/ status r = 403 \/ status r = 500).
Proof.
  destruct (signin_shape message signature)
    as [(s & address & -> & Hm & Hsig) | Hbad].
  2:{ destruct (signin_malformed message signature w Hbad) as (r' & Hr & Hs).
      exists r', w. split; [exact Hr|]. tauto. }
  rewrite (signin_wellformed s address signature w Hm Hsig). run.
  assert (Hfail : forall e, status (signin_failure e) = 200 \/
                            status (signin_failure e) = 400 \/
                            status (signin_failure e) = 403 \/
                            status (signin_failure e) = 500).
  { intros e. destruct (signin_failure_status e); tauto. }
  destruct (hd None (faults w)) as [code|].
  { destruct (String.eqb code "PGRST116"); eexists _, _;
      (split; [reflexivity|]); [cbn [status respond]; tauto | apply Hfail]. }
  destruct (decide (toLowerCase address ∈ users w)) as [Hin|Hout].
  2:{ eexists _, _. split; [reflexivity|]. cbn [status respond]. tauto. }
  destruct (createAuthSession address _) as [[token|e] w2]; eexists _, _;
    (split; [reflexivity|]); [cbn [status respond]; tauto | apply Hfail].
Qed.

(** C3 (as amended). [POST /auth/signin] always answers, with status
    200, 400, 403 or 500 (never 201, never 401).  On success the status is
    200 and the body is [{success: true, token, user: {walletAddress}}],
    the token being the key of a row just recorded for the address.  When
    the profile lookup is carried out and finds no profile for the address
    taken from the message, the answer is 403 with [needsSetup: true] and
    the lower-cased address, whatever the (truthy) signature, and the only
    database request is that lookup.  No answer other than 200 changes the
    sessions table. *)
Theorem signin_responses (message signature : Json) (w : World) :
  exists r w',
    signin message signature w = (Ret r, w') /\
    (status r = 200 \/ status r = 400 \/ status r = 403 \/ status r = 500) /\
    (status r = 200 ->
     exists s address token row,
       message = JStr s /\
       match_address s = Some address /\
       body r = JObj [("success", JBool true);
                      ("token", JStr token);
                      ("user", JObj [("walletAddress", JStr address)])] /\
       row_wallet_address row = toLowerCase address /\
       user_sessions w' = <[token := row]> (user_sessions w)) /\
    (status r <> 200 -> user_sessions w' = user_sessions w) /\
    (forall s address,
        message = JStr s ->
        match_address s = Some address ->
        truthy signature = true ->
        hd None (faults w) = None ->
        toLowerCase address ∉ users w ->
        r = respond 403
              [("success", JBool false);
               ("error", JStr "Profile setup required");
               ("needsSetup", JBool true);
               ("address", JStr (toLowerCase address))] /\
        db_calls w' = db_calls w ++ [SelectUser (toLowerCase address)]).
Proof.
  destruct (signin_answers message signature w) as (r & w' & Hrun & Hstatus).
  exists r, w'. split; [exact Hrun|]. split; [exact Hstatus|].
  split; [|split].
  - intros Hok.
    destruct (signin_success message signature w w' r Hrun Hok)
      as (s & address & token & -> & Hm & _ & _ & -> & _ & row & Hrow & Hstore).
    exists s, address, token, row. repeat split; assumption.
  - apply (signin_no_issue message signature w w' r Hrun).
  - intros s address -> Hm Hsig Hdb Hout.
    rewrite (signin_wellformed s address signature w Hm Hsig) in Hrun.
    run in Hrun. rewrite Hdb in Hrun.
    destruct (decide (toLowerCase address ∈ users w)); [contradiction|].
    injection Hrun as <- <-. split; reflexivity.
Qed.

(** C1 (as amended). The sign-in handler never looks inside the
    signature: two requests with the same message and any two truthy
    signatures get the same answer and leave the same world.  A credential
    is issued (status 200) only if the signature is truthy, the message is
    a string in which the pattern [Address: 0x] plus forty hexadecimal
    digits occurs, and a profile exists for the lower-cased address of its
    leftmost occurrence. *)
Theorem signin_trusts_message (message signature : Json) (w : World) :
  (forall signature',
      truthy signature = true ->
      truthy signature' = true ->
      signin message signature' w = signin message signature w) /\
  (forall r w',
      signin message signature w = (Ret r, w') ->
      status r = 200 ->
      truthy signature = true /\
      exists s address,
        message = JStr s /\
        match_address s = Some address /\
        toLowerCase address ∈ users w).
Proof.
  split.
  - intros signature' Hsig Hsig'. rewrite !signin_eq, Hsig, Hsig'. reflexivity.
  - intros r w' Hrun Hok.
    destruct (signin_success message signature w w' r Hrun Hok)
      as (s & address & token & -> & Hm & Hsig & Hin & _).
    split; [exact Hsig|]. exists s, address. repeat split; assumption.
Qed.

End SigninProperties.

(** ** The client: the cache with a time to live *)

Ltac crun_goal :=
  cbv beta iota delta [try_catch bind get ret throw modify Client.Date_now
                       Client.localStorage_getItem Client.localStorage_setItem
                       Client.localStorage_removeItem
                       Client.sessionStorage_removeItem Client.set_state
                       Client.setTimeout];
  cbn [fst snd Client.clock Client.delays Client.localStorage
       Client.sessionStorage Client.store Client.prevAddressRef
       Client.initializedRef Client.pending Client.timers Client.requests
       Client.tick Client.with_localStorage Client.with_sessionStorage
       Client.with_store Client.with_refs Client.with_queue].

Ltac crun_hyp H :=
  cbv beta iota delta [try_catch bind get ret throw modify Client.Date_now
                       Client.localStorage_getItem Client.localStorage_setItem
                       Client.localStorage_removeItem
                       Client.sessionStorage_removeItem Client.set_state
                       Client.setTimeout] in H;
  cbn [fst snd Client.clock Client.delays Client.localStorage
       Client.sessionStorage Client.store Client.prevAddressRef
       Client.initializedRef Client.pending Client.timers Client.requests
       Client.tick Client.with_localStorage Client.with_sessionStorage
       Client.with_store Client.with_refs Client.with_queue] in H.

Ltac case_gtb H :=
  match goal with
  | |- context [(?x >? ?y)%Z] => destruct (Z.gtb_spec x y) as [H|H]
  end.

Tactic Notation "crun" := crun_goal.
Tactic Notation "crun" "in" hyp(H) := crun_hyp H.

Section CacheFacts.

Import Client Client.AuthStore.
Local Open Scope Z_scope.

Context {L : JsonLib}.

Lemma getCachedAuth_eq (w : World) :
  getCachedAuth w =
  match localStorage w !! CACHE_KEY with
  | None => (Ret None, w)
  | Some text =>
      if nonempty text then
        match JSON_parse text with
        | ParseError =>
            (Ret None, with_localStorage (delete CACHE_KEY (localStorage w)) w)
        | ParsedNull =>
            (Ret None,
             with_localStorage (delete CACHE_KEY (localStorage w)) (tick w))
        | ParsedCache c =>
            if clock (tick w) - timestamp c >? CACHE_DURATION then
              (Ret None,
               with_localStorage (delete CACHE_KEY (localStorage w)) (tick w))
            else (Ret (Some c), tick w)
        end
      else (Ret None, w)
  end.
Proof.
  unfold getCachedAuth. crun.
  destruct (localStorage w !! CACHE_KEY) as [text|]; [|reflexivity].
  cbv [truthy_str default from_option id].
  destruct (nonempty text); cbn [negb]; [|reflexivity].
  crun. destruct (JSON_parse text) as [| |c]; crun; try reflexivity.
  case_gtb Hage; reflexivity.
Qed.

Lemma setCachedAuth_eq (a : bool) (u : option string) (e : bool) (w : World) :
  setCachedAuth a u e w =
  (Ret tt,
   with_localStorage
     (<[CACHE_KEY := JSON_stringify {| isAuthenticated := a; userAddress := u;
                                       userExists := e;
                                       timestamp := clock (tick w) |}]>
        (localStorage w))
     (tick w)).
Proof. reflexivity. Qed.

(** Reading a record that [JSON.parse] rejects. *)
Lemma cache_read_unparsable (w : World) (text : string) :
  localStorage w !! CACHE_KEY = Some text ->
  nonempty text = true ->
  JSON_parse text = ParseError ->
  getCachedAuth w =
  (Ret None, with_localStorage (delete CACHE_KEY (localStorage w)) w).
Proof.
  intros Hstored Htext Hparse.
  rewrite getCachedAuth_eq, Hstored, Htext, Hparse. reflexivity.
Qed.

(** An empty stored text is falsy: the read returns [null] before
    [JSON.parse] is called, and the record stays. *)
Lemma cache_read_empty (w : World) :
  localStorage w !! CACHE_KEY = Some "" ->
  getCachedAuth w = (Ret None, w).
Proof. intros Hstored. rewrite getCachedAuth_eq, Hstored. reflexivity. Qed.

(** C6 (as amended). An entry that [setCachedAuth] wrote at time [T]
    (and that [JSON.parse] reads back) is returned by a read at time [now]
    when [now - T <= CACHE_DURATION] (6 minutes), the bound included, and
    storage is left as it is; when [now - T > CACHE_DURATION] the read
    returns [null] and removes the record.  A stored text that is not empty
    and that [JSON.parse] rejects is removed too, and the read returns
    [null]. *)
Theorem cache_read_ttl (w : World) (a : bool) (u : option string) (e : bool) :
  JSON_parse (JSON_stringify {| isAuthenticated := a; userAddress := u;
                                userExists := e; timestamp := clock (tick w) |}) =
  ParsedCache {| isAuthenticated := a; userAddress := u;
                 userExists := e; timestamp := clock (tick w) |} ->
  nonempty (JSON_stringify {| isAuthenticated := a; userAddress := u;
                              userExists := e; timestamp := clock (tick w) |}) = true ->
  (exists w1,
      setCachedAuth a u e w = (Ret tt, w1) /\
      forall w2,
        localStorage w2 !! CACHE_KEY = localStorage w1 !! CACHE_KEY ->
        (clock (tick w2) - clock (tick w) <= CACHE_DURATION ->
         getCachedAuth w2 =
         (Ret (Some {| isAuthenticated := a; userAddress := u;
                       userExists := e; timestamp := clock (tick w) |}), tick w2)) /\
        (clock (tick w2) - clock (tick w) > CACHE_DURATION ->
         getCachedAuth w2 =
         (Ret None,
          with_localStorage (delete CACHE_KEY (localStorage w2)) (tick w2)))) /\
  (forall w3 text,
      localStorage w3 !! CACHE_KEY = Some text ->
      nonempty text = true ->
      JSON_parse text = ParseError ->
      getCachedAuth w3 =
      (Ret None, with_localStorage (delete CACHE_KEY (localStorage w3)) w3)).
Proof.
  intros Hparse Htext. split; [|apply cache_read_unparsable].
  eexists. split; [apply setCachedAuth_eq|].
  intros w2 Hsame. rewrite getCachedAuth_eq, Hsame.
  cbn [localStorage with_localStorage]. rewrite lookup_insert_eq, Htext, Hparse.
  cbn [timestamp]. split; intros Hage; case_gtb Hcmp; first [reflexivity | lia].
Qed.

End CacheFacts.

(** ** The client: wallet synchronisation *)

Section SyncFacts.

Import Client.
Local Open Scope Z_scope.

Lemma purge_lookup (doomed : string -> bool) (m : gmap string string) (k : string) :
  purge doomed m !! k = if doomed k then None else m !! k.
Proof.
  unfold purge. destruct (doomed k) eqn:Hk.
  - apply map_lookup_filter_None. right. intros x _. cbn [fst]. congruence.
  - destruct (m !! k) as [x|] eqn:Hx.
    + apply map_lookup_filter_Some. split; [exact Hx | exact Hk].
    + apply map_lookup_filter_None. left. exact Hx.
Qed.

Lemma forEach_local (keys : list string) (w : World) :
  forEach keys localStorage_removeItem w =
  (Ret tt, with_localStorage (foldl (fun m k => delete k m) (localStorage w) keys) w).
Proof.
  revert w. induction keys as [|k keys IH]; intros w.
  - destruct w; reflexivity.
  - cbn [forEach foldl]. crun. rewrite IH. reflexivity.
Qed.

Lemma forEach_session (keys : list string) (w : World) :
  forEach keys sessionStorage_removeItem w =
  (Ret tt,
   with_sessionStorage (foldl (fun m k => delete k m) (sessionStorage w) keys) w).
Proof.
  revert w. induction keys as [|k keys IH]; intros w.
  - destruct w; reflexivity.
  - cbn [forEach foldl]. crun. rewrite IH. reflexivity.
Qed.

Lemma foldl_delete_lookup (keys : list string) (m : gmap string string) (k : string) :
  foldl (fun m k => delete k m) m keys !! k =
  if decide (k ∈ keys) then None else m !! k.
Proof.
  revert m. induction keys as [|k' keys IH]; intros m; cbn [foldl].
  - destruct (decide (k ∈ [])) as [Hin|_]; [|reflexivity].
    apply elem_of_nil in Hin. contradiction.
  - rewrite IH. destruct (decide (k ∈ keys)) as [Hin|Hout].
    + rewrite decide_True by (right; exact Hin). reflexivity.
    + destruct (decide (k = k')) as [->|Hne].
      * rewrite decide_True by left. apply lookup_delete_eq.
      * rewrite decide_False by (intros Hin; apply elem_of_cons in Hin;
                                  destruct Hin; contradiction).
        apply lookup_delete_ne. congruence.
Qed.

(** Removing the selected keys of [Object.keys] one by one purges the
    area. *)
Lemma remove_selected (doomed : string -> bool) (m : gmap string string) :
  foldl (fun m k => delete k m) m (List.filter doomed (Object_keys m)) =
  purge doomed m.
Proof.
  apply map_eq. intros k. rewrite foldl_delete_lookup, purge_lookup.
  destruct (decide (k ∈ List.filter doomed (Object_keys m))) as [Hin|Hout].
  - apply list_elem_of_In, filter_In in Hin. destruct Hin as [_ ->]. reflexivity.
  - destruct (doomed k) eqn:Hk; [|reflexivity].
    destruct (m !! k) as [x|] eqn:Hx; [|reflexivity].
    exfalso. apply Hout. apply list_elem_of_In, filter_In. split; [|exact Hk].
    apply list_elem_of_In. unfold Object_keys.
    apply list_elem_of_fmap. exists (k, x). split; [reflexivity|].
    apply elem_of_map_to_list. exact Hx.
Qed.

Lemma clearWalletData_eq (w : World) :
  clearWalletData w =
  (Ret tt,
   with_sessionStorage (purge wallet_key (sessionStorage w))
     (with_localStorage (purge local_key_to_remove (localStorage w)) w)).
Proof.
  unfold clearWalletData. crun. rewrite forEach_local. crun.
  rewrite forEach_session. crun. rewrite !remove_selected. reflexivity.
Qed.

Lemma logout_finish_eq (w : World) :
  logout_finish w =
  (Ret tt,
   with_store (set_logged_out (store w))
     (with_localStorage (delete JWT_TOKEN_KEY (localStorage w)) w)).
Proof. reflexivity. Qed.

Lemma logout_eq (w : World) :
  logout w =
  (Ret tt,
   if truthy_str (jwtToken (store w)) then
     with_queue (pending w ++ [LogoutAfterFetch]) (timers w)
       (requests w ++ [SignoutRequest (default "" (jwtToken (store w)))]) w
   else
     with_store (set_logged_out (store w))
       (with_localStorage (delete JWT_TOKEN_KEY (localStorage w)) w)).
Proof.
  unfold logout. crun. destruct (truthy_str (jwtToken (store w))); reflexivity.
Qed.

Lemma addressEffect_changed (address : option string) (old : string) (w : World) :
  initializedRef w = true ->
  prevAddressRef w = Some old ->
  nonempty old = true ->
  address <> Some old ->
  addressEffect address w = (Ret tt, with_refs address true (invalidated Reload w)).
Proof.
  intros Hinit Hprev Hold Hne. unfold addressEffect, invalidated. crun.
  rewrite Hinit, Hprev. cbn [negb truthy_str]. rewrite Hold.
  unfold strict_ne. rewrite bool_decide_eq_false_2 by congruence.
  cbn [negb andb]. rewrite logout_eq. crun. rewrite clearWalletData_eq. crun.
  reflexivity.
Qed.

Lemma disconnectEffect_signed_in (w : World) :
  isAuthenticated (store w) = true ->
  disconnectEffect false w = (Ret tt, invalidated GoHome w).
Proof.
  intros Hauth. unfold disconnectEffect, invalidated. crun.
  rewrite Hauth. cbn [negb andb]. rewrite logout_eq. crun.
  rewrite clearWalletData_eq. crun. reflexivity.
Qed.

Lemma jwt_key_doomed : local_key_to_remove JWT_TOKEN_KEY = true.
Proof. reflexivity. Qed.

Lemma cache_key_kept : local_key_to_remove AuthStore.CACHE_KEY = false.
Proof. reflexivity. Qed.

Lemma invalidated_localStorage (t : Timer) (w : World) (key : string) :
  localStorage (invalidated t w) !! key =
  if local_key_to_remove key then None else localStorage w !! key.
Proof.
  unfold invalidated. rewrite logout_eq. cbn [snd].
  rewrite clearWalletData_eq. crun. rewrite purge_lookup.
  destruct (local_key_to_remove key) eqn:Hkey; [reflexivity|].
  destruct (truthy_str (jwtToken (store w))); crun; [reflexivity|].
  apply lookup_delete_ne. intros <-. rewrite jwt_key_doomed in Hkey. discriminate.
Qed.


Lemma invalidated_timers (t : Timer) (w : World) :
  timers (invalidated t w) = timers w ++ [t].
Proof.
  unfold invalidated. rewrite logout_eq. cbn [snd].
  rewrite clearWalletData_eq. crun.
  destruct (truthy_str (jwtToken (store w))); reflexivity.
Qed.


Lemma invalidated_logout (t : Timer) (w : World) :
  if truthy_str (jwtToken (store w)) then
    requests (invalidated t w) =
    requests w ++ [SignoutRequest (default "" (jwtToken (store w)))] /\
    pending (invalidated t w) = pending w ++ [LogoutAfterFetch] /\
    store (invalidated t w) = store w
  else
    requests (invalidated t w) = requests w /\
    pending (invalidated t w) = pending w /\
    store (invalidated t w) = set_logged_out (store w).
Proof.
  unfold invalidated. rewrite logout_eq. cbn [snd].
  rewrite clearWalletData_eq. crun.
  destruct (truthy_str (jwtToken (store w))); repeat split.
Qed.

Lemma fetch_settles_eq (w : World) :
  fetch_settles w =
  match pending w with
  | LogoutAfterFetch :: rest =>
      (Ret tt,
       with_store (set_logged_out (store w))
         (with_localStorage (delete JWT_TOKEN_KEY (localStorage w))
            (with_queue rest (timers w) (requests w) w)))
  | [] => (Ret tt, w)
  end.
Proof.
  unfold fetch_settles. crun. destruct (pending w) as [|[] rest]; reflexivity.
Qed.

Section ColdStart.

Context {R : TokenReader}.



End ColdStart.

End SyncFacts.

Section ClientClaims.

Import Client.
Local Open Scope Z_scope.

Context {R : TokenReader} {L : AuthStore.JsonLib}.


End ClientClaims.

(** ** The server properties on runs *)

(** Equations between closed terms are settled by evaluation. *)
Ltac by_vm :=
  match goal with
  | |- ?l = ?r => exact (@eq_refl _ l <: l = r)
  end.

Section ServerRuns.

Import Server Sample.
Local Open Scope Z_scope.

#[local] Existing Instance PlainJwt.lib.

(** In a world of [Sample] where the database answers, issuance for Alice
    succeeds. *)
Lemma fresh_issue (env : Env) (now : Z) (ds : list Z) (fs : list (option string)) :
  createAuthSession alice (fresh env now ds (None :: fs)) =
  (Ret (issued_token alice (fresh env now ds (None :: fs))),
   issued_world alice (fresh env now ds (None :: fs))).
Proof.
  apply createAuthSession_ok.
  - reflexivity.
  - apply lookup_empty.
  - change (toLowerCase alice ∈ ({[ alice_lc ]} : gset string)).
    apply elem_of_singleton_2. reflexivity.
Qed.

Lemma fresh_issue_quiet (env : Env) (now : Z) (ds : list Z) :
  createAuthSession alice (fresh env now ds []) =
  (Ret (issued_token alice (fresh env now ds [])),
   issued_world alice (fresh env now ds [])).
Proof.
  apply createAuthSession_ok.
  - reflexivity.
  - apply lookup_empty.
  - change (toLowerCase alice ∈ ({[ alice_lc ]} : gset string)).
    apply elem_of_singleton_2. reflexivity.
Qed.

(** The two halves of C4 on runs: an insert that meets a database failure,
    and one that succeeds. *)
Lemma issue_all_or_nothing_witness :
  (createAuthSession alice w_down =
   (Throw (PostgrestError "08006"),
    sent (InsertSession (issued_token alice w_down) (issued_row alice w_down))
         (tick (tick (tick (tick w_down))))) /\
   user_sessions
     (sent (InsertSession (issued_token alice w_down) (issued_row alice w_down))
           (tick (tick (tick (tick w_down))))) = user_sessions w_down) /\
  (user_sessions_insert (issued_token alice w_calm) (issued_row alice w_calm)
     (tick (tick (tick (tick w_calm)))) = (Ret None, issued_world alice w_calm) /\
   user_sessions (issued_world alice w_calm) !! issued_token alice w_calm =
   Some (issued_row alice w_calm)).
Proof.
  split.
  - apply (proj1 (issue_all_or_nothing alice w_down)
             (PostgrestError "08006")).
    rewrite user_sessions_insert_eq. reflexivity.
  - apply (proj2 (issue_all_or_nothing alice w_calm)
             (issued_token alice w_calm) (issued_world alice w_calm)).
    apply fresh_issue_quiet.
Defined.



(** C2 on a run: Alice's credential is presented 36 hours after issuance;
    its row is still in the table, and the guard answers 401 without a
    database request. *)
Lemma expired_credential_rejected_witness :
  user_sessions (issued_world alice w_late) !! issued_token alice w_late =
  Some (issued_row alice w_late) /\
  exists w',
    requireJwtAuth (Some ("Bearer " +:+ issued_token alice w_late))
      (issued_world alice w_late) =
    (Ret (Responded (respond 401
            [("error", JStr "Invalid or expired token");
             ("authenticated", JBool false)])), w') /\
    db_calls w' = db_calls (issued_world alice w_late) /\
    faults w' = faults (issued_world alice w_late) /\
    user_sessions w' = user_sessions (issued_world alice w_late).
Proof.
  split; [apply issued_lookup|].
  apply (expired_credential_rejected
           (Some ("Bearer " +:+ issued_token alice w_late))
           (issued_world alice w_late)).
  - apply bearer_header.
  - right. exists (issued_payload alice w_late).
    rewrite (proj2 (bearer_header (issued_token alice w_late))).
    split; [by_vm|]. apply Z.leb_le. by_vm.
Defined.

(** C10 on a run: the credential is presented one second before its [exp];
    the lookup returns two seconds later, when the row's [expires_at] has
    passed, and the row is deleted. *)
Lemma verification_store_effect_witness :
  user_sessions (issued_world alice w_edge) !! issued_token alice w_edge =
  Some (issued_row alice w_edge) /\
  exists w',
    verifyAuthToken (issued_token alice w_edge) (issued_world alice w_edge) =
    (Ret None, w') /\
    db_calls w' =
    db_calls (issued_world alice w_edge) ++
    [SelectSession (issued_token alice w_edge)
       (wallet_address (issued_payload alice w_edge));
     DeleteSessionByToken (issued_token alice w_edge)] /\
    (hd None (tl (faults (issued_world alice w_edge))) = None ->
     user_sessions w' =
     delete (issued_token alice w_edge) (user_sessions (issued_world alice w_edge))).
Proof.
  split; [apply issued_lookup|].
  apply (proj1 (verification_store_effect (issued_token alice w_edge)
                  (issued_world alice w_edge))
           (issued_payload alice w_edge) (issued_row alice w_edge)).
  - by_vm.
  - apply Z.ltb_lt. by_vm.
  - reflexivity.
  - apply issued_lookup.
  - reflexivity.
  - apply Z.ltb_lt. by_vm.
Defined.

(** C10, the claim as first stated, fails: Alice's credential is presented
    a millisecond more than 36 hours after issuance, when its row's
    [expires_at] is in the past.  The token is rejected structurally;
    [verifyAuthToken] resolves to [null] without sending a request, and the
    expired row stays in the table. *)
Lemma expired_row_survives_verification :
  createAuthSession alice w_stale =
  (Ret (issued_token alice w_stale), issued_world alice w_stale) /\
  user_sessions (issued_world alice w_stale) !! issued_token alice w_stale =
  Some (issued_row alice w_stale) /\
  expires_at (issued_row alice w_stale) <
  clock (tick (issued_world alice w_stale)) /\
  verifyAuthToken (issued_token alice w_stale) (issued_world alice w_stale) =
  (Ret None, tick (issued_world alice w_stale)) /\
  user_sessions (tick (issued_world alice w_stale)) !! issued_token alice w_stale =
  Some (issued_row alice w_stale) /\
  db_calls (tick (issued_world alice w_stale)) =
  db_calls (issued_world alice w_stale).
Proof.
  split; [apply fresh_issue_quiet|].
  split; [apply issued_lookup|].
  split; [apply Z.ltb_lt; by_vm|].
  split; [|split; [apply issued_lookup | reflexivity]].
  assert (Hdecode : jwt_decode (issued_token alice w_stale)
            (signing_secret (process_env (issued_world alice w_stale))) =
          Some (issued_payload alice w_stale)) by by_vm.
  rewrite verifyAuthToken_eq, Hdecode. cbv zeta.
  replace (clock (tick (issued_world alice w_stale)) / 1000 >=?
           exp (issued_payload alice w_stale)) with true by by_vm.
  reflexivity.
Qed.

(** C5 on a run: issuance, the lookup, a sign-out one minute later, the
    state of the table after it, and a verification after that. *)
Lemma issue_signout_verify_witness :
  fst (user_sessions_select_single (issued_token alice w_minute)
         (toLowerCase alice) (issued_world alice w_minute)) =
  Ret (reply_data (issued_row alice w_minute)) /\
  exists w3,
    signout (Some ("Bearer " +:+ issued_token alice w_minute))
      (issued_world alice w_minute) =
    (Ret (respond 200
            [("success", JBool true);
             ("message", JStr "Signed out successfully")]), w3) /\
    user_sessions w3 !! issued_token alice w_minute = None /\
    fst (verifyAuthToken (issued_token alice w_minute) w3) = Ret None.
Proof.
  assert (Hdecode : jwt_decode (issued_token alice w_minute)
                      (signing_secret (process_env w_minute)) =
                    Some (issued_payload alice w_minute)) by by_vm.
  assert (Hlive : clock (tick (issued_world alice w_minute)) / 1000 <
                  exp (issued_payload alice w_minute))
    by (apply Z.ltb_lt; by_vm).
  pose proof (issue_signout_verify alice w_minute (issued_world alice w_minute)
                (issued_token alice w_minute) (issued_payload alice w_minute)
                (fresh_issue_quiet _ _ _) Hdecode eq_refl)
    as ((_ & _ & Hlookup) & _ & Hsignout & _).
  split.
  - apply Hlookup. reflexivity.
  - destruct (Hsignout (issued_world alice w_minute) eq_refl
                (issued_lookup alice w_minute))
      as (w3 & Hroute & Henv3 & Hgone & _ & Hafter).
    exists w3. split; [exact Hroute|].
    split; [apply Hgone; [exact Hlive | reflexivity]|].
    apply (Hafter (or_introl (conj Hlive eq_refl)) w3 Henv3); [lia | reflexivity].
Defined.

(** C5, the claim as first stated, fails: a sign-out that comes when the
    credential has expired is answered 200, but the row is not deleted and
    the lookup still finds it. *)
Lemma signout_after_expiry_keeps_row :
  createAuthSession alice w_late =
  (Ret (issued_token alice w_late), issued_world alice w_late) /\
  signout (Some ("Bearer " +:+ issued_token alice w_late))
    (issued_world alice w_late) =
  (Ret (respond 200
          [("success", JBool true);
           ("message", JStr "Signed out successfully")]),
   tick (issued_world alice w_late)) /\
  fst (user_sessions_select_single (issued_token alice w_late) (toLowerCase alice)
         (tick (issued_world alice w_late))) =
  Ret (reply_data (issued_row alice w_late)).
Proof.
  split; [apply fresh_issue_quiet|]. split.
  - destruct (bearer_header (issued_token alice w_late)) as [Hb Ht].
    rewrite signout_eq, Hb, Ht, invalidateSession_eq.
    replace (jwt_decode (issued_token alice w_late)
               (signing_secret (process_env (issued_world alice w_late))))
      with (Some (issued_payload alice w_late)) by by_vm.
    cbv zeta.
    replace (clock (tick (issued_world alice w_late)) / 1000 >=?
             exp (issued_payload alice w_late)) with true by by_vm.
    reflexivity.
  - rewrite user_sessions_select_single_eq.
    change (hd None (faults (tick (issued_world alice w_late)))) with (@None string).
    change (user_sessions (tick (issued_world alice w_late)))
      with (user_sessions (issued_world alice w_late)).
    rewrite issued_lookup. cbv zeta.
    cbn [row_wallet_address issued_row]. rewrite String.eqb_refl. reflexivity.
Qed.

(** The sweep of a world where Alice's session has expired empties the
    table. *)
Lemma stale_swept :
  cleanupExpiredSessions (issued_world alice w_stale) =
  (Ret JUndefined,
   with_sessions ∅
     (sent (DeleteExpired (clock (tick (issued_world alice w_stale))))
           (tick (issued_world alice w_stale)))).
Proof.
  rewrite cleanupExpiredSessions_eq.
  change (hd None (faults (issued_world alice w_stale))) with (@None string).
  cbv zeta iota.
  replace (filter _ (user_sessions (issued_world alice w_stale)))
    with (∅ : gmap string SessionRow); [reflexivity|].
  symmetry.
  change (user_sessions (issued_world alice w_stale))
    with (<[issued_token alice w_stale := issued_row alice w_stale]>
            (∅ : gmap string SessionRow)).
  rewrite map_filter_insert_False.
  - rewrite delete_empty. apply map_filter_empty.
  - cbn [snd]. intros Hkept. apply Hkept. apply Z.ltb_lt. by_vm.
Qed.

(** C8 on a run: a table with one expired row, swept twice. *)
Lemma cleanup_twice_witness :
  exists w1 w2,
    cleanupExpiredSessions (issued_world alice w_stale) = (Ret JUndefined, w1) /\
    cleanupExpiredSessions w1 = (Ret JUndefined, w2) /\
    user_sessions (issued_world alice w_stale) <> user_sessions w1 /\
    user_sessions w2 = user_sessions w1.
Proof.
  destruct (cleanup_twice (issued_world alice w_stale))
    as (w1 & w2 & H1 & H2 & Hidem).
  exists w1, w2. split; [exact H1|]. split; [exact H2|].
  rewrite stale_swept in H1. injection H1 as <-.
  split.
  - intros Hempty.
    pose proof (issued_lookup alice w_stale) as Hrow.
    rewrite Hempty in Hrow. cbn [user_sessions with_sessions] in Hrow.
    rewrite lookup_empty in Hrow. discriminate.
  - apply Hidem; [reflexivity|].
    intros token row Hrow. cbn [user_sessions with_sessions] in Hrow.
    rewrite lookup_empty in Hrow. discriminate.
Defined.

(** Alice signs in with a signature that is no signature. *)
Lemma sample_signin :
  signin (JStr (challenge alice)) unsigned w_calm =
  (Ret (respond 200
          [("success", JBool true);
           ("token",
            JStr (issued_token alice (sent (SelectUser (toLowerCase alice)) w_calm)));
           ("user", JObj [("walletAddress", JStr alice)])]),
   issued_world alice (sent (SelectUser (toLowerCase alice)) w_calm)).
Proof.
  rewrite (signin_wellformed (challenge alice) alice unsigned w_calm);
    [|by_vm|reflexivity].
  cbv zeta.
  change (hd None (faults w_calm)) with (@None string). cbv iota.
  assert (Hin : toLowerCase alice ∈ users w_calm).
  { change (toLowerCase alice ∈ ({[ alice_lc ]} : gset string)).
    apply elem_of_singleton_2. reflexivity. }
  destruct (decide (toLowerCase alice ∈ users w_calm)); [|contradiction].
  rewrite createAuthSession_ok;
    [reflexivity | reflexivity | apply lookup_empty | exact Hin].
Qed.

(** C1, the claim as first stated, fails: with a signature from which no
    address can be recovered -- so that the check of the specification
    rejects it -- the handler answers 200 with a token and records the
    session. *)
Lemma signin_issues_unverified :
  spec_verify (fun _ _ => None) (challenge alice) "not-a-signature" alice = false /\
  signin (JStr (challenge alice)) (JStr "not-a-signature") w_calm =
  (Ret (respond 200
          [("success", JBool true);
           ("token",
            JStr (issued_token alice (sent (SelectUser (toLowerCase alice)) w_calm)));
           ("user", JObj [("walletAddress", JStr alice)])]),
   issued_world alice (sent (SelectUser (toLowerCase alice)) w_calm)) /\
  user_sessions (issued_world alice (sent (SelectUser (toLowerCase alice)) w_calm))
    !! issued_token alice (sent (SelectUser (toLowerCase alice)) w_calm) =
  Some (issued_row alice (sent (SelectUser (toLowerCase alice)) w_calm)).
Proof.
  split; [reflexivity|]. split; [apply sample_signin | apply issued_lookup].
Qed.

(** C1 on a run: a well-formed signature and a string that is no
    signature get the same answer. *)
Lemma signin_trusts_message_witness :
  signin (JStr (challenge alice))
    (JStr "0x4d6f636b5f7369676e61747572655f6f6e6c79") w_calm =
  signin (JStr (challenge alice)) unsigned w_calm.
Proof.
  apply (proj1 (signin_trusts_message (JStr (challenge alice)) unsigned w_calm));
    reflexivity.
Defined.

(** C3, the claim as first stated, fails: a successful sign-in is answered
    200, not 201. *)
Lemma signin_success_is_200 :
  fst (signin (JStr (challenge alice)) unsigned w_calm) =
  Ret (respond 200
         [("success", JBool true);
          ("token",
           JStr (issued_token alice (sent (SelectUser (toLowerCase alice)) w_calm)));
          ("user", JObj [("walletAddress", JStr alice)])]) /\
  status (respond 200
            [("success", JBool true);
             ("token",
              JStr (issued_token alice (sent (SelectUser (toLowerCase alice)) w_calm)));
             ("user", JObj [("walletAddress", JStr alice)])]) <> 201.
Proof. split; [rewrite sample_signin; reflexivity | discriminate]. Qed.

(** C3 on a run: Bob has no profile. *)
Lemma signin_responses_witness :
  exists r w',
    signin (JStr (challenge bob)) unsigned w_calm = (Ret r, w') /\
    r = respond 403
          [("success", JBool false);
           ("error", JStr "Profile setup required");
           ("needsSetup", JBool true);
           ("address", JStr (toLowerCase bob))] /\
    db_calls w' = db_calls w_calm ++ [SelectUser (toLowerCase bob)].
Proof.
  destruct (signin_responses (JStr (challenge bob)) unsigned w_calm)
    as (r & w' & Hrun & _ & _ & _ & Hsetup).
  exists r, w'. split; [exact Hrun|].
  apply (Hsetup (challenge bob) bob); [reflexivity | by_vm | reflexivity | reflexivity |].
  change (toLowerCase bob ∉ ({[ alice_lc ]} : gset string)).
  intros Hin. apply elem_of_singleton_1 in Hin. discriminate Hin.
Defined.

(** C8, the claim as first stated, fails: the second call resolves to
    [undefined], which is not the number 0. *)
Lemma cleanup_returns_no_count :
  fst (cleanupExpiredSessions
         (snd (cleanupExpiredSessions (issued_world alice w_stale)))) =
  Ret JUndefined /\
  @Ret Json JUndefined <> Ret (JNum 0).
Proof.
  split; [|discriminate].
  rewrite (cleanupExpiredSessions_eq (snd _)).
  destruct (hd None _); reflexivity.
Qed.

End ServerRuns.

(** ** The client properties on runs *)

Section ClientRuns.

Import Client Client.AuthStore Sample Tab.
Local Open Scope Z_scope.

#[local] Existing Instance PlainJson.lib.
#[local] Existing Instance PlainJson.reader.

(** The tab after [setCachedAuth] has cached Alice's entry at [t0]; the
    next clock read comes [later] milliseconds after. *)
Lemma cached_at_t0 (later : Z) :
  setCachedAuth true (Some alice_lc) true (empty_tab t0 [0; later]) =
  (Ret tt,
   with_localStorage (<[CACHE_KEY := PlainJson.stringify entry]> ∅)
     (tick (empty_tab t0 [0; later]))).
Proof. rewrite setCachedAuth_eq. reflexivity. Qed.

Lemma entry_roundtrip :
  JSON_parse (JSON_stringify entry) = ParsedCache entry /\
  nonempty (JSON_stringify entry) = true.
Proof. split; by_vm. Qed.

(** C6 on a run: the entry cached at [t0] is read five minutes later. *)
Lemma cache_read_ttl_witness :
  getCachedAuth
    (with_localStorage (<[CACHE_KEY := PlainJson.stringify entry]> ∅)
       (tick (empty_tab t0 [0; 300000]))) =
  (Ret (Some entry),
   tick (with_localStorage (<[CACHE_KEY := PlainJson.stringify entry]> ∅)
           (tick (empty_tab t0 [0; 300000])))).
Proof.
  destruct (cache_read_ttl (empty_tab t0 [0; 300000]) true (Some alice_lc) true
              (proj1 entry_roundtrip) (proj2 entry_roundtrip))
    as [(w1 & Hwrite & Hread) _].
  rewrite cached_at_t0 in Hwrite. injection Hwrite as <-.
  apply (Hread _ eq_refl). apply Z.leb_le. by_vm.
Defined.

(** C6, the claim as first stated, fails: at [now - T = CACHE_DURATION]
    exactly, the read returns the entry and removes nothing. *)
Lemma cache_hit_at_ttl :
  clock (tick (with_localStorage (<[CACHE_KEY := PlainJson.stringify entry]> ∅)
                 (tick (empty_tab t0 [0; 360000])))) - timestamp entry =
  CACHE_DURATION /\
  getCachedAuth
    (with_localStorage (<[CACHE_KEY := PlainJson.stringify entry]> ∅)
       (tick (empty_tab t0 [0; 360000]))) =
  (Ret (Some entry),
   tick (with_localStorage (<[CACHE_KEY := PlainJson.stringify entry]> ∅)
           (tick (empty_tab t0 [0; 360000])))).
Proof.
  split; [by_vm|].
  rewrite getCachedAuth_eq. cbn [localStorage with_localStorage].
  rewrite lookup_insert_eq.
  change (PlainJson.stringify entry) with (JSON_stringify entry).
  rewrite (proj2 entry_roundtrip), (proj1 entry_roundtrip).
  match goal with
  | |- context [(?x >? ?y)%Z] => replace (x >? y) with false by by_vm
  end.
  reflexivity.
Qed.


End ClientRuns.

(* ===================================================================== *)
(** * Part IV: the guards, the reading routes and the rest of the store   *)
(* ===================================================================== *)

(** ** The two guards *)

Section GuardProperties.

Import Server.
Local Open Scope Z_scope.

Context {J : JwtLib}.

Lemma no_bearer_has_bearer (authorization : option string) :
  has_bearer authorization = negb (no_bearer authorization).
Proof.
  destruct authorization as [h|]; [|reflexivity].
  unfold has_bearer, no_bearer. rewrite negb_orb, !negb_involutive. reflexivity.
Qed.

Lemma optionalJwtAuth_eq (authorization : option string) (w : World) :
  optionalJwtAuth authorization w =
  if no_bearer authorization then (Ret None, w)
  else
    match verifyAuthToken (bearer_token authorization) w with
    | (Ret (Some r), w') =>
        if isValid r then (Ret (Some (walletAddress r)), w') else (Ret None, w')
    | (Ret None, w') => (Ret None, w')
    | (Throw _, w') => (Ret None, w')
    end.
Proof.
  unfold optionalJwtAuth. rewrite no_bearer_has_bearer. run.
  destruct (no_bearer authorization); cbn [negb]; [reflexivity|].
  destruct (verifyAuthToken (bearer_token authorization) w) as [[[r|]|e] w'];
    [destruct (isValid r)|..]; reflexivity.
Qed.

(** The guard answers, or calls [next()]; its [catch] block is never
    entered, and a refusal is a 401. *)
Lemma requireJwtAuth_outcome (authorization : option string) (w : World) :
  (exists u w', requireJwtAuth authorization w = (Ret (Next u), w')) \/
  (exists r w',
      requireJwtAuth authorization w = (Ret (Responded r), w') /\ status r = 401).
Proof.
  rewrite requireJwtAuth_eq.
  destruct (no_bearer authorization);
    [right; eexists _, _; split; reflexivity|].
  destruct (verifyAuthToken_total (bearer_token authorization) w)
    as ([r|] & w' & ->); [|right; eexists _, _; split; reflexivity].
  destruct (isValid r); cbn [negb].
  - left. eexists _, _. reflexivity.
  - right. eexists _, _. split; reflexivity.
Qed.

(** X1. [requireJwtAuth] lets a request through exactly when it carries
    a bearer token that is valid under the signing secret, whose [exp] is
    later than the second of the first clock read, whose row the database
    returns with the wallet address of the claims, and whose row has not
    expired at the second clock read; [req.user.walletAddress] is then the
    [wallet_address] claim.  Every other request is answered 401: the 500
    of the [catch] block is never sent. *)
Theorem guard_admits_exactly (authorization : option string) (w : World) :
  (forall u w',
      requireJwtAuth authorization w = (Ret (Next u), w') <->
      exists p row,
        no_bearer authorization = false /\
        jwt_decode (bearer_token authorization) (signing_secret (process_env w)) =
        Some p /\
        clock (tick w) / 1000 < exp p /\
        hd None (faults w) = None /\
        user_sessions w !! bearer_token authorization = Some row /\
        row_wallet_address row = wallet_address p /\
        clock (tick (tick w)) <= expires_at row /\
        u = wallet_address p /\
        w' = tick (sent (SelectSession (bearer_token authorization)
                           (wallet_address p)) (tick w))) /\
  ((exists u w', requireJwtAuth authorization w = (Ret (Next u), w')) \/
   (exists r w',
       requireJwtAuth authorization w = (Ret (Responded r), w') /\ status r = 401)).
Proof.
  split; [|apply requireJwtAuth_outcome].
  rewrite requireJwtAuth_eq, verifyAuthToken_eq.
  set (token := bearer_token authorization).
  destruct (no_bearer authorization).
  { intros u w'. split; [discriminate|].
    intros (p & row & Hb & _). discriminate. }
  destruct (jwt_decode token _) as [p|] eqn:Hp; cycle 1.
  { intros u w'. split; [discriminate|].
    intros (p & row & _ & Hp' & _). discriminate. }
  run.
  case_geb Hge.
  { intros u w'. split; [discriminate|].
    intros (p' & row & _ & [= <-] & Hlt & _). run in Hlt. lia. }
  destruct (hd None (faults w)) as [code|] eqn:Hdb.
  { intros u w'. split; [discriminate|].
    intros (p' & row & _ & _ & _ & Hf & _). discriminate. }
  destruct (user_sessions w !! token) as [row|] eqn:Hrow; cycle 1.
  { intros u w'. split; [discriminate|].
    intros (p' & row & _ & _ & _ & _ & Hr & _). discriminate. }
  destruct (String.eqb_spec (row_wallet_address row) (wallet_address p)) as [Hw|Hw];
    cycle 1.
  { intros u w'. split; [discriminate|].
    intros (p' & row' & _ & [= <-] & _ & _ & [= <-] & Hw' & _). contradiction. }
  case_ltb Hexp.
  { destruct (hd None (tl (faults w)));
      intros u w'; (split; [discriminate|]);
      intros (p' & row' & _ & _ & _ & _ & [= <-] & _ & Hle & _);
      run in Hle; lia. }
  cbn [negb isValid walletAddress].
  intros u w'. split.
  - intros [= <- <-]. exists p, row. run. run in Hexp. run in Hge.
    repeat (split; [first [reflexivity | assumption | lia]|]). reflexivity.
  - intros (p' & row' & _ & [= <-] & _ & _ & _ & _ & _ & -> & ->). reflexivity.
Qed.

(** X2. [optionalJwtAuth] never answers and never throws: it always
    calls [next()].  It sets [req.user] exactly when [requireJwtAuth] would
    have let the same request through, with the same address, and it leaves
    the world that [requireJwtAuth] leaves. *)
Theorem optional_guard_agrees (authorization : option string) (w : World) :
  exists o,
    optionalJwtAuth authorization w =
    (Ret o, snd (requireJwtAuth authorization w)) /\
    forall u, o = Some u <-> fst (requireJwtAuth authorization w) = Ret (Next u).
Proof.
  rewrite optionalJwtAuth_eq, requireJwtAuth_eq.
  destruct (no_bearer authorization).
  { exists None. split; [reflexivity|]. intros u. split; discriminate. }
  destruct (verifyAuthToken (bearer_token authorization) w) as [[[r|]|e] w'].
  - destruct (isValid r); cbn [negb].
    + eexists. split; [reflexivity|]. intros u. cbn [fst].
      split; intros [= ->]; reflexivity.
    + eexists. split; [reflexivity|]. intros u. split; discriminate.
  - eexists. split; [reflexivity|]. intros u. split; discriminate.
  - eexists. split; [reflexivity|]. intros u. split; discriminate.
Qed.

(** X3. [invalidateSession] never throws.  It resolves to [true] exactly
    when the token is valid under the signing secret, its [exp] is later
    than the current second and the database carries the delete out --
    whether or not a row was there to delete.  A row is removed only when it
    is the row of that token and holds the wallet address of the claims;
    no other row is touched. *)
Theorem invalidateSession_reports (token : string) (w : World) :
  exists b w',
    invalidateSession token w = (Ret b, w') /\
    (b = true <->
     exists p,
       jwt_decode token (signing_secret (process_env w)) = Some p /\
       clock (tick w) / 1000 < exp p /\
       hd None (faults w) = None) /\
    (user_sessions w' = user_sessions w \/
     b = true /\
     user_sessions w' = delete token (user_sessions w) /\
     exists p row,
       jwt_decode token (signing_secret (process_env w)) = Some p /\
       user_sessions w !! token = Some row /\
       row_wallet_address row = wallet_address p).
Proof.
  rewrite invalidateSession_eq.
  destruct (jwt_decode token _) as [p|] eqn:Hp; cycle 1.
  { eexists _, _. split; [reflexivity|]. split; [|left; reflexivity].
    split; [discriminate|]. intros (p & [=] & _). }
  run. case_geb Hge.
  { eexists _, _. split; [reflexivity|]. split; [|left; reflexivity].
    split; [discriminate|]. intros (p' & [= <-] & Hlt & _). run in Hlt. lia. }
  destruct (hd None (faults w)) as [code|] eqn:Hdb.
  { eexists _, _. split; [reflexivity|]. split; [|left; reflexivity].
    split; [discriminate|]. intros (p' & _ & _ & [=]). }
  assert (Hyes : true = true <->
                 exists p0, Some p = Some p0 /\ clock (tick w) / 1000 < exp p0 /\
                            @None string = None).
  { split; [|reflexivity]. intros _. exists p. run. run in Hge.
    repeat split; [lia]. }
  destruct (user_sessions w !! token) as [row|] eqn:Hrow; cycle 1.
  { eexists _, _. split; [reflexivity|]. split; [exact Hyes | left; reflexivity]. }
  destruct (String.eqb_spec (row_wallet_address row) (wallet_address p)) as [Hw|Hw].
  - eexists _, _. split; [reflexivity|]. split; [exact Hyes|].
    right. split; [reflexivity|]. split; [reflexivity|].
    exists p, row. repeat split; assumption.
  - eexists _, _. split; [reflexivity|]. split; [exact Hyes | left; reflexivity].
Qed.

(** X4. [POST /api/auth/signout] answers 400 when there is no bearer
    token, and touches nothing; for every other request it answers 200,
    whatever [invalidateSession] resolved to -- a forged or expired token and
    a database failure included.  The 500 of its [catch] block is never
    sent, and no row other than the token's own can disappear. *)
Theorem signout_answers (authorization : option string) (w : World) :
  exists r w',
    signout authorization w = (Ret r, w') /\
    (if no_bearer authorization then status r = 400 /\ w' = w
     else status r = 200 /\
          w' = snd (invalidateSession (bearer_token authorization) w)) /\
    (user_sessions w' = user_sessions w \/
     user_sessions w' = delete (bearer_token authorization) (user_sessions w)).
Proof.
  rewrite signout_eq.
  destruct (no_bearer authorization).
  { eexists _, _. split; [reflexivity|].
    split; [split; reflexivity | left; reflexivity]. }
  destruct (invalidateSession_frame (bearer_token authorization) w)
    as (b & w' & -> & Hframe).
  eexists _, _. split; [reflexivity|]. split; [split; reflexivity | exact Hframe].
Qed.

(** X5. What a successful [createAuthSession] leaves behind is
    consistent: the token is signed with the secret of the environment, its
    [sub] and the wallet address of its row are the lower-cased address, its
    [exp] is at least 36 hours after its [iat], the row does not expire
    before the token does ([exp], in milliseconds, is not later than
    [expires_at]), and [expires_at] is at most 36 hours after
    [created_at]. *)
Theorem issued_session_bounds (a : string) (w w' : World) (token : string) :
  createAuthSession a w = (Ret token, w') ->
  exists p row,
    token = jwt_sign p (signing_secret (process_env w)) /\
    user_sessions w' !! token = Some row /\
    wallet_address p = toLowerCase a /\
    sub p = wallet_address p /\
    row_wallet_address row = wallet_address p /\
    iat p + SESSION_DURATION <= exp p /\
    exp p * 1000 <= expires_at row /\
    expires_at row <= created_at row + SESSION_DURATION * 1000 /\
    clock w <= created_at row /\
    created_at row = clock w'.
Proof.
  rewrite createAuthSession_eq. run.
  destruct (hd None (faults w)); [discriminate|].
  destruct (user_sessions w !! _); [discriminate|].
  destruct (decide _); [|discriminate].
  intros [= <- <-].
  exists (issued_payload a w), (issued_row a w).
  pose proof (clock_tick_le w) as H1.
  pose proof (clock_tick_le (tick w)) as H2.
  pose proof (clock_tick_le (tick (tick w))) as H3.
  pose proof (clock_tick_le (tick (tick (tick w)))) as H4.
  run.
  cbn [issued_payload issued_row wallet_address sub iat exp row_wallet_address
       expires_at created_at].
  set (c1 := clock (tick w)) in *.
  set (c2 := clock (tick (tick w))) in *.
  set (c3 := clock (tick (tick (tick w)))) in *.
  set (c4 := clock (tick (tick (tick (tick w))))) in *.
  unfold SESSION_DURATION.
  pose proof (Z.div_le_mono c1 c2 1000 ltac:(lia) H2).
  pose proof (Z.mul_div_le c2 1000 ltac:(lia)).
  split; [reflexivity|]. split; [apply lookup_insert_eq|].
  repeat split; try reflexivity; lia.
Qed.

Lemma me_eq (authorization : option string) (w : World) :
  me authorization w =
  match requireJwtAuth authorization w with
  | (Ret (Responded r), w') => (Ret r, w')
  | (Ret (Next user), w') =>
      (Ret (respond 200
              [("authenticated", JBool true);
               ("user", JObj [("walletAddress", JStr user)])]), w')
  | (Throw e, w') => (Throw e, w')
  end.
Proof.
  unfold me. run.
  destruct (requireJwtAuth authorization w) as [[[r|user]|e] w']; reflexivity.
Qed.

(** X6. [GET /api/auth/me] (and [GET /api/me]) answers 401 when the
    guard refuses the request, and otherwise 200 with the address the guard
    attached; it never throws, never answers 500, and does nothing to the
    world beyond what the guard does. *)
Theorem me_answers (authorization : option string) (w : World) :
  exists r w',
    me authorization w = (Ret r, w') /\
    w' = snd (requireJwtAuth authorization w) /\
    (status r = 401 /\
     (forall u, fst (requireJwtAuth authorization w) <> Ret (Next u)) \/
     exists u,
       fst (requireJwtAuth authorization w) = Ret (Next u) /\
       r = respond 200
             [("authenticated", JBool true);
              ("user", JObj [("walletAddress", JStr u)])]).
Proof.
  rewrite me_eq.
  destruct (requireJwtAuth_outcome authorization w)
    as [(u & w' & ->)|(r & w' & -> & Hr)].
  - eexists _, _. split; [reflexivity|]. split; [reflexivity|].
    right. exists u. split; reflexivity.
  - eexists _, _. split; [reflexivity|]. split; [reflexivity|].
    left. split; [exact Hr|]. intros u. discriminate.
Qed.

Lemma div_lt_mul (c e : Z) : c < e * 1000 -> c / 1000 < e.
Proof. intros H. apply Z.div_lt_upper_bound; lia. Qed.

(** X7. A credential that [createAuthSession] has just returned for an
    address, and that the JWT library decodes back to its claims, is
    accepted by [GET /api/auth/me] as long as the clock has not reached its
    [exp] and the database answers: the response is 200 and names the
    lower-cased address (the sign-in response names the address as the
    message wrote it), and the table is left as it is. *)
Theorem me_after_issue (a : string) (w w1 : World) (token : string) :
  createAuthSession a w = (Ret token, w1) ->
  jwt_decode token (signing_secret (process_env w)) = Some (issued_payload a w) ->
  hd None (faults w1) = None ->
  clock (tick (tick w1)) < exp (issued_payload a w) * 1000 ->
  exists w2,
    me (Some ("Bearer " +:+ token)) w1 =
    (Ret (respond 200
            [("authenticated", JBool true);
             ("user", JObj [("walletAddress", JStr (toLowerCase a))])]), w2) /\
    user_sessions w2 = user_sessions w1.
Proof.
  intros Hissue Hdecode Hdb Hlive.
  destruct (createAuthSession_recorded a w w1 token Hissue) as [Hrow Henv].
  assert (Hbound : exp (issued_payload a w) * 1000 <= expires_at (issued_row a w)).
  { cbn [issued_payload issued_row exp expires_at]. unfold SESSION_DURATION.
    pose proof (clock_tick_le (tick (tick w))).
    pose proof (Z.mul_div_le (clock (tick (tick w))) 1000 ltac:(lia)). lia. }
  destruct (bearer_header token) as [Hb Ht].
  rewrite me_eq, requireJwtAuth_eq, Hb, Ht, verifyAuthToken_eq, Henv, Hdecode,
    Hdb, Hrow.
  run.
  pose proof (clock_tick_le (tick w1)) as Hmono. run in Hmono. run in Hlive.
  case_geb Hge.
  { exfalso. apply div_lt_mul in Hlive.
    assert (Hd := Z.div_le_mono _ _ 1000 ltac:(lia) Hmono). lia. }
  cbn [row_wallet_address issued_row wallet_address issued_payload].
  rewrite String.eqb_refl.
  case_ltb Hexp; [exfalso; lia|].
  cbn [negb isValid walletAddress].
  eexists. split; reflexivity.
Qed.

(** A second issuance whose clock reads fall in the same second signs the
    same claims. *)
Lemma issued_token_same_second (a : string) (w w1 : World) :
  process_env w1 = process_env w ->
  clock (tick (tick (tick (tick w)))) <= clock w1 ->
  clock (tick (tick w1)) / 1000 = clock (tick w) / 1000 ->
  issued_token a w1 = issued_token a w.
Proof.
  intros Henv Hafter Hsame.
  unfold issued_token, issued_payload. rewrite Henv.
  pose proof (clock_tick_le w) as H0.
  pose proof (clock_tick_le (tick w)) as H1.
  pose proof (clock_tick_le (tick (tick w))) as H2.
  pose proof (clock_tick_le (tick (tick (tick w)))) as H3.
  pose proof (clock_tick_le w1) as H4.
  pose proof (clock_tick_le (tick w1)) as H5.
  set (c1 := clock (tick w)) in *. set (c2 := clock (tick (tick w))) in *.
  set (c3 := clock (tick (tick (tick w)))) in *.
  set (c4 := clock (tick (tick (tick (tick w))))) in *.
  set (d1 := clock (tick w1)) in *. set (d2 := clock (tick (tick w1))) in *.
  assert (c1 / 1000 <= c2 / 1000) by (apply Z.div_le_mono; lia).
  assert (c2 / 1000 <= d1 / 1000) by (apply Z.div_le_mono; lia).
  assert (d1 / 1000 <= d2 / 1000) by (apply Z.div_le_mono; lia).
  replace (d1 / 1000) with (c1 / 1000) by lia.
  replace (d2 / 1000) with (c2 / 1000) by lia.
  reflexivity.
Qed.

(** X8. Signing in twice within one second fails the second time.  The
    claims hold whole seconds only, so a second issuance for the same
    address whose clock reads fall in the second of the first one signs the
    same token; the insert then violates the primary key of
    [user_sessions], and the handler answers 500 and leaves the table as it
    is. *)
Theorem signin_twice_same_second (message signature : Json) (w w1 : World)
    (r : Response) :
  signin message signature w = (Ret r, w1) ->
  status r = 200 ->
  hd None (faults w1) = None ->
  hd None (tl (faults w1)) = None ->
  clock (tick (tick w1)) / 1000 = clock (tick w) / 1000 ->
  exists w2,
    signin message signature w1 =
    (Ret (respond 500
            [("success", JBool false); ("error", JStr "Authentication failed")]),
     w2) /\
    user_sessions w2 = user_sessions w1.
Proof.
  intros Hrun Hok Hdb1 Hdb2 Hsame.
  destruct (signin_shape message signature)
    as [(s & address & -> & Hm & Hsig) | Hbad].
  2:{ destruct (signin_malformed message signature w Hbad) as (r' & Hr & Hs).
      rewrite Hr in Hrun. injection Hrun as <- _. lia. }
  rewrite (signin_wellformed s address signature w Hm Hsig) in Hrun.
  rewrite (signin_wellformed s address signature w1 Hm Hsig).
  cbv zeta in *. rewrite Hdb1.
  assert (Hfail : forall e, status (signin_failure e) <> 200).
  { intros e. destruct (signin_failure_status e) as [-> | ->]; discriminate. }
  destruct (hd None (faults w)) as [code|].
  { destruct (String.eqb code "PGRST116"); injection Hrun as <- _;
      [discriminate | destruct (Hfail _ Hok)]. }
  destruct (decide (toLowerCase address ∈ users w)) as [Hin|];
    [|injection Hrun as <- _; discriminate].
  set (wa := sent (SelectUser (toLowerCase address)) w) in *.
  rewrite createAuthSession_eq in Hrun. cbv zeta in Hrun.
  destruct (hd None (faults wa)); [injection Hrun as <- _; destruct (Hfail _ Hok)|].
  destruct (user_sessions wa !! issued_token address wa);
    [injection Hrun as <- _; destruct (Hfail _ Hok)|].
  destruct (decide (toLowerCase address ∈ users wa));
    [|injection Hrun as <- _; destruct (Hfail _ Hok)].
  injection Hrun as _ Hw1.
  assert (Husers : users w1 = users w) by (rewrite <- Hw1; reflexivity).
  assert (Henv : process_env w1 = process_env wa) by (rewrite <- Hw1; reflexivity).
  assert (Hclock : clock (tick (tick (tick (tick wa)))) <= clock w1).
  { rewrite <- Hw1. apply Z.le_refl. }
  assert (Hrow : user_sessions w1 !! issued_token address wa =
                 Some (issued_row address wa)).
  { rewrite <- Hw1. apply lookup_insert_eq. }
  clear Hw1.
  set (wb := sent (SelectUser (toLowerCase address)) w1) in *.
  rewrite Husers.
  destruct (decide (toLowerCase address ∈ users w)); [|contradiction].
  assert (Htok : issued_token address wb = issued_token address wa).
  { apply issued_token_same_second; [exact Henv | exact Hclock | exact Hsame]. }
  rewrite createAuthSession_eq. cbv zeta.
  change (hd None (faults wb)) with (hd None (tl (faults w1))).
  rewrite Hdb2, Htok.
  change (user_sessions wb) with (user_sessions w1).
  rewrite Hrow.
  eexists. split; reflexivity.
Qed.

(** X9. The sweep is a frame on the table.  When the database carries
    it out, a row stays exactly when its [expires_at] is not before the
    clock read of the sweep (a row that expires at that very millisecond
    stays); when the request fails, every row stays.  No row is added, and
    the profiles are not touched. *)
Theorem cleanup_keeps_live_rows (w : World) (token : string) :
  users (snd (cleanupExpiredSessions w)) = users w /\
  user_sessions (snd (cleanupExpiredSessions w)) !! token =
  match hd None (faults w), user_sessions w !! token with
  | None, Some row =>
      if expires_at row <? clock (tick w) then None else Some row
  | _, o => o
  end.
Proof.
  rewrite cleanupExpiredSessions_eq. cbv zeta.
  destruct (hd None (faults w)) as [code|]; cbn [snd]; [split; reflexivity|].
  split; [reflexivity|]. run.
  destruct (user_sessions w !! token) as [row|] eqn:Hrow.
  - case_ltb Hlt.
    + apply map_lookup_filter_None. right. intros row' Hrow'. cbn [snd].
      rewrite Hrow in Hrow'. injection Hrow' as <-. intros Hkeep. apply Hkeep.
      run in Hlt. exact Hlt.
    + apply map_lookup_filter_Some. split; [exact Hrow|]. cbn [snd].
      run in Hlt. lia.
  - apply map_lookup_filter_None. left. exact Hrow.
Qed.

(** X10. What the sign-in handler asks of the database.  It never
    writes to [users] and never changes the environment; it sends nothing,
    or the profile lookup for the lower-cased address of the message, or
    that lookup followed by one insert -- and the insert is for the address
    just looked up, and only when the lookup found its profile. *)
Theorem signin_requests (message signature : Json) (w : World) :
  exists w' l,
    snd (signin message signature w) = w' /\
    users w' = users w /\
    process_env w' = process_env w /\
    db_calls w' = db_calls w ++ l /\
    (l = [] \/
     exists s a,
       message = JStr s /\ match_address s = Some a /\
       (l = [SelectUser (toLowerCase a)] \/
        exists token row,
          l = [SelectUser (toLowerCase a); InsertSession token row] /\
          row_wallet_address row = toLowerCase a /\
          toLowerCase a ∈ users w)).
Proof.
  destruct (signin_shape message signature)
    as [(s & a & -> & Hm & Hsig) | Hbad].
  2:{ destruct (signin_malformed message signature w Hbad) as (r' & Hr & Hs).
      rewrite Hr. exists w, []. rewrite app_nil_r. repeat split. left. reflexivity. }
  rewrite (signin_wellformed s a signature w Hm Hsig). cbv zeta.
  set (P := fun l : list DbCall =>
    l = [] \/
    exists s0 a0,
      JStr s = JStr s0 /\ match_address s0 = Some a0 /\
      (l = [SelectUser (toLowerCase a0)] \/
       exists token row,
         l = [SelectUser (toLowerCase a0); InsertSession token row] /\
         row_wallet_address row = toLowerCase a0 /\
         toLowerCase a0 ∈ users w)).
  assert (Hone : P [SelectUser (toLowerCase a)]).
  { right. exists s, a. split; [reflexivity|]. split; [exact Hm|].
    left. reflexivity. }
  destruct (hd None (faults w)) as [code|].
  { destruct (String.eqb code "PGRST116");
      eexists _, _; (split; [reflexivity|]); (split; [reflexivity|]);
      (split; [reflexivity|]); (split; [reflexivity | exact Hone]). }
  destruct (decide (toLowerCase a ∈ users w)) as [Hin|Hout].
  2:{ eexists _, _. split; [reflexivity|]. split; [reflexivity|].
      split; [reflexivity|]. split; [reflexivity | exact Hone]. }
  set (wa := sent (SelectUser (toLowerCase a)) w).
  assert (Htwo : P [SelectUser (toLowerCase a);
                    InsertSession (issued_token a wa) (issued_row a wa)]).
  { right. exists s, a. split; [reflexivity|]. split; [exact Hm|]. right.
    eexists _, _. split; [reflexivity|]. split; [reflexivity | exact Hin]. }
  rewrite createAuthSession_eq. cbv zeta.
  destruct (hd None (faults wa));
    [|destruct (user_sessions wa !! issued_token a wa);
      [|destruct (decide (toLowerCase a ∈ users wa))]];
    eexists _, _; (split; [reflexivity|]); (split; [reflexivity|]);
    (split; [reflexivity|]);
    (split; [unfold wa; run; rewrite <- app_assoc; reflexivity | exact Htwo]).
Qed.

End GuardProperties.

(** ** The address in a message *)

Section AddressProperties.

Import Server.
Local Open Scope Z_scope.

Lemma hex_run_length (n : nat) (s digits : string) :
  hex_run n s = Some digits -> String.length digits = n.
Proof.
  revert s digits. induction n as [|n IH]; intros s digits; cbn [hex_run].
  - intros [= <-]. reflexivity.
  - destruct s as [|c s]; [discriminate|].
    destruct (is_hex c); [|discriminate].
    destruct (hex_run n s) as [r|] eqn:Hr; [|discriminate].
    intros [= <-]. cbn [String.length]. f_equal. eapply IH. exact Hr.
Qed.

Lemma hex_run_prefix (n : nat) (s digits : string) :
  hex_run n s = Some digits -> exists rest, s = digits +:+ rest.
Proof.
  revert s digits. induction n as [|n IH]; intros s digits; cbn [hex_run].
  - intros [= <-]. exists s. reflexivity.
  - destruct s as [|c s]; [discriminate|].
    destruct (is_hex c); [|discriminate].
    destruct (hex_run n s) as [r|] eqn:Hr; [|discriminate].
    intros [= <-]. destruct (IH s r Hr) as [rest ->]. exists rest. reflexivity.
Qed.

Lemma hex_run_self (n : nat) (s digits : string) :
  hex_run n s = Some digits -> hex_run n digits = Some digits.
Proof.
  revert s digits. induction n as [|n IH]; intros s digits; cbn [hex_run].
  - intros [= <-]. reflexivity.
  - destruct s as [|c s]; [discriminate|].
    destruct (is_hex c) eqn:Hc; [|discriminate].
    destruct (hex_run n s) as [r|] eqn:Hr; [|discriminate].
    intros [= <-]. cbn [hex_run]. rewrite Hc, (IH s r Hr). reflexivity.
Qed.

Lemma hex_run_app (n : nat) (digits rest : string) :
  hex_run n digits = Some digits -> hex_run n (digits +:+ rest) = Some digits.
Proof.
  revert digits. induction n as [|n IH]; intros digits; cbn [hex_run].
  - intros [= <-]. reflexivity.
  - destruct digits as [|c s]; [discriminate|].
    destruct (is_hex c) eqn:Hc; [|discriminate].
    destruct (hex_run n s) as [r|] eqn:Hr; [|discriminate].
    intros [= Heq]. subst r.
    change (String c s +:+ rest) with (String c (s +:+ rest)).
    cbn [hex_run]. rewrite Hc, (IH s Hr). reflexivity.
Qed.

Lemma prefix_split (p s : string) :
  String.prefix p s = true -> s = p +:+ substring_from (String.length p) s.
Proof.
  revert s. induction p as [|c p IH]; intros s.
  - intros _. destruct s; reflexivity.
  - destruct s as [|d s]; [discriminate|]. cbn [String.prefix String.length].
    destruct (Ascii.ascii_dec c d) as [->|]; [|discriminate].
    intros H.
    change (String d s = String d (p +:+ substring_from (String.length p) s)).
    f_equal. apply IH. exact H.
Qed.

Lemma prefix_app (p s : string) : String.prefix p (p +:+ s) = true.
Proof.
  induction p as [|c p IH]; [destruct s; reflexivity|].
  change (String c p +:+ s) with (String c (p +:+ s)). cbn [String.prefix].
  destruct (Ascii.ascii_dec c c); [exact IH | contradiction].
Qed.

(** A match at the start of a string: what is captured is a wallet
    address, and it follows [Address: ]. *)
Lemma address_here_wallet (s a : string) :
  address_here s = Some a ->
  is_wallet_address a = true /\
  exists post, s = "Address: " +:+ a +:+ post.
Proof.
  unfold address_here.
  destruct (String.prefix "Address: 0x" s) eqn:Hpre; [|discriminate].
  destruct (hex_run 40 (substring_from 11 s)) as [digits|] eqn:Hrun; [|discriminate].
  intros [= <-]. split.
  - unfold is_wallet_address. rewrite prefix_app.
    change (substring_from 2 ("0x" +:+ digits)) with digits.
    rewrite (hex_run_self _ _ _ Hrun), String.eqb_refl. reflexivity.
  - destruct (hex_run_prefix _ _ _ Hrun) as [post Hpost]. exists post.
    rewrite (prefix_split _ _ Hpre).
    change (String.length "Address: 0x") with 11%nat. rewrite Hpost. reflexivity.
Qed.

Lemma is_wallet_address_split (a : string) :
  is_wallet_address a = true ->
  exists digits, a = "0x" +:+ digits /\ hex_run 40 digits = Some digits.
Proof.
  unfold is_wallet_address.
  destruct (String.prefix "0x" a) eqn:Hpre; [|discriminate].
  destruct (hex_run 40 (substring_from 2 a)) as [digits|] eqn:Hrun; [|discriminate].
  cbn [andb]. intros Heq. apply String.eqb_eq in Heq.
  exists digits. split.
  - rewrite <- Heq. apply (prefix_split _ _ Hpre).
  - apply (hex_run_self _ _ _ Hrun).
Qed.

Lemma is_wallet_address_length (a : string) :
  is_wallet_address a = true -> String.length a = 42%nat.
Proof.
  intros H. destruct (is_wallet_address_split a H) as (digits & -> & Hrun).
  change (String.length ("0x" +:+ digits)) with (S (S (String.length digits))).
  rewrite (hex_run_length _ _ _ Hrun). reflexivity.
Qed.

Lemma address_here_app (digits rest : string) :
  hex_run 40 digits = Some digits ->
  address_here ("Address: 0x" +:+ digits +:+ rest) = Some ("0x" +:+ digits).
Proof.
  intros Hrun. unfold address_here. rewrite prefix_app.
  change (substring_from 11 ("Address: 0x" +:+ digits +:+ rest))
    with (digits +:+ rest).
  rewrite (hex_run_app _ _ _ Hrun). reflexivity.
Qed.

Lemma match_address_here (s a : string) :
  address_here s = Some a -> match_address s = Some a.
Proof. intros H. destruct s; cbn [match_address]; rewrite H; reflexivity. Qed.

Lemma match_address_skip (c : ascii) (s : string) :
  address_here (String c s) = None ->
  match_address (String c s) = match_address s.
Proof. intros H. cbn [match_address]. rewrite H. reflexivity. Qed.

(** What [match] extracts passes the test of [check-user]. *)
Lemma match_address_wallet (s a : string) :
  match_address s = Some a ->
  is_wallet_address a = true /\ nonempty a = true.
Proof.
  intros Hm.
  assert (Hw : is_wallet_address a = true).
  { revert Hm. induction s as [|c s IH]; [discriminate|].
    cbn [match_address].
    destruct (address_here (String c s)) as [a'|] eqn:Hhere; [|exact IH].
    intros [= ->]. apply (address_here_wallet _ _ Hhere). }
  split; [exact Hw|].
  apply is_wallet_address_length in Hw. destruct a; [discriminate | reflexivity].
Qed.

(** X11. The regular expression of the sign-in route is sound.  What
    [message.match(/Address: (0x[a-fA-F0-9]{40})/)] captures is [0x]
    followed by forty hexadecimal digits -- 42 characters that pass the
    anchored test of [check-user] -- it stands in the message right after
    [Address: ], and no match starts further to the left. *)
Theorem match_address_sound (s a : string) :
  match_address s = Some a ->
  is_wallet_address a = true /\
  String.length a = 42%nat /\
  exists pre post,
    s = pre +:+ "Address: " +:+ a +:+ post /\
    forall n, (n < String.length pre)%nat ->
              address_here (substring_from n s) = None.
Proof.
  intros Hm.
  assert (Hocc : is_wallet_address a = true /\
                 exists pre post,
                   s = pre +:+ "Address: " +:+ a +:+ post /\
                   forall n, (n < String.length pre)%nat ->
                             address_here (substring_from n s) = None).
  { revert Hm. induction s as [|c s IH].
    - discriminate.
    - cbn [match_address].
      destruct (address_here (String c s)) as [a'|] eqn:Hhere.
      + intros [= ->]. destruct (address_here_wallet _ _ Hhere) as [Hw [post Hs]].
        split; [exact Hw|]. exists "", post. split; [exact Hs|].
        intros n Hn. cbn in Hn. lia.
      + intros Hrest. destruct (IH Hrest) as [Hw (pre & post & Hs & Hleft)].
        split; [exact Hw|]. exists (String c pre), post. split.
        * rewrite Hs at 1. reflexivity.
        * intros [|n] Hn; [exact Hhere|].
          cbn [substring_from]. apply Hleft. cbn in Hn. lia. }
  destruct Hocc as [Hw Hocc].
  split; [exact Hw|]. split; [apply is_wallet_address_length; exact Hw | exact Hocc].
Qed.

(** The message the client builds carries its address to the server. *)
Lemma match_prepared (nonce a chainId : string) :
  is_wallet_address a = true ->
  match_address (Client.prepareMessage nonce a chainId) = Some a.
Proof.
  intros Hw. destruct (is_wallet_address_split a Hw) as (digits & -> & Hrun).
  unfold Client.prepareMessage, Client.LF.
  match goal with
  | |- match_address (_ +:+ _ +:+ _ +:+ _ +:+ _ +:+ ?rest) = _ =>
      set (tail := rest)
  end.
  change (match_address
            ("Sign this message to authenticate with Cheshire." +:+
             String "010" "" +:+ String "010" "" +:+
             "Address: 0x" +:+ digits +:+ tail) = Some ("0x" +:+ digits)).
  repeat (match goal with
          | |- match_address (String ?c ?s +:+ ?t) = _ =>
              change (String c s +:+ t) with (String c (s +:+ t));
              rewrite match_address_skip by reflexivity
          | |- match_address ("" +:+ ?t) = _ => change ("" +:+ t) with t
          end).
  apply match_address_here, address_here_app, Hrun.
Qed.

Lemma match_bare (a : string) :
  is_wallet_address a = true -> match_address ("Address: " +:+ a) = Some a.
Proof.
  intros Hw. destruct (is_wallet_address_split a Hw) as (digits & -> & Hrun).
  apply match_address_here.
  change ("Address: " +:+ "0x" +:+ digits) with ("Address: 0x" +:+ digits).
  replace digits with (digits +:+ "") at 1.
  - apply address_here_app, Hrun.
  - clear. induction digits as [|c d IH]; [reflexivity|].
    change (String c d +:+ "") with (String c (d +:+ "")). rewrite IH.
    reflexivity.
Qed.

Section WithJwt.

Context {J : JwtLib}.

(** X12. The message that the client's adapter prepares for a
    well-formed address carries that address to the server: the regular
    expression of the sign-in route extracts it, whatever the nonce and the
    chain id.  Nothing else of the message reaches the handler: two
    prepared messages for the same address get the same response and leave
    the same state, as does the bare line [Address: 0x...] -- the nonce is
    not checked. *)
Theorem prepared_message_carries_address (a nonce chainId : string) :
  is_wallet_address a = true ->
  match_address (Client.prepareMessage nonce a chainId) = Some a /\
  forall nonce' chainId' signature w,
    signin (JStr (Client.prepareMessage nonce a chainId)) signature w =
    signin (JStr (Client.prepareMessage nonce' a chainId')) signature w /\
    signin (JStr (Client.prepareMessage nonce a chainId)) signature w =
    signin (JStr ("Address: " +:+ a)) signature w.
Proof.
  intros Hw. split; [apply match_prepared; exact Hw|].
  intros nonce' chainId' signature w.
  destruct (truthy signature) eqn:Hsig.
  - rewrite !(signin_wellformed _ a signature w) by
      first [apply match_prepared; exact Hw | apply match_bare; exact Hw
            | exact Hsig].
    split; reflexivity.
  - rewrite !signin_eq, Hsig. cbn [negb]. rewrite !orb_true_r. split; reflexivity.
Qed.

End WithJwt.

End AddressProperties.

(** ** The routes that look a profile up *)

Section CheckUserProperties.

Import Server.
Local Open Scope Z_scope.

Context {J : JwtLib}.

Lemma check_user_eq (address : QueryValue) (w : World) :
  check_user address w =
  match address with
  | QAbsent =>
      (Ret (respond 400 [("error", JStr "Wallet address is required")]), w)
  | QText s =>
      if negb (nonempty s) then
        (Ret (respond 400 [("error", JStr "Wallet address is required")]), w)
      else if negb (is_wallet_address s) then
        (Ret (respond 400 [("error", JStr "Invalid wallet address format")]), w)
      else
        match userDb_exists s w with
        | (Ret exists_, w') =>
            (Ret (respond 200
                    [("exists", JBool exists_);
                     ("canSignIn", JBool exists_);
                     ("needsSetup", JBool (negb exists_));
                     ("address", JStr (toLowerCase s))]), w')
        | (Throw _, w') =>
            (Ret (respond 500 [("error", JStr "Failed to check user status")]), w')
        end
  | QOther text =>
      if negb (is_wallet_address text) then
        (Ret (respond 400 [("error", JStr "Invalid wallet address format")]), w)
      else
        (Ret (respond 500 [("error", JStr "Failed to check user status")]), w)
  end.
Proof.
  unfold check_user. run.
  destruct address as [|s|text].
  - reflexivity.
  - destruct (negb (nonempty s)); [reflexivity|].
    destruct (negb (is_wallet_address s)); [reflexivity|].
    destruct (userDb_exists s w) as [[b|e] w']; reflexivity.
  - destruct (negb (is_wallet_address text)); reflexivity.
Qed.

Lemma user_exists_eq (address : QueryValue) (w : World) :
  user_exists address w =
  match address with
  | QAbsent =>
      (Ret (respond 400 [("error", JStr "Wallet address is required")]), w)
  | QText s =>
      if negb (nonempty s) then
        (Ret (respond 400 [("error", JStr "Wallet address is required")]), w)
      else if negb (is_wallet_address s) then
        (Ret (respond 400 [("error", JStr "Invalid wallet address format")]), w)
      else
        match userDb_exists s w with
        | (Ret exists_, w') =>
            (Ret (respond 200
                    [("exists", JBool exists_);
                     ("address", JStr (toLowerCase s))]), w')
        | (Throw _, w') =>
            (Ret (respond 500 [("error", JStr "Failed to check user existence")]), w')
        end
  | QOther text =>
      if negb (is_wallet_address text) then
        (Ret (respond 400 [("error", JStr "Invalid wallet address format")]), w)
      else
        (Ret (respond 500 [("error", JStr "Failed to check user existence")]), w)
  end.
Proof.
  unfold user_exists. run.
  destruct address as [|s|text].
  - reflexivity.
  - destruct (negb (nonempty s)); [reflexivity|].
    destruct (negb (is_wallet_address s)); [reflexivity|].
    destruct (userDb_exists s w) as [[b|e] w']; reflexivity.
  - destruct (negb (is_wallet_address text)); reflexivity.
Qed.

(** X13. [GET /api/auth/check-user] never throws, writes nothing, and
    answers in exactly one of four ways, each under its own condition:
    - 400 "Wallet address is required", without a database request, when
      the parameter is missing or the empty string;
    - 400 "Invalid wallet address format", without a database request, when
      the parameter is a non-empty string, or an array or object, that is
      not [0x] and forty hexadecimal digits;
    - 500 "Failed to check user status" when the parameter is an array or
      object that passes the test (nothing is sent), or a string that
      passes it while the database fails with an error other than "no rows"
      (one profile lookup was sent);
    - 200 after one profile lookup for the lower-cased address, when the
      parameter is a string that passes the test and the database answers
      or reports "no rows": [exists] and [canSignIn] are equal,
      [needsSetup] is their negation, and [exists] is true exactly when the
      database answered and holds the profile. *)
Theorem check_user_answers (address : QueryValue) (w : World) :
  exists r w',
    check_user address w = (Ret r, w') /\
    users w' = users w /\
    user_sessions w' = user_sessions w /\
    ((r = respond 400 [("error", JStr "Wallet address is required")] /\
      w' = w /\
      (address = QAbsent \/ address = QText EmptyString)) \/
     (r = respond 400 [("error", JStr "Invalid wallet address format")] /\
      w' = w /\
      ((exists s,
           address = QText s /\ nonempty s = true /\
           is_wallet_address s = false) \/
       (exists text,
           address = QOther text /\ is_wallet_address text = false))) \/
     (r = respond 500 [("error", JStr "Failed to check user status")] /\
      ((exists text,
           address = QOther text /\ is_wallet_address text = true /\ w' = w) \/
       (exists s code,
           address = QText s /\ is_wallet_address s = true /\
           hd None (faults w) = Some code /\
           code <> "PGRST116" /\ w' = sent (SelectUser (toLowerCase s)) w))) \/
     (exists s b,
         address = QText s /\ is_wallet_address s = true /\
         (hd None (faults w) = None \/ hd None (faults w) = Some "PGRST116") /\
         w' = sent (SelectUser (toLowerCase s)) w /\
         r = respond 200
               [("exists", JBool b);
                ("canSignIn", JBool b);
                ("needsSetup", JBool (negb b));
                ("address", JStr (toLowerCase s))] /\
         (b = true <->
          hd None (faults w) = None /\ toLowerCase s ∈ users w))).
Proof.
  rewrite check_user_eq.
  destruct address as [|s|text].
  - eexists _, _. split; [reflexivity|]. split; [reflexivity|]. split; [reflexivity|].
    left. split; [reflexivity|]. split; [reflexivity|]. left. reflexivity.
  - destruct (nonempty s) eqn:Hne; cbn [negb].
    2:{ eexists _, _. split; [reflexivity|]. split; [reflexivity|].
        split; [reflexivity|].
        left. split; [reflexivity|]. split; [reflexivity|].
        right. destruct s; [reflexivity | discriminate]. }
    destruct (is_wallet_address s) eqn:Hw; cbn [negb].
    2:{ eexists _, _. split; [reflexivity|]. split; [reflexivity|].
        split; [reflexivity|].
        right. left. split; [reflexivity|]. split; [reflexivity|].
        left. exists s. split; [reflexivity|]. split; assumption. }
    rewrite userDb_exists_eq. cbv zeta.
    destruct (hd None (faults w)) as [code|] eqn:Hdb.
    + destruct (String.eqb_spec code "PGRST116") as [->|Hcode].
      * eexists _, _. split; [reflexivity|]. split; [reflexivity|].
        split; [reflexivity|].
        right. right. right. exists s, false.
        split; [reflexivity|]. split; [exact Hw|].
        split; [right; reflexivity|]. split; [reflexivity|].
        split; [reflexivity|]. split; [discriminate|]. intros [[=] _].
      * eexists _, _. split; [reflexivity|]. split; [reflexivity|].
        split; [reflexivity|].
        right. right. left. split; [reflexivity|]. right. exists s, code.
        repeat split; assumption.
    + destruct (decide (toLowerCase s ∈ users w)) as [Hin|Hout].
      * eexists _, _. split; [reflexivity|]. split; [reflexivity|].
        split; [reflexivity|].
        right. right. right. exists s, true.
        split; [reflexivity|]. split; [exact Hw|].
        split; [left; reflexivity|]. split; [reflexivity|].
        split; [reflexivity|]. split; [intros _; split; [reflexivity | exact Hin]|].
        reflexivity.
      * eexists _, _. split; [reflexivity|]. split; [reflexivity|].
        split; [reflexivity|].
        right. right. right. exists s, false.
        split; [reflexivity|]. split; [exact Hw|].
        split; [left; reflexivity|]. split; [reflexivity|].
        split; [reflexivity|]. split; [discriminate|].
        intros [_ Hin]. contradiction.
  - destruct (is_wallet_address text) eqn:Hw; cbn [negb].
    + eexists _, _. split; [reflexivity|]. split; [reflexivity|].
      split; [reflexivity|].
      right. right. left. split; [reflexivity|]. left. exists text.
      split; [reflexivity|]. split; [exact Hw | reflexivity].
    + eexists _, _. split; [reflexivity|]. split; [reflexivity|].
      split; [reflexivity|].
      right. left. split; [reflexivity|]. split; [reflexivity|].
      right. exists text. split; [reflexivity | exact Hw].
Qed.

(** X14. [check-user] predicts [signin].  For the address that the
    sign-in handler extracts from a message, and in the same world: when
    [check-user] reports [needsSetup], the sign-in is answered 403 with
    [needsSetup] and the same lower-cased address, and leaves the world
    [check-user] leaves; when it reports [canSignIn], the sign-in goes on
    to the issuance, and answers 200 with the token when the issuance
    returns one. *)
Theorem check_user_predicts_signin (s a : string) (signature : Json)
    (w w' : World) (r : Response) :
  match_address s = Some a ->
  truthy signature = true ->
  check_user (QText a) w = (Ret r, w') ->
  status r = 200 ->
  (prop (body r) "needsSetup" = JBool true ->
   signin (JStr s) signature w =
   (Ret (respond 403
           [("success", JBool false);
            ("error", JStr "Profile setup required");
            ("needsSetup", JBool true);
            ("address", JStr (toLowerCase a))]), w')) /\
  (prop (body r) "canSignIn" = JBool true ->
   forall token w2,
     createAuthSession a w' = (Ret token, w2) ->
     signin (JStr s) signature w =
     (Ret (respond 200
             [("success", JBool true);
              ("token", JStr token);
              ("user", JObj [("walletAddress", JStr a)])]), w2)).
Proof.
  intros Hm Hsig Hcheck Hok.
  destruct (match_address_wallet s a Hm) as [Hw Hne].
  rewrite check_user_eq, Hne, Hw in Hcheck. cbn [negb] in Hcheck.
  rewrite userDb_exists_eq in Hcheck. cbv zeta in Hcheck.
  rewrite (signin_wellformed s a signature w Hm Hsig). cbv zeta.
  destruct (hd None (faults w)) as [code|].
  - destruct (String.eqb code "PGRST116").
    + injection Hcheck as <- <-. split; [reflexivity | discriminate].
    + injection Hcheck as <- _. discriminate.
  - destruct (decide (toLowerCase a ∈ users w)).
    + injection Hcheck as <- <-. split; [discriminate|].
      intros _ token w2 ->. reflexivity.
    + injection Hcheck as <- <-. split; [reflexivity | discriminate].
Qed.

(** X15. [GET /api/user/exists] agrees with [check-user]: for every
    query value and every world the two routes answer with the same status,
    the same [exists] and [address] fields and, short of a 500, the
    same error text, and they leave the same world. *)
Theorem user_exists_agrees (address : QueryValue) (w : World) :
  exists r r' w',
    check_user address w = (Ret r, w') /\
    user_exists address w = (Ret r', w') /\
    status r' = status r /\
    (status r <> 500 -> prop (body r') "error" = prop (body r) "error") /\
    prop (body r') "exists" = prop (body r) "exists" /\
    prop (body r') "address" = prop (body r) "address".
Proof.
  rewrite check_user_eq, user_exists_eq.
  destruct address as [|s|text].
  - eexists _, _, _. repeat split.
  - destruct (negb (nonempty s)); [eexists _, _, _; repeat split|].
    destruct (negb (is_wallet_address s)); [eexists _, _, _; repeat split|].
    destruct (userDb_exists s w) as [[b|e] w']; eexists _, _, _; repeat split.
    intros H. exfalso. apply H. reflexivity.
  - destruct (negb (is_wallet_address text)); eexists _, _, _; repeat split.
    intros H. exfalso. apply H. reflexivity.
Qed.

End CheckUserProperties.

(** ** The store: the token it restores and the token it sends *)

Section StoreProperties.

Import Client.
Local Open Scope Z_scope.

Context {R : TokenReader}.

Lemma isTokenExpired_eq (token : string) (w : World) :
  isTokenExpired token w =
  match read_claims token with
  | Some decoded =>
      match exp decoded with
      | Some e =>
          if e =? 0 then (Ret true, w)
          else (Ret (e <? clock (tick w) / 1000), tick w)
      | None => (Ret true, w)
      end
  | None => (Ret true, w)
  end.
Proof.
  unfold isTokenExpired, decodeJWT.
  destruct (read_claims token) as [decoded|]; [|reflexivity].
  destruct (exp decoded) as [e|]; [|reflexivity].
  destruct (e =? 0); reflexivity.
Qed.

Lemma initializeAuth_eq (w : World) :
  initializeAuth w =
  let signed_out w0 := with_store (set_signed_out (store w0)) w0 in
  let removed w0 :=
    signed_out (with_localStorage (delete JWT_TOKEN_KEY (localStorage w0)) w0) in
  match localStorage w !! JWT_TOKEN_KEY with
  | None => (Ret tt, signed_out w)
  | Some token =>
      if nonempty token then
        match isTokenExpired token w with
        | (Ret true, w1) => (Ret tt, removed w1)
        | (Ret false, w1) =>
            match read_claims token with
            | Some decoded =>
                match wallet_address decoded with
                | Some a =>
                    if nonempty a then
                      (Ret tt, with_store (set_restored a token (store w1)) w1)
                    else (Ret tt, removed w1)
                | None => (Ret tt, removed w1)
                end
            | None => (Ret tt, removed w1)
            end
        | (Throw e, w1) => (Throw e, w1)
        end
      else (Ret tt, signed_out w)
  end.
Proof.
  unfold initializeAuth, getStoredToken, removeToken, decodeJWT. crun.
  destruct (localStorage w !! JWT_TOKEN_KEY) as [token|]; [|reflexivity].
  cbv [truthy_str default from_option id].
  destruct (nonempty token); cbn [negb]; [|reflexivity].
  destruct (isTokenExpired token w) as [[[|]|e] w1]; crun; try reflexivity.
  destruct (read_claims token) as [decoded|]; [|reflexivity].
  destruct (wallet_address decoded) as [a|]; [|reflexivity].
  destruct (nonempty a); reflexivity.
Qed.

(** X16. [initializeAuth] never throws, and it restores a session
    exactly when storage holds a non-empty token whose claims can be read,
    whose [exp] is present, not zero and not before the current second, and
    whose [wallet_address] is a non-empty string: the store then holds that
    token and the address of the claims, and storage is as it was.  In every
    other case, and only then, the store is signed out, and the stored
    token is removed unless it is missing or empty.  Either way the store
    ends authenticated exactly when storage ends with a non-empty token, and
    no other key of storage changes. *)
Theorem initializeAuth_restores_exactly (w : World) :
  exists w',
    initializeAuth w = (Ret tt, w') /\
    isAuthenticated (store w') = truthy_str (localStorage w' !! JWT_TOKEN_KEY) /\
    (forall key, key <> JWT_TOKEN_KEY ->
                 localStorage w' !! key = localStorage w !! key) /\
    ((exists token e a,
         localStorage w !! JWT_TOKEN_KEY = Some token /\
         nonempty token = true /\
         read_claims token = Some {| exp := Some e; wallet_address := Some a |} /\
         e <> 0 /\ clock (tick w) / 1000 <= e /\ nonempty a = true /\
         w' = with_store (set_restored a token (store w)) (tick w)) \/
     ((forall token e a,
          localStorage w !! JWT_TOKEN_KEY = Some token ->
          nonempty token = true ->
          read_claims token = Some {| exp := Some e; wallet_address := Some a |} ->
          e <> 0 ->
          clock (tick w) / 1000 <= e ->
          nonempty a = true ->
          False) /\
      store w' = set_signed_out (store w) /\
      localStorage w' =
      (if truthy_str (localStorage w !! JWT_TOKEN_KEY)
       then delete JWT_TOKEN_KEY (localStorage w)
       else localStorage w))).
Proof.
  set (P := fun w' : World =>
    isAuthenticated (store w') = truthy_str (localStorage w' !! JWT_TOKEN_KEY) /\
    (forall key, key <> JWT_TOKEN_KEY ->
                 localStorage w' !! key = localStorage w !! key) /\
    ((exists token e a,
         localStorage w !! JWT_TOKEN_KEY = Some token /\
         nonempty token = true /\
         read_claims token = Some {| exp := Some e; wallet_address := Some a |} /\
         e <> 0 /\ clock (tick w) / 1000 <= e /\ nonempty a = true /\
         w' = with_store (set_restored a token (store w)) (tick w)) \/
     ((forall token e a,
          localStorage w !! JWT_TOKEN_KEY = Some token ->
          nonempty token = true ->
          read_claims token = Some {| exp := Some e; wallet_address := Some a |} ->
          e <> 0 ->
          clock (tick w) / 1000 <= e ->
          nonempty a = true ->
          False) /\
      store w' = set_signed_out (store w) /\
      localStorage w' =
      (if truthy_str (localStorage w !! JWT_TOKEN_KEY)
       then delete JWT_TOKEN_KEY (localStorage w)
       else localStorage w)))).
  change (exists w', initializeAuth w = (Ret tt, w') /\ P w').
  rewrite initializeAuth_eq. cbv zeta.
  assert (Hkept : truthy_str (localStorage w !! JWT_TOKEN_KEY) = false ->
                  P (with_store (set_signed_out (store w)) w)).
  { intros Hfalsy. unfold P. crun. rewrite Hfalsy.
    split; [reflexivity|]. split; [reflexivity|]. right.
    split; [|split; reflexivity].
    intros token e a Hst Hne _ _ _ _. rewrite Hst in Hfalsy.
    cbn [truthy_str] in Hfalsy. congruence. }
  assert (Hgone : forall w1 : World,
             localStorage w1 = localStorage w ->
             store w1 = store w ->
             truthy_str (localStorage w !! JWT_TOKEN_KEY) = true ->
             (forall token e a,
                 localStorage w !! JWT_TOKEN_KEY = Some token ->
                 nonempty token = true ->
                 read_claims token =
                 Some {| exp := Some e; wallet_address := Some a |} ->
                 e <> 0 ->
                 clock (tick w) / 1000 <= e ->
                 nonempty a = true ->
                 False) ->
             P (with_store
                  (set_signed_out
                     (store (with_localStorage
                               (delete JWT_TOKEN_KEY (localStorage w1)) w1)))
                  (with_localStorage (delete JWT_TOKEN_KEY (localStorage w1)) w1))).
  { intros w1 Hls Hst Htruthy Hnot. unfold P. crun.
    rewrite lookup_delete_eq. split; [reflexivity|]. split.
    - intros key Hkey. rewrite Hls. apply lookup_delete_ne. congruence.
    - right. rewrite Hst, Hls, Htruthy. split; [exact Hnot|]. split; reflexivity. }
  destruct (localStorage w !! JWT_TOKEN_KEY) as [token|] eqn:Hstored.
  2:{ eexists. split; [reflexivity|]. apply Hkept. reflexivity. }
  destruct (nonempty token) eqn:Htoken.
  2:{ eexists. split; [reflexivity|]. apply Hkept. exact Htoken. }
  assert (Htruthy : truthy_str (Some token) = true) by exact Htoken.
  rewrite isTokenExpired_eq.
  destruct (read_claims token) as [[[e|] wa]|] eqn:Hclaims; cbn [exp].
  2,3: eexists; (split; [reflexivity|]); apply Hgone;
       [reflexivity | reflexivity | exact Htruthy |];
       intros token' e' a' [= <-] _ Hc' _ _ _; congruence.
  destruct (Z.eqb_spec e 0) as [He|He].
  { eexists. split; [reflexivity|]. apply Hgone;
      [reflexivity | reflexivity | exact Htruthy |].
    intros token' e' a' [= <-] _ Hc' He' _ _.
    rewrite Hclaims in Hc'. injection Hc' as <- _. contradiction. }
  case_ltb Hlt.
  { eexists. split; [reflexivity|]. apply Hgone;
      [reflexivity | reflexivity | exact Htruthy |].
    intros token' e' a' [= <-] _ Hc' _ Hl' _.
    rewrite Hclaims in Hc'. injection Hc' as <- _. lia. }
  cbn [wallet_address].
  destruct wa as [a|].
  2:{ eexists. split; [reflexivity|]. apply Hgone;
        [reflexivity | reflexivity | exact Htruthy |].
      intros token' e' a' [= <-] _ Hc' _ _ _.
      rewrite Hclaims in Hc'. discriminate. }
  destruct (nonempty a) eqn:Ha.
  2:{ eexists. split; [reflexivity|]. apply Hgone;
        [reflexivity | reflexivity | exact Htruthy |].
      intros token' e' a' [= <-] _ Hc' _ _ Ha'.
      rewrite Hclaims in Hc'. injection Hc' as _ <-. congruence. }
  eexists. split; [reflexivity|]. unfold P. crun. rewrite Hstored. cbn [truthy_str].
  rewrite Htoken. split; [reflexivity|]. split; [reflexivity|].
  left. exists token, e, a. crun in Hlt.
  repeat (split; [first [reflexivity | assumption | lia]|]). reflexivity.
Qed.

Lemma getAuthHeaders_eq (w : World) :
  getAuthHeaders w =
  match jwtToken (store w) with
  | None => (Ret None, w)
  | Some token =>
      if nonempty token then
        match isTokenExpired token w with
        | (Ret true, w1) => (Ret None, snd (logout w1))
        | (Ret false, w1) => (Ret (Some ("Bearer " +:+ token)), w1)
        | (Throw e, w1) => (Throw e, w1)
        end
      else (Ret None, w)
  end.
Proof.
  unfold getAuthHeaders. crun.
  destruct (jwtToken (store w)) as [token|]; [|reflexivity].
  cbv [truthy_str default from_option id].
  destruct (nonempty token); cbn [negb]; [|reflexivity].
  destruct (isTokenExpired token w) as [[[|]|e] w1]; crun; try reflexivity.
  destruct (logout w1) as [[[]|e] w2] eqn:Hl; [reflexivity|].
  rewrite logout_eq in Hl. discriminate.
Qed.

(** X17. [getAuthHeaders] never throws and changes neither the store
    nor storage.  It returns an [Authorization] header only for the token
    of the store, and only when the client reads it as unexpired (its [exp]
    is not before the current second); the server's guard then finds
    exactly that token in the header.  Without a token it returns the empty
    object and does nothing; for a token it reads as expired it returns the
    empty object and starts a [logout()], which sends the sign-out request
    with the expired token while the store still holds it. *)
Theorem getAuthHeaders_sends_live_tokens (w : World) :
  exists o w',
    getAuthHeaders w = (Ret o, w') /\
    store w' = store w /\
    localStorage w' = localStorage w /\
    match o with
    | Some header =>
        exists token e decoded,
          jwtToken (store w) = Some token /\
          header = "Bearer " +:+ token /\
          Server.no_bearer (Some header) = false /\
          Server.bearer_token (Some header) = token /\
          read_claims token = Some decoded /\
          exp decoded = Some e /\
          clock w' / 1000 <= e /\
          requests w' = requests w
    | None =>
        requests w' = requests w /\ truthy_str (jwtToken (store w)) = false \/
        exists token,
          jwtToken (store w) = Some token /\
          fst (isTokenExpired token w) = Ret true /\
          requests w' = requests w ++ [SignoutRequest token] /\
          pending w' = pending w ++ [LogoutAfterFetch]
    end.
Proof.
  rewrite getAuthHeaders_eq.
  destruct (jwtToken (store w)) as [token|] eqn:Hjwt.
  2:{ eexists _, _. split; [reflexivity|]. repeat split. left. split; reflexivity. }
  destruct (nonempty token) eqn:Htoken.
  2:{ eexists _, _. split; [reflexivity|]. repeat split. left.
      split; [reflexivity | exact Htoken]. }
  assert (Hexpired : forall w1 : World,
             store w1 = store w -> localStorage w1 = localStorage w ->
             requests w1 = requests w -> pending w1 = pending w ->
             store (snd (logout w1)) = store w /\
             localStorage (snd (logout w1)) = localStorage w /\
             requests (snd (logout w1)) = requests w ++ [SignoutRequest token] /\
             pending (snd (logout w1)) = pending w ++ [LogoutAfterFetch]).
  { intros w1 Hst Hls Hrq Hpd. rewrite logout_eq, Hst, Hjwt. cbn [truthy_str snd].
    rewrite Htoken. crun. rewrite Hrq, Hpd. repeat split; assumption. }
  rewrite isTokenExpired_eq.
  destruct (read_claims token) as [decoded|] eqn:Hclaims.
  2:{ destruct (Hexpired w) as (H1 & H2 & H3 & H4); try reflexivity.
      eexists _, _. split; [reflexivity|]. split; [exact H1|]. split; [exact H2|].
      right. exists token. split; [reflexivity|].
      split; [rewrite isTokenExpired_eq, Hclaims; reflexivity|]. split; assumption. }
  destruct (exp decoded) as [e|] eqn:Hexp.
  2:{ destruct (Hexpired w) as (H1 & H2 & H3 & H4); try reflexivity.
      eexists _, _. split; [reflexivity|]. split; [exact H1|]. split; [exact H2|].
      right. exists token. split; [reflexivity|].
      split; [rewrite isTokenExpired_eq, Hclaims, Hexp; reflexivity|].
      split; assumption. }
  destruct (e =? 0) eqn:He.
  { destruct (Hexpired w) as (H1 & H2 & H3 & H4); try reflexivity.
    eexists _, _. split; [reflexivity|]. split; [exact H1|]. split; [exact H2|].
    right. exists token. split; [reflexivity|].
    split; [rewrite isTokenExpired_eq, Hclaims, Hexp, He; reflexivity|].
    split; assumption. }
  case_ltb Hlt.
  - destruct (Hexpired (tick w)) as (H1 & H2 & H3 & H4); try reflexivity.
    eexists _, _. split; [reflexivity|]. split; [exact H1|]. split; [exact H2|].
    right. exists token. split; [reflexivity|]. split.
    + rewrite isTokenExpired_eq, Hclaims, Hexp, He. cbn [fst]. f_equal.
      apply Z.ltb_lt. exact Hlt.
    + split; assumption.
  - eexists _, _. split; [reflexivity|]. split; [reflexivity|]. split; [reflexivity|].
    exists token, e, decoded.
    destruct (bearer_header token) as [Hb Ht].
    repeat (split; [first [reflexivity | assumption]|]). reflexivity.
Qed.

Lemma setAuthenticated_eq (b : bool) (address token : option string) (w : World) :
  setAuthenticated b address token w =
  let w1 :=
    if truthy_str token then
      with_localStorage (<[JWT_TOKEN_KEY := default "" token]> (localStorage w)) w
    else w in
  (Ret tt,
   with_store
     {| isAuthenticated := b;
        isAuthenticating := false;
        userAddress := address;
        userExists := b;
        isCheckingUser := isCheckingUser (store w);
        serverError := serverError (store w);
        jwtToken := token |} w1).
Proof.
  unfold setAuthenticated, storeToken. crun.
  destruct (truthy_str token); reflexivity.
Qed.

(** X19. What [setAuthenticated] stores is what [initializeAuth] restores
    from.  After [setAuthenticated(true, address, token)] with a non-empty
    token, storage holds the token under [cheshire_jwt_token] and the store
    holds the address it was given.  In any state whose storage holds that
    token -- a fresh store included -- [initializeAuth] reads the clock
    once and, while the token's [exp] is not before the current second,
    restores the session from the token alone: the store is authenticated
    with the token and with the [wallet_address] claim of the token as the
    address, whatever address [setAuthenticated] was given, and storage and
    the queues are untouched.  Once [exp] is before the current second it
    signs the store out and removes the token instead. *)
Theorem stored_sign_in_is_restored (w : World) (a a' token : string) (e : Z) :
  nonempty token = true ->
  read_claims token = Some {| exp := Some e; wallet_address := Some a' |} ->
  e <> 0 ->
  nonempty a' = true ->
  exists w1,
    setAuthenticated true (Some a) (Some token) w = (Ret tt, w1) /\
    store w1 =
    {| isAuthenticated := true;
       isAuthenticating := false;
       userAddress := Some a;
       userExists := true;
       isCheckingUser := isCheckingUser (store w);
       serverError := serverError (store w);
       jwtToken := Some token |} /\
    localStorage w1 = <[JWT_TOKEN_KEY := token]> (localStorage w) /\
    localStorage w1 !! JWT_TOKEN_KEY = Some token /\
    (forall w2,
        localStorage w2 !! JWT_TOKEN_KEY = Some token ->
        (clock (tick w2) / 1000 <= e ->
         initializeAuth w2 =
         (Ret tt, with_store (set_restored a' token (store w2)) (tick w2))) /\
        (e < clock (tick w2) / 1000 ->
         initializeAuth w2 =
         (Ret tt,
          with_store (set_signed_out (store w2))
            (with_localStorage (delete JWT_TOKEN_KEY (localStorage w2))
               (tick w2))))).
Proof.
  intros Htoken Hclaims He Ha.
  rewrite setAuthenticated_eq. cbn [truthy_str]. rewrite Htoken. cbv zeta.
  eexists. split; [reflexivity|]. crun. cbn [default from_option id].
  split; [reflexivity|]. split; [reflexivity|].
  split; [apply lookup_insert_eq|].
  intros w2 Hstored.
  rewrite initializeAuth_eq, Hstored, Htoken, isTokenExpired_eq, Hclaims.
  cbv zeta. cbn [exp wallet_address].
  destruct (Z.eqb_spec e 0) as [|_]; [contradiction|].
  split; intros Hclock; crun; crun in Hclock; case_ltb Hlt; try lia.
  - rewrite Ha. reflexivity.
  - reflexivity.
Qed.

End StoreProperties.

(** ** Expiry, as the client and as the server read it *)

Section ExpiryProperties.

Local Open Scope Z_scope.

Context {J : Server.JwtLib} {R : Client.TokenReader}.

(** X18. The client's expiry check is the more lenient one.  For a
    token whose [exp] both sides read alike, and clocks that agree: when
    [isTokenExpired] says the token is expired, [verifyAuthToken] rejects it
    too; but in the second that equals [exp] the client still treats the
    token as live ([exp < now] is false) while the server already rejects it
    ([now >= exp]). *)
Theorem client_expiry_is_lenient (token : string) (cw : Client.World)
    (sw : Server.World) (p : Server.Payload) (decoded : Client.Claims) :
  Client.read_claims token = Some decoded ->
  Client.exp decoded = Some (Server.exp p) ->
  Server.jwt_decode token (signing_secret (Server.process_env sw)) = Some p ->
  Server.clock (Server.tick sw) = Client.clock (Client.tick cw) ->
  0 <= Client.clock (Client.tick cw) ->
  (fst (Client.isTokenExpired token cw) = Ret true ->
   fst (Server.verifyAuthToken token sw) = Ret None) /\
  (Server.exp p <> 0 ->
   Client.clock (Client.tick cw) / 1000 = Server.exp p ->
   fst (Client.isTokenExpired token cw) = Ret false /\
   fst (Server.verifyAuthToken token sw) = Ret None).
Proof.
  intros Hclaims Hexp Hdecode Hclock Hpos.
  rewrite isTokenExpired_eq, Hclaims, Hexp, verifyAuthToken_eq, Hdecode.
  cbv zeta. rewrite Hclock.
  set (now := Client.clock (Client.tick cw)) in *.
  assert (0 <= now / 1000) by (apply Z.div_pos; lia).
  split.
  - destruct (Z.eqb_spec (Server.exp p) 0) as [He|He].
    + intros _. rewrite He.
      destruct (Z.geb_spec (now / 1000) 0); [reflexivity | lia].
    + cbn [fst]. intros [= Hlt]. apply Z.ltb_lt in Hlt.
      destruct (Z.geb_spec (now / 1000) (Server.exp p)); [reflexivity | lia].
  - intros He Hedge.
    destruct (Z.eqb_spec (Server.exp p) 0) as [|_]; [contradiction|].
    rewrite Hedge, Z.ltb_irrefl.
    destruct (Z.geb_spec (Server.exp p) (Server.exp p)); [split; reflexivity | lia].
Qed.

End ExpiryProperties.

(** ** The effects of the hook, and what they clear *)

Section EffectProperties.

Import Client.
Local Open Scope Z_scope.

Lemma addressEffect_eq (address : option string) (w : World) :
  addressEffect address w =
  (Ret tt,
   with_refs address true
     (if initializedRef w && truthy_str (prevAddressRef w) &&
         strict_ne (prevAddressRef w) address
      then invalidated Reload w else w)).
Proof.
  unfold addressEffect, invalidated. crun.
  destruct (initializedRef w); cbn [negb andb]; [|reflexivity].
  destruct (truthy_str (prevAddressRef w) && strict_ne (prevAddressRef w) address);
    crun; [|reflexivity].
  rewrite logout_eq. crun. rewrite clearWalletData_eq. crun. reflexivity.
Qed.

(** X20. The address effect settles.  After any run the refs hold the
    reported address, and a second run with the same address does nothing.
    A run invalidates nothing -- it only updates the refs -- on the first
    run after a page load, when there was no previous address, and when the
    address is the previous one. *)
Theorem addressEffect_settles (address : option string) (w : World) :
  exists w1,
    addressEffect address w = (Ret tt, w1) /\
    prevAddressRef w1 = address /\
    initializedRef w1 = true /\
    addressEffect address w1 = (Ret tt, w1) /\
    (initializedRef w = false \/ truthy_str (prevAddressRef w) = false \/
     prevAddressRef w = address ->
     w1 = with_refs address true w).
Proof.
  rewrite addressEffect_eq. eexists. split; [reflexivity|].
  split; [reflexivity|]. split; [reflexivity|]. split.
  - rewrite addressEffect_eq. crun. unfold strict_ne.
    rewrite bool_decide_eq_true_2 by reflexivity.
    cbn [negb]. rewrite andb_false_r. reflexivity.
  - intros [Hinit | [Hprev | Hsame]].
    + rewrite Hinit. reflexivity.
    + rewrite Hprev, andb_false_r. reflexivity.
    + unfold strict_ne. rewrite bool_decide_eq_true_2 by exact Hsame.
      cbn [negb]. rewrite andb_false_r. reflexivity.
Qed.

(** X21. A disconnection fires both effects.  When the wallet
    disconnects and no address is reported any more, in a tab that is
    signed in with a token, the disconnection effect and then the address
    effect each call [logout()] before the first sign-out request has
    settled: the request is sent twice with the same token, and both a
    navigation to the landing page and a reload are scheduled.  The store
    still holds the session until a request settles; the stored token is
    gone at once. *)
Theorem disconnect_fires_both_effects (w : World) (old token : string) :
  isAuthenticated (store w) = true ->
  jwtToken (store w) = Some token ->
  nonempty token = true ->
  initializedRef w = true ->
  prevAddressRef w = Some old ->
  nonempty old = true ->
  exists w1 w2,
    disconnectEffect false w = (Ret tt, w1) /\
    addressEffect None w1 = (Ret tt, w2) /\
    requests w2 = requests w ++ [SignoutRequest token; SignoutRequest token] /\
    timers w2 = timers w ++ [GoHome; Reload] /\
    pending w2 = pending w ++ [LogoutAfterFetch; LogoutAfterFetch] /\
    store w2 = store w /\
    localStorage w2 !! JWT_TOKEN_KEY = None.
Proof.
  intros Hauth Hjwt Htoken Hinit Hprev Hold.
  rewrite (disconnectEffect_signed_in w Hauth).
  eexists _, _. split; [reflexivity|].
  pose proof (invalidated_logout GoHome w) as Hfirst.
  rewrite Hjwt in Hfirst. cbn [truthy_str] in Hfirst. rewrite Htoken in Hfirst.
  destruct Hfirst as (Hrq & Hpd & Hst).
  assert (Hrefs : initializedRef (invalidated GoHome w) = true /\
                  prevAddressRef (invalidated GoHome w) = Some old).
  { unfold invalidated. rewrite logout_eq. cbn [snd].
    rewrite clearWalletData_eq. crun. rewrite Hjwt. cbn [truthy_str].
    rewrite Htoken. crun. split; assumption. }
  destruct Hrefs as [Hinit1 Hprev1].
  rewrite (addressEffect_changed None old (invalidated GoHome w)
             Hinit1 Hprev1 Hold ltac:(discriminate)).
  split; [reflexivity|]. crun.
  pose proof (invalidated_logout Reload (invalidated GoHome w)) as Hsecond.
  rewrite Hst, Hjwt in Hsecond. cbn [truthy_str] in Hsecond.
  rewrite Htoken in Hsecond. destruct Hsecond as (Hrq2 & Hpd2 & Hst2).
  split; [rewrite Hrq2, Hrq, <- app_assoc; reflexivity|].
  split; [rewrite !invalidated_timers, <- app_assoc; reflexivity|].
  split; [rewrite Hpd2, Hpd, <- app_assoc; reflexivity|].
  split; [exact Hst2|].
  rewrite invalidated_localStorage, jwt_key_doomed. reflexivity.
Qed.

Lemma purge_purge (doomed : string -> bool) (m : gmap string string) :
  purge doomed (purge doomed m) = purge doomed m.
Proof.
  apply map_eq. intros k. rewrite !purge_lookup.
  destruct (doomed k); reflexivity.
Qed.

(** X22. [clearWalletData] is idempotent: a second call changes
    nothing.  After a call no key of either storage area contains
    [rainbow], [wallet], [wagmi] or [walletconnect], and the store is not
    touched. *)
Theorem clearWalletData_idempotent (w : World) :
  exists w1,
    clearWalletData w = (Ret tt, w1) /\
    clearWalletData w1 = (Ret tt, w1) /\
    (forall key, wallet_key key = true ->
                 localStorage w1 !! key = None /\ sessionStorage w1 !! key = None) /\
    store w1 = store w.
Proof.
  eexists. split; [apply clearWalletData_eq|]. split.
  - rewrite clearWalletData_eq. crun. rewrite !purge_purge. reflexivity.
  - split; [|reflexivity]. intros key Hkey. crun. rewrite !purge_lookup, Hkey.
    split; [|reflexivity].
    assert (Hdoomed : local_key_to_remove key = true).
    { unfold wallet_key in Hkey. unfold local_key_to_remove.
      rewrite Hkey. reflexivity. }
    rewrite Hdoomed. reflexivity.
Qed.


(** The store the hook uses writes [localStorage] under the key of the
    token only, and the hook removes keys: none of their functions adds the
    record of the cache with a time to live. *)
Lemma cache_record_never_written (w : World) :
  localStorage w !! AuthStore.CACHE_KEY = None ->
  (forall token,
      localStorage (snd (storeToken token w)) !! AuthStore.CACHE_KEY = None) /\
  (forall b address token,
      localStorage (snd (setAuthenticated b address token w))
        !! AuthStore.CACHE_KEY = None) /\
  localStorage (snd (logout w)) !! AuthStore.CACHE_KEY = None /\
  localStorage (snd (fetch_settles w)) !! AuthStore.CACHE_KEY = None /\
  localStorage (snd (clearWalletData w)) !! AuthStore.CACHE_KEY = None /\
  (forall isConnected,
      localStorage (snd (disconnectEffect isConnected w))
        !! AuthStore.CACHE_KEY = None) /\
  (forall address,
      localStorage (snd (addressEffect address w)) !! AuthStore.CACHE_KEY = None).
Proof.
  intros Hnone.
  assert (Hother : AuthStore.CACHE_KEY <> JWT_TOKEN_KEY) by discriminate.
  assert (Hinv : forall t,
             localStorage (invalidated t w) !! AuthStore.CACHE_KEY = None).
  { intros t. rewrite invalidated_localStorage, cache_key_kept. exact Hnone. }
  split; [|split; [|split; [|split; [|split; [|split]]]]].
  - intros token. unfold storeToken. crun.
    rewrite lookup_insert_ne by congruence. exact Hnone.
  - intros b address token. rewrite setAuthenticated_eq. cbv zeta.
    destruct (truthy_str token); crun; [|exact Hnone].
    rewrite lookup_insert_ne by congruence. exact Hnone.
  - rewrite logout_eq. destruct (truthy_str (jwtToken (store w))); crun;
      [exact Hnone|].
    rewrite lookup_delete_ne by congruence. exact Hnone.
  - rewrite fetch_settles_eq. destruct (pending w) as [|[] rest]; crun;
      [exact Hnone|].
    rewrite lookup_delete_ne by congruence. exact Hnone.
  - rewrite clearWalletData_eq. crun. rewrite purge_lookup, cache_key_kept.
    exact Hnone.
  - intros isConnected. unfold disconnectEffect. crun.
    destruct (negb isConnected && isAuthenticated (store w)); [|exact Hnone].
    rewrite logout_eq. crun. rewrite clearWalletData_eq. crun.
    rewrite purge_lookup, cache_key_kept.
    destruct (truthy_str (jwtToken (store w))); crun; [exact Hnone|].
    rewrite lookup_delete_ne by congruence. exact Hnone.
  - intros address. rewrite addressEffect_eq. crun.
    destruct (initializedRef w && truthy_str (prevAddressRef w) &&
              strict_ne (prevAddressRef w) address); [|exact Hnone].
    apply Hinv.
Qed.

End EffectProperties.

(** ** The cache with a time to live, cleared *)

Section ClearedCache.

Import Client Client.AuthStore.
Local Open Scope Z_scope.

Context {L : JsonLib}.

(** X23. After [clearCachedAuth] a read of the cache is a miss that
    does not even read the clock, and a second clear changes nothing; no
    other key of storage is touched. *)
Theorem cleared_cache_misses (w : World) :
  exists w1,
    clearCachedAuth w = (Ret tt, w1) /\
    getCachedAuth w1 = (Ret None, w1) /\
    clearCachedAuth w1 = (Ret tt, w1) /\
    clock w1 = clock w /\
    forall key, key <> CACHE_KEY -> localStorage w1 !! key = localStorage w !! key.
Proof.
  eexists. split; [reflexivity|]. split; [|split; [|split]].
  - rewrite getCachedAuth_eq. crun. rewrite lookup_delete_eq. reflexivity.
  - unfold clearCachedAuth. crun. f_equal. unfold with_localStorage. crun.
    f_equal. apply map_eq. intros k.
    destruct (decide (k = CACHE_KEY)) as [->|Hk].
    + rewrite !lookup_delete_eq. reflexivity.
    + rewrite !lookup_delete_ne by congruence. reflexivity.
  - reflexivity.
  - intros key Hkey. crun. apply lookup_delete_ne. congruence.
Qed.

End ClearedCache.

(** ** The sign-in flow of the adapter *)

Ltac store_fields :=
  cbn [Client.isAuthenticated Client.isAuthenticating Client.userAddress
       Client.userExists Client.isCheckingUser Client.serverError
       Client.jwtToken Client.with_isAuthenticating Client.with_userExists
       Client.with_isCheckingUser Client.with_serverError Client.truthy_str
       default from_option id].

Section FlowProperties.

Import Client.
Local Open Scope Z_scope.

Variable fetch_check : string -> FetchResult CheckUserData.
Variable fetch_signin : string -> string -> FetchResult SigninData.

Lemma checkUserStatus_eq (a : string) (w : World) :
  checkUserStatus fetch_check a w =
  match fetch_check a with
  | Answered true data =>
      (Ret (data_exists data, data_needsSetup data),
       with_store
         (with_serverError false
            (with_isCheckingUser false
               (with_userExists (data_exists data)
                  (with_isCheckingUser true (store w))))) w)
  | _ =>
      (Ret (false, true),
       with_store
         (with_serverError true
            (with_isCheckingUser false (with_isCheckingUser true (store w)))) w)
  end.
Proof.
  unfold checkUserStatus. crun.
  destruct (fetch_check a) as [|[|] data]; crun; rewrite ?orb_false_r; reflexivity.
Qed.

Lemma signIn_eq (a message signature : string) (w : World) :
  signIn fetch_signin a message signature w =
  match fetch_signin message signature with
  | Rejected =>
      (Ret (false, None),
       with_store
         (with_serverError true
            (with_isAuthenticating false
               (with_isAuthenticating true (store w)))) w)
  | Answered _ data =>
      if data_success data && truthy_str (data_token data) then
        (Ret (true, data_token data),
         snd (setAuthenticated true (Some a) (data_token data)
                (with_store (with_isAuthenticating true (store w)) w)))
      else
        (Ret (false, None),
         with_store
           (with_isAuthenticating false (with_isAuthenticating true (store w))) w)
  end.
Proof.
  unfold signIn. crun.
  destruct (fetch_signin message signature) as [|ok data]; crun; [reflexivity|].
  destruct (data_success data && truthy_str (data_token data)); crun;
    [|reflexivity].
  rewrite setAuthenticated_eq. reflexivity.
Qed.

Lemma verify_signed_in (message signature a t : string) (d1 : CheckUserData)
    (ok2 : bool) (d2 : SigninData) (w : World) :
  Server.match_address message = Some a ->
  fetch_check a = Answered true d1 ->
  data_exists d1 = true ->
  fetch_signin message signature = Answered ok2 d2 ->
  data_success d2 = true ->
  data_token d2 = Some t ->
  nonempty t = true ->
  exists w',
    verify fetch_check fetch_signin message signature w = (Ret true, w') /\
    isAuthenticated (store w') = true /\
    userAddress (store w') = Some a /\
    jwtToken (store w') = Some t /\
    localStorage w' = <[JWT_TOKEN_KEY := t]> (localStorage w) /\
    requests w' = requests w.
Proof.
  intros Hm Hc He Hs Hok Ht Hne.
  unfold verify, setServerError, setUserExists. crun.
  rewrite Hm, checkUserStatus_eq, Hc. crun. rewrite He. cbn [negb].
  rewrite signIn_eq, Hs, Hok, Ht. cbn [truthy_str andb]. rewrite Hne.
  rewrite setAuthenticated_eq. cbv zeta. cbn [truthy_str snd]. rewrite Hne. crun.
  eexists. split; [reflexivity|]. crun. repeat split.
Qed.

(** X25. [verify] of the adapter never throws.  It returns [true]
    exactly when the message carries an address, [check-user] answered with
    an ok status and a truthy [exists], and the sign-in answered with a
    truthy [success] and a non-empty [token]; the store is then
    authenticated for the address of the message and holds the token that
    is in storage.  When it returns [false], authentication, address, token
    and storage are as before.  Whenever the message carries an address the
    run ends with [serverError] false: the flag that [checkUserStatus] or
    [signIn] set on a failed request is overwritten.  No sign-out request is
    sent. *)
Theorem verify_outcome (message signature : string) (w : World) :
  exists b w',
    verify fetch_check fetch_signin message signature w = (Ret b, w') /\
    (b = true <->
     exists a d1 ok2 d2 t,
       Server.match_address message = Some a /\
       fetch_check a = Answered true d1 /\ data_exists d1 = true /\
       fetch_signin message signature = Answered ok2 d2 /\
       data_success d2 = true /\ data_token d2 = Some t /\ nonempty t = true) /\
    (if b then
       isAuthenticated (store w') = true /\
       userExists (store w') = true /\
       userAddress (store w') = Server.match_address message /\
       truthy_str (jwtToken (store w')) = true /\
       localStorage w' !! JWT_TOKEN_KEY = jwtToken (store w')
     else
       isAuthenticated (store w') = isAuthenticated (store w) /\
       userAddress (store w') = userAddress (store w) /\
       jwtToken (store w') = jwtToken (store w) /\
       localStorage w' = localStorage w) /\
    (match Server.match_address message with
     | Some _ =>
         serverError (store w') = false /\ isCheckingUser (store w') = false
     | None => w' = w
     end) /\
    requests w' = requests w.
Proof.
  unfold verify, setServerError, setUserExists. crun.
  destruct (Server.match_address message) as [a|] eqn:Hm.
  2:{ exists false, w. split; [reflexivity|]. split.
      - split; [discriminate|]. intros (a & d1 & ok2 & d2 & t & [=] & _).
      - repeat split. }
  rewrite checkUserStatus_eq.
  destruct (fetch_check a) as [|[|] d1] eqn:Hc.
  1,3: eexists _, _; (split; [reflexivity|]); crun; (split; [|repeat split]);
       (split; [discriminate|]);
       intros (a' & d1' & ok2 & d2 & t & [= <-] & Hc' & _);
       rewrite Hc in Hc'; discriminate.
  crun. destruct (data_exists d1) eqn:He; cbn [negb].
  2:{ eexists _, _. split; [reflexivity|]. crun. split; [|repeat split].
      split; [discriminate|].
      intros (a' & d1' & ok2 & d2 & t & [= <-] & Hc' & He' & _).
      rewrite Hc in Hc'. injection Hc' as <-. rewrite He in He'. discriminate. }
  rewrite signIn_eq.
  destruct (fetch_signin message signature) as [|ok2 d2] eqn:Hs.
  { eexists _, _. split; [reflexivity|]. crun. split; [|repeat split].
    split; [discriminate|].
    intros (a' & d1' & ok2 & d2 & t & _ & _ & _ & [=] & _). }
  destruct (data_success d2) eqn:Hok; cbn [andb].
  2:{ eexists _, _. split; [reflexivity|]. crun. split; [|repeat split].
      split; [discriminate|].
      intros (a' & d1' & ok2' & d2' & t & _ & _ & _ & [= <- <-] & Hok' & _).
      rewrite Hok in Hok'. discriminate. }
  destruct (data_token d2) as [t|] eqn:Ht; cbn [truthy_str].
  2:{ eexists _, _. split; [reflexivity|]. crun. split; [|repeat split].
      split; [discriminate|].
      intros (a' & d1' & ok2' & d2' & t & _ & _ & _ & [= <- <-] & _ & Ht' & _).
      rewrite Ht in Ht'. discriminate. }
  destruct (nonempty t) eqn:Hne.
  2:{ eexists _, _. split; [reflexivity|]. crun. split; [|repeat split].
      split; [discriminate|].
      intros (a' & d1' & ok2' & d2' & t' & _ & _ & _ & [= <- <-] & _ & Ht' & Hne').
      rewrite Ht in Ht'. injection Ht' as <-. rewrite Hne in Hne'. discriminate. }
  rewrite setAuthenticated_eq. cbv zeta. cbn [truthy_str snd]. rewrite ?Hne. crun.
  eexists _, _. split; [reflexivity|]. crun. split.
  - split; [|reflexivity]. intros _. exists a, d1, ok2, d2, t. repeat split; assumption.
  - split; [|repeat split]. store_fields. rewrite Hne, lookup_insert_eq.
    repeat split.
Qed.

(** X27. Without a profile there is no sign-in request.  When
    [check-user] does not report an existing profile for the address of the
    message -- the request failed, the status was not ok, or [exists] was
    falsy -- [verify] returns [false] whatever the sign-in endpoint would
    have answered, leaves storage alone, and ends with [userExists] and
    [serverError] false. *)
Theorem verify_stops_without_profile
    (fetch_signin' : string -> string -> FetchResult SigninData)
    (message signature a : string) (w : World) :
  Server.match_address message = Some a ->
  (forall d, fetch_check a = Answered true d -> data_exists d = false) ->
  exists w',
    verify fetch_check fetch_signin message signature w = (Ret false, w') /\
    verify fetch_check fetch_signin' message signature w = (Ret false, w') /\
    userExists (store w') = false /\
    serverError (store w') = false /\
    isAuthenticating (store w') = isAuthenticating (store w) /\
    localStorage w' = localStorage w.
Proof.
  intros Hm Hnone.
  unfold verify, setServerError, setUserExists. crun.
  rewrite Hm, checkUserStatus_eq.
  destruct (fetch_check a) as [|[|] d1] eqn:Hc; crun;
    [| rewrite (Hnone d1 eq_refl) |]; cbn [negb]; crun;
    eexists; repeat split.
Qed.

End FlowProperties.

Section EndToEnd.

Import Client Wire.
Local Open Scope Z_scope.

Context {J : Server.JwtLib}.

(** X26. The sign-in flow, end to end.  For a well-formed address with
    a profile, a database that answers and a token that is new, the adapter's
    [verify] -- its two requests answered by the [check-user] and [signin]
    handlers, one after the other -- returns [true]; the store is then
    authenticated for the address as the wallet wrote it and holds, as does
    storage, the very token that the server has recorded for the lower-cased
    address. *)
Theorem sign_in_end_to_end (a nonce chainId signature : string)
    (sw : Server.World) (cw : World) :
  Server.is_wallet_address a = true ->
  nonempty signature = true ->
  toLowerCase a ∈ Server.users sw ->
  hd None (Server.faults sw) = None ->
  hd None (tl (Server.faults sw)) = None ->
  hd None (tl (tl (Server.faults sw))) = None ->
  Server.user_sessions sw !! flow_token a sw = None ->
  nonempty (flow_token a sw) = true ->
  exists sw1 sw2 cw',
    snd (Server.check_user (Server.QText a) sw) = sw1 /\
    snd (Server.signin (JStr (prepareMessage nonce a chainId)) (JStr signature) sw1)
    = sw2 /\
    verify (served_check sw) (served_signin sw1)
      (prepareMessage nonce a chainId) signature cw = (Ret true, cw') /\
    isAuthenticated (store cw') = true /\
    userAddress (store cw') = Some a /\
    jwtToken (store cw') = Some (flow_token a sw) /\
    localStorage cw' !! JWT_TOKEN_KEY = Some (flow_token a sw) /\
    exists row,
      Server.user_sessions sw2 !! flow_token a sw = Some row /\
      Server.row_wallet_address row = toLowerCase a.
Proof.
  intros Hw Hsig Hin Hdb1 Hdb2 Hdb3 Hfree Htoken.
  assert (Hne : nonempty a = true).
  { apply is_wallet_address_length in Hw. destruct a; [discriminate | reflexivity]. }
  pose proof (match_prepared nonce a chainId Hw) as Hm.
  set (message := prepareMessage nonce a chainId) in *.
  set (sw1 := Server.sent (Server.SelectUser (toLowerCase a)) sw).
  set (sw1' := Server.sent (Server.SelectUser (toLowerCase a)) sw1).
  assert (Hcheck : Server.check_user (Server.QText a) sw =
                   (Ret (Server.respond 200
                           [("exists", JBool true);
                            ("canSignIn", JBool true);
                            ("needsSetup", JBool false);
                            ("address", JStr (toLowerCase a))]), sw1)).
  { rewrite check_user_eq, Hne, Hw. cbn [negb]. rewrite userDb_exists_eq, Hdb1.
    cbv zeta. destruct (decide (toLowerCase a ∈ Server.users sw));
      [reflexivity | contradiction]. }
  assert (Hissue : Server.createAuthSession a sw1' =
                   (Ret (flow_token a sw), issued_world a sw1')).
  { apply (createAuthSession_ok a sw1'); [exact Hdb3 | exact Hfree | exact Hin]. }
  assert (Hsignin : Server.signin (JStr message) (JStr signature) sw1 =
                    (Ret (Server.respond 200
                            [("success", JBool true);
                             ("token", JStr (flow_token a sw));
                             ("user", JObj [("walletAddress", JStr a)])]),
                     issued_world a sw1')).
  { rewrite (signin_wellformed message a (JStr signature) sw1 Hm Hsig). cbv zeta.
    change (hd None (Server.faults sw1)) with (hd None (tl (Server.faults sw))).
    rewrite Hdb2. change (Server.users sw1) with (Server.users sw).
    destruct (decide (toLowerCase a ∈ Server.users sw)); [|contradiction].
    fold sw1'. rewrite Hissue. reflexivity. }
  destruct (verify_signed_in (served_check sw) (served_signin sw1) message
              signature a (flow_token a sw)
              {| data_exists := true; data_needsSetup := false |} true
              {| data_success := true; data_token := Some (flow_token a sw) |}
              cw Hm)
    as (cw' & Hv & Hauth & Haddr & Hjwt & Hls & _).
  - unfold served_check, answered. rewrite Hcheck. reflexivity.
  - reflexivity.
  - unfold served_signin, answered. rewrite Hsignin. reflexivity.
  - reflexivity.
  - reflexivity.
  - exact Htoken.
  - exists sw1, (issued_world a sw1'), cw'.
    split; [rewrite Hcheck; reflexivity|].
    split; [rewrite Hsignin; reflexivity|].
    split; [exact Hv|]. split; [exact Hauth|]. split; [exact Haddr|].
    split; [exact Hjwt|]. split; [rewrite Hls; apply lookup_insert_eq|].
    exists (issued_row a sw1'). split; [exact (issued_lookup a sw1') | reflexivity].
Qed.

End EndToEnd.

(** ** Requests through [apiFetch], and the status the adapter shows *)

Section ApiProperties.

Import Client.
Local Open Scope Z_scope.

Context {R : TokenReader}.

Lemma getAuthHeaders_total (w : World) :
  exists o w', getAuthHeaders w = (Ret o, w').
Proof.
  rewrite getAuthHeaders_eq, ?isTokenExpired_eq.
  destruct (jwtToken (store w)) as [token|]; [|eauto].
  destruct (nonempty token); [|eauto].
  rewrite isTokenExpired_eq.
  destruct (read_claims token) as [decoded|]; [|eauto].
  destruct (exp decoded) as [e|]; [|eauto].
  destruct (e =? 0); [eauto|].
  destruct (e <? _); eauto.
Qed.

(** X28. The headers of a request made through [apiFetch].  An
    [Authorization] header that the caller supplies is sent as it is;
    otherwise the header is what [getAuthHeaders] returns -- the store's
    token when the client reads it as unexpired, and none at all when there
    is no token or it has expired.  [Content-Type] is [application/json]
    unless the caller supplies one, every other header is the caller's, and
    the store and storage are left as [getAuthHeaders] leaves them. *)
Theorem apiFetch_authorization (headers : gmap string string) (w : World) :
  exists o hs w',
    getAuthHeaders w = (Ret o, w') /\
    apiFetch headers w = (Ret hs, w') /\
    hs !! "Authorization" =
    match headers !! "Authorization" with
    | Some v => Some v
    | None => o
    end /\
    hs !! "Content-Type" =
    Some (default "application/json" (headers !! "Content-Type")) /\
    forall key, key <> "Authorization" -> key <> "Content-Type" ->
                hs !! key = headers !! key.
Proof.
  destruct (getAuthHeaders_total w) as (o & w' & Hrun).
  exists o. unfold apiFetch. crun. rewrite Hrun.
  eexists _, _. split; [reflexivity|]. split; [reflexivity|].
  split; [|split].
  - rewrite lookup_union.
    destruct (headers !! "Authorization") as [v|]; [destruct o; reflexivity|].
    rewrite lookup_union. destruct o as [v|].
    + rewrite lookup_singleton_eq. reflexivity.
    + rewrite lookup_empty. reflexivity.
  - rewrite lookup_union.
    destruct (headers !! "Content-Type") as [v|].
    + destruct ((_ ∪ _) !! "Content-Type"); reflexivity.
    + rewrite lookup_union. destruct o as [v|].
      * rewrite lookup_singleton_ne by discriminate. reflexivity.
      * rewrite lookup_empty. reflexivity.
  - intros key Ha Hc. rewrite !lookup_union.
    rewrite (lookup_singleton_ne "Content-Type" key) by congruence.
    destruct o as [v|].
    + rewrite lookup_singleton_ne by congruence.
      destruct (headers !! key); reflexivity.
    + rewrite lookup_empty. destruct (headers !! key); reflexivity.
Qed.

End ApiProperties.

Section StatusProperties.

Import Client.
Local Open Scope Z_scope.

Variable fetch_check : string -> FetchResult CheckUserData.
Variable fetch_signin : string -> string -> FetchResult SigninData.

(** X29. The status the adapter shows after [verify].  When [verify]
    returns [true] the status is [authenticated].  When it returns [false]
    and the sign-in request was made -- the message carries an address and
    [check-user] answered with an ok status and a truthy [exists] -- the
    status is what the earlier session gives with [isAuthenticating]
    cleared; when it returns [false] without that request, the status is
    what it was.  A run that starts outside [loading] never ends in
    [loading]. *)
Theorem status_after_verify (message signature : string) (w : World) :
  exists b w',
    verify fetch_check fetch_signin message signature w = (Ret b, w') /\
    authenticationStatus (store w') =
    (if b then authenticated
     else
       match Server.match_address message with
       | Some a =>
           match fetch_check a with
           | Answered true d =>
               if data_exists d
               then (if isAuthenticated (store w) then authenticated
                     else unauthenticated)
               else authenticationStatus (store w)
           | _ => authenticationStatus (store w)
           end
       | None => authenticationStatus (store w)
       end) /\
    (isAuthenticating (store w) = false ->
     authenticationStatus (store w') <> loading).
Proof.
  unfold verify, setServerError, setUserExists. crun.
  destruct (Server.match_address message) as [a|].
  2:{ exists false, w. split; [reflexivity|]. split; [reflexivity|].
      intros Hidle. unfold authenticationStatus. rewrite Hidle.
      destruct (isAuthenticated (store w)); discriminate. }
  rewrite checkUserStatus_eq.
  assert (Hsame : forall st : AuthState,
             isAuthenticating st = isAuthenticating (store w) ->
             isAuthenticated st = isAuthenticated (store w) ->
             authenticationStatus st = authenticationStatus (store w) /\
             (isAuthenticating (store w) = false ->
              authenticationStatus st <> loading)).
  { intros st H1 H2. unfold authenticationStatus. rewrite H1, H2.
    split; [reflexivity|]. intros ->.
    destruct (isAuthenticated (store w)); discriminate. }
  assert (Hidle : forall st : AuthState,
             isAuthenticating st = false ->
             isAuthenticated st = isAuthenticated (store w) ->
             authenticationStatus st =
             (if isAuthenticated (store w) then authenticated
              else unauthenticated) /\
             (isAuthenticating (store w) = false ->
              authenticationStatus st <> loading)).
  { intros st H1 H2. unfold authenticationStatus. rewrite H1, H2.
    split; [reflexivity|]. intros _.
    destruct (isAuthenticated (store w)); discriminate. }
  destruct (fetch_check a) as [|[|] d1].
  1,3: eexists _, _; (split; [reflexivity|]); apply Hsame; reflexivity.
  crun. destruct (data_exists d1); cbn [negb].
  2:{ eexists _, _. split; [reflexivity|]. apply Hsame; reflexivity. }
  rewrite signIn_eq.
  destruct (fetch_signin message signature) as [|ok2 d2].
  { eexists _, _. split; [reflexivity|]. apply Hidle; reflexivity. }
  destruct (data_success d2 && truthy_str (data_token d2)).
  2:{ eexists _, _. split; [reflexivity|]. apply Hidle; reflexivity. }
  rewrite setAuthenticated_eq. cbv zeta.
  destruct (truthy_str (data_token d2)); crun;
    eexists _, _; (split; [reflexivity|]); (split; [reflexivity|]);
    intros _; discriminate.
Qed.

End StatusProperties.

(** ** The server properties of this part on runs *)

Section GuardRuns.

Import Server Sample.
Local Open Scope Z_scope.

#[local] Existing Instance PlainJwt.lib.

(** X5 on a run: the session issued for Alice. *)
Lemma issued_session_bounds_witness :
  exists p row,
    user_sessions (issued_world alice w_calm) !! issued_token alice w_calm =
    Some row /\
    wallet_address p = toLowerCase alice /\
    exp p * 1000 <= expires_at row.
Proof.
  destruct (issued_session_bounds alice w_calm (issued_world alice w_calm)
              (issued_token alice w_calm) (fresh_issue_quiet _ _ _))
    as (p & row & _ & Hrow & Hwallet & _ & _ & _ & Hbound & _).
  exists p, row. split; [exact Hrow|]. split; [exact Hwallet | exact Hbound].
Defined.

(** X7 on a run: Alice's credential is presented one minute after
    issuance. *)
Lemma me_after_issue_witness :
  exists w2,
    me (Some ("Bearer " +:+ issued_token alice w_minute))
      (issued_world alice w_minute) =
    (Ret (respond 200
            [("authenticated", JBool true);
             ("user", JObj [("walletAddress", JStr (toLowerCase alice))])]), w2) /\
    user_sessions w2 = user_sessions (issued_world alice w_minute).
Proof.
  apply (me_after_issue alice w_minute (issued_world alice w_minute)
           (issued_token alice w_minute) (fresh_issue_quiet _ _ _)).
  - by_vm.
  - reflexivity.
  - apply Z.ltb_lt. by_vm.
Defined.

(** X8 on a run: Alice signs in twice and the clock does not move. *)
Lemma signin_twice_same_second_witness :
  exists w2,
    signin (JStr (challenge alice)) unsigned
      (issued_world alice (sent (SelectUser (toLowerCase alice)) w_calm)) =
    (Ret (respond 500
            [("success", JBool false); ("error", JStr "Authentication failed")]),
     w2) /\
    user_sessions w2 =
    user_sessions (issued_world alice (sent (SelectUser (toLowerCase alice)) w_calm)).
Proof.
  apply (signin_twice_same_second (JStr (challenge alice)) unsigned w_calm
           (issued_world alice (sent (SelectUser (toLowerCase alice)) w_calm))
           _ sample_signin).
  - reflexivity.
  - reflexivity.
  - reflexivity.
  - by_vm.
Defined.

(** X11 on a run: the address of the challenge Alice signs. *)
Lemma match_address_sound_witness :
  is_wallet_address alice = true /\ String.length alice = 42%nat.
Proof.
  destruct (match_address_sound (challenge alice) alice ltac:(by_vm))
    as (Hw & Hlen & _).
  split; [exact Hw | exact Hlen].
Defined.

(** X12 on a run: the message the adapter prepares for Alice. *)
Lemma prepared_message_carries_address_witness :
  match_address (Client.prepareMessage "8f3a" alice "1") = Some alice.
Proof.
  exact (proj1 (prepared_message_carries_address alice "8f3a" "1" ltac:(by_vm))).
Defined.

Lemma sample_check_user :
  check_user (QText alice) w_calm =
  (Ret (respond 200
          [("exists", JBool true);
           ("canSignIn", JBool true);
           ("needsSetup", JBool false);
           ("address", JStr (toLowerCase alice))]),
   sent (SelectUser (toLowerCase alice)) w_calm).
Proof.
  rewrite check_user_eq.
  replace (nonempty alice) with true by reflexivity.
  replace (is_wallet_address alice) with true by by_vm.
  cbn [negb]. rewrite userDb_exists_eq. cbv zeta.
  change (hd None (faults w_calm)) with (@None string). cbv iota.
  assert (Hin : toLowerCase alice ∈ users w_calm).
  { change (toLowerCase alice ∈ ({[ alice_lc ]} : gset string)).
    apply elem_of_singleton_2. reflexivity. }
  destruct (decide (toLowerCase alice ∈ users w_calm)); [reflexivity | contradiction].
Qed.

(** X14 on a run: [check-user] says Alice can sign in, and she can. *)
Lemma check_user_predicts_signin_witness :
  signin (JStr (challenge alice)) unsigned w_calm =
  (Ret (respond 200
          [("success", JBool true);
           ("token",
            JStr (issued_token alice (sent (SelectUser (toLowerCase alice)) w_calm)));
           ("user", JObj [("walletAddress", JStr alice)])]),
   issued_world alice (sent (SelectUser (toLowerCase alice)) w_calm)).
Proof.
  apply (proj2 (check_user_predicts_signin (challenge alice) alice unsigned
                  w_calm _ _ ltac:(by_vm) eq_refl sample_check_user eq_refl)).
  - reflexivity.
  - apply createAuthSession_ok; [reflexivity | apply lookup_empty|].
    change (toLowerCase alice ∈ ({[ alice_lc ]} : gset string)).
    apply elem_of_singleton_2. reflexivity.
Defined.

End GuardRuns.

(** ** The client properties of this part on runs *)

Section StoreRuns.

Import Client Sample Tab.
Local Open Scope Z_scope.

#[local] Existing Instance PlainJwt.lib.
#[local] Existing Instance PlainJson.reader.

(** X18 on a run: Alice's credential in the second of its [exp], 36
    hours after issuance; the client would still send it, the server
    rejects it. *)
Lemma client_expiry_is_lenient_witness :
  fst (isTokenExpired (issued_token alice w_late)
         (empty_tab (t0 + 129600000) [])) = Ret false /\
  fst (Server.verifyAuthToken (issued_token alice w_late)
         (issued_world alice w_late)) = Ret None.
Proof.
  assert (Hclaims : read_claims (issued_token alice w_late) =
                    Some {| exp := Some 1700129600;
                            wallet_address := Some alice_lc |}) by by_vm.
  assert (Hdecode : Server.jwt_decode (issued_token alice w_late)
                      (signing_secret (Server.process_env (issued_world alice w_late))) =
                    Some (issued_payload alice w_late)) by by_vm.
  assert (Hclock : Server.clock (Server.tick (issued_world alice w_late)) =
                   clock (tick (empty_tab (t0 + 129600000) []))) by by_vm.
  assert (Hpos : 0 <= clock (tick (empty_tab (t0 + 129600000) []))).
  { apply Z.leb_le. by_vm. }
  apply (proj2 (client_expiry_is_lenient (issued_token alice w_late)
                  (empty_tab (t0 + 129600000) []) (issued_world alice w_late)
                  (issued_payload alice w_late) _
                  Hclaims eq_refl Hdecode Hclock Hpos)).
  - apply Z.eqb_neq. by_vm.
  - by_vm.
Defined.

(** X19 on a run: a token whose claims name [0xabc] is stored for the
    address Alice's wallet reported, and [initializeAuth] runs on a fresh
    store with that storage. *)
Lemma stored_sign_in_is_restored_witness :
  exists w1 w3,
    setAuthenticated true (Some alice) (Some "key.0xabc.1.2.cheshire-auth.0xabc")
      (empty_tab 1000 []) = (Ret tt, w1) /\
    userAddress (store w1) = Some alice /\
    initializeAuth (with_store initial_state w1) = (Ret tt, w3) /\
    userAddress (store w3) = Some "0xabc" /\
    isAuthenticated (store w3) = true.
Proof.
  assert (Hclaims : read_claims "key.0xabc.1.2.cheshire-auth.0xabc" =
                    Some {| exp := Some 2; wallet_address := Some "0xabc" |})
    by by_vm.
  destruct (stored_sign_in_is_restored (empty_tab 1000 []) alice "0xabc"
              "key.0xabc.1.2.cheshire-auth.0xabc" 2
              eq_refl Hclaims ltac:(discriminate) eq_refl)
    as (w1 & Hset & Hstore & Hls & Hkey & Hinit).
  assert (Hlive : clock (tick (with_store initial_state w1)) / 1000 <= 2).
  { rewrite setAuthenticated_eq in Hset. injection Hset as <-.
    apply Z.leb_le. by_vm. }
  exists w1, (with_store
                (set_restored "0xabc" "key.0xabc.1.2.cheshire-auth.0xabc"
                   (store (with_store initial_state w1)))
                (tick (with_store initial_state w1))).
  split; [exact Hset|]. split; [rewrite Hstore; reflexivity|].
  split; [|split; reflexivity].
  apply (proj1 (Hinit (with_store initial_state w1) Hkey)). exact Hlive.
Defined.

(** X21 on a run: Alice's wallet disconnects. *)
Lemma disconnect_fires_both_effects_witness :
  exists w1 w2,
    disconnectEffect false (alice_tab t0 []) = (Ret tt, w1) /\
    addressEffect None w1 = (Ret tt, w2) /\
    requests w2 =
    requests (alice_tab t0 []) ++
    [SignoutRequest "key.0xabc.1.2.cheshire-auth.0xabc";
     SignoutRequest "key.0xabc.1.2.cheshire-auth.0xabc"] /\
    timers w2 = timers (alice_tab t0 []) ++ [GoHome; Reload].
Proof.
  destruct (disconnect_fires_both_effects (alice_tab t0 []) alice
              "key.0xabc.1.2.cheshire-auth.0xabc"
              eq_refl eq_refl eq_refl eq_refl eq_refl eq_refl)
    as (w1 & w2 & H1 & H2 & Hrq & Htm & _).
  exists w1, w2. repeat split; assumption.
Defined.

End StoreRuns.

(** ** The sign-in flow on runs *)

Section FlowRuns.

Import Client Wire Sample Tab.
Local Open Scope Z_scope.

#[local] Existing Instance PlainJwt.lib.

(** X26 on a run: Alice signs in from an empty tab. *)
Lemma sign_in_end_to_end_witness :
  exists sw1 cw',
    snd (Server.check_user (Server.QText alice) w_calm) = sw1 /\
    verify (served_check w_calm) (served_signin sw1)
      (prepareMessage "8f3a" alice "1") "0xsigned" (empty_tab t0 []) =
    (Ret true, cw') /\
    userAddress (store cw') = Some alice /\
    jwtToken (store cw') = Some (flow_token alice w_calm).
Proof.
  assert (Hw : Server.is_wallet_address alice = true) by by_vm.
  assert (Hin : toLowerCase alice ∈ Server.users w_calm).
  { change (toLowerCase alice ∈ ({[ alice_lc ]} : gset string)).
    apply elem_of_singleton_2. reflexivity. }
  assert (Htoken : nonempty (flow_token alice w_calm) = true) by by_vm.
  destruct (sign_in_end_to_end alice "8f3a" "1" "0xsigned" w_calm (empty_tab t0 [])
              Hw eq_refl Hin eq_refl eq_refl eq_refl (lookup_empty _) Htoken)
    as (sw1 & sw2 & cw' & H1 & _ & Hv & _ & Haddr & Hjwt & _).
  exists sw1, cw'. repeat split; assumption.
Defined.

Lemma bob_has_no_profile :
  served_check w_calm bob =
  Answered true {| data_exists := false; data_needsSetup := true |}.
Proof.
  unfold served_check, answered. rewrite check_user_eq.
  replace (nonempty bob) with true by reflexivity.
  replace (Server.is_wallet_address bob) with true by by_vm.
  cbn [negb]. rewrite userDb_exists_eq. cbv zeta.
  change (hd None (Server.faults w_calm)) with (@None string). cbv iota.
  assert (Hneq : toLowerCase bob <> alice_lc) by (apply String.eqb_neq; by_vm).
  destruct (decide (toLowerCase bob ∈ Server.users w_calm)) as [Hin|_];
    [|reflexivity].
  exfalso. apply Hneq.
  change (toLowerCase bob ∈ ({[ alice_lc ]} : gset string)) in Hin.
  apply elem_of_singleton_1 in Hin. exact Hin.
Qed.

(** X27 on a run: Bob has no profile; whether the sign-in endpoint is
    down or up makes no difference. *)
Lemma verify_stops_without_profile_witness :
  exists cw',
    verify (served_check w_calm) (fun _ _ => Rejected)
      (prepareMessage "8f3a" bob "1") "0xsigned" (empty_tab t0 []) =
    (Ret false, cw') /\
    verify (served_check w_calm) (served_signin w_calm)
      (prepareMessage "8f3a" bob "1") "0xsigned" (empty_tab t0 []) =
    (Ret false, cw') /\
    userExists (store cw') = false.
Proof.
  destruct (verify_stops_without_profile (served_check w_calm)
              (fun _ _ => Rejected) (served_signin w_calm)
              (prepareMessage "8f3a" bob "1") "0xsigned" bob (empty_tab t0 [])
              (match_prepared "8f3a" bob "1" ltac:(by_vm)))
    as (cw' & H1 & H2 & H3 & _).
  - intros d Hd. rewrite bob_has_no_profile in Hd. injection Hd as <-. reflexivity.
  - exists cw'. repeat split; assumption.
Defined.

End FlowRuns.
